(** * Resource-manager limit planning of rainbow (rcmgr.go)

    A shallow embedding of [makeResourceMgrs], [makeResourceManagerConfig]
    and [makeSeparateDHTClientResourceManagerConfig] together with the part
    of go-libp2p's resource-manager package those functions call, and the
    properties of the planning policy stated about them.

    Conventions.  Go's [int] and [int64] are 64-bit two's-complement
    integers and [uint64] is a 64-bit unsigned integer; they are carried as
    [Z] with every wrap-around written out.  [float64] is IEEE 754 binary64,
    carried as [spec_float] with the operations of the standard library's
    executable specification.  The calls to [log.Printf] only report the
    budget; they do not influence any returned value and are left out. *)

From Stdlib Require Import ZArith Lia Bool.
From Stdlib Require Import Floats.SpecFloat.
From stdpp Require Import gmap strings fin_maps.

Local Open Scope Z_scope.

(** ** Go's fixed-width integers *)

Module Go.

Definition MaxInt : Z := 2 ^ 63 - 1.
Definition MinInt : Z := - 2 ^ 63.
Definition MaxUint64 : Z := 2 ^ 64 - 1.

(** Conversion of an integer value to [int] / [int64]: keep the low 64
    bits, read as two's complement. *)
Definition to_int (z : Z) : Z := (z + 2 ^ 63) mod 2 ^ 64 - 2 ^ 63.

(** Conversion of an integer value to [uint64]. *)
Definition to_uint64 (z : Z) : Z := z mod 2 ^ 64.

Definition is_int (z : Z) : Prop := MinInt <= z <= MaxInt.
Definition is_uint64 (z : Z) : Prop := 0 <= z <= MaxUint64.

(** Signed 64-bit arithmetic.  Division truncates toward zero; a zero
    divisor panics in Go and never occurs at the call sites below. *)
Definition int_add (a b : Z) : Z := to_int (a + b).
Definition int_sub (a b : Z) : Z := to_int (a - b).
Definition int_mul (a b : Z) : Z := to_int (a * b).
Definition int_div (a b : Z) : Z := to_int (Z.quot a b).

(** Unsigned 64-bit arithmetic. *)
Definition uint64_add (a b : Z) : Z := to_uint64 (a + b).
Definition uint64_sub (a b : Z) : Z := to_uint64 (a - b).
Definition uint64_mul (a b : Z) : Z := to_uint64 (a * b).
Definition uint64_div (a b : Z) : Z := Z.div a b.

End Go.

(** ** Go's float64 *)

Module Float64.

Definition prec : Z := 53.
Definition emax : Z := 1024.

(** [float64(n)] for an integer [n]: rounding to nearest, ties to even. *)
Definition of_Z (n : Z) : spec_float := binary_normalize prec emax n 0 false.

Definition mul (x y : spec_float) : spec_float := SFmul prec emax x y.

(** The float64 nearest to a decimal constant [n / d], as the compiler
    converts an untyped constant. *)
Definition of_ratio (n d : Z) : spec_float :=
  SFdiv prec emax (of_Z n) (of_Z d).

(** The constants [0.85] and [0.75]. *)
Definition c0_85 : spec_float := S754_finite false 7656119366529843 (-53).
Definition c0_75 : spec_float := S754_finite false 6755399441055744 (-53).

(** Conversion of a float to an integer discards the fraction.  The
    result for infinities and NaN is implementation-specific in Go; no
    call site below can produce them, and 0 stands for that case. *)
Definition trunc (x : spec_float) : Z :=
  match x with
  | S754_finite s m e =>
      let a := match e with
               | Zneg p => Z.pos m / 2 ^ Z.pos p
               | _ => Z.pos m * 2 ^ e
               end in
      if s then - a else a
  | _ => 0
  end.

Definition to_uint64 (x : spec_float) : Z := Go.to_uint64 (trunc x).
Definition to_int (x : spec_float) : Z := Go.to_int (trunc x).

End Float64.

(** ** go-libp2p's resource-manager limits

    rcmgr.go imports the package
    [github.com/libp2p/go-libp2p/p2p/host/resource-manager]; its sources are
    not part of the repository.  What rcmgr.go uses of it is modelled in
    this module after sections 3, 4.2 and 6 of the specification, with the
    integer encoding of limit values that rcmgr.go itself relies on when it
    converts an [int] to a limit and compares a limit with [DefaultLimit]
    by [>]. *)

Module rcmgr.

(** Modelled from the spec: the type [LimitVal] of the missing package, the
    tri-state limit value of section 3 (unlimited, default, or a concrete
    bound) as an [int] with reserved values. *)
Definition LimitVal : Type := Z.

(** Modelled from the spec: the sentinels of [LimitVal] in the missing
    package.  [DefaultLimit] is the "inherit from the autoscaler" marker and
    is Go's zero value, [Unlimited] and [BlockAllLimit] are negative. *)
Definition DefaultLimit : LimitVal := 0.
Definition Unlimited : LimitVal := -1.
Definition BlockAllLimit : LimitVal := -2.

(** Modelled from the spec: [Unlimited64], the same sentinel for the
    [int64] limit of the memory field. *)
Definition Unlimited64 : LimitVal := -1.

(** Modelled from the spec: the record [ResourceLimits] of the missing
    package, the limits of one scope as written by a user of the package
    (section 3). *)
Record ResourceLimits : Type := mkResourceLimits {
  Streams : LimitVal;
  StreamsInbound : LimitVal;
  StreamsOutbound : LimitVal;
  Conns : LimitVal;
  ConnsInbound : LimitVal;
  ConnsOutbound : LimitVal;
  FD : LimitVal;
  Memory : LimitVal
}.

(** Modelled from the spec: the record [BaseLimit] of the missing package,
    the resolved limits of one scope: plain integers, [math.MaxInt] meaning
    that the resource is not limited. *)
Module BaseLimit.
Record t : Type := mk {
  Streams : Z;
  StreamsInbound : Z;
  StreamsOutbound : Z;
  Conns : Z;
  ConnsInbound : Z;
  ConnsOutbound : Z;
  FD : Z;
  Memory : Z
}.
End BaseLimit.

(** Modelled from the spec: [LimitVal.Build] of the missing package, the
    per-field merge rule of section 4.2: [Default] takes the fallback,
    anything explicit wins. *)
Definition LimitVal_Build (l : LimitVal) (defaultVal : Z) : Z :=
  if l =? DefaultLimit then defaultVal
  else if l =? Unlimited then Go.MaxInt
  else if l =? BlockAllLimit then 0
  else l.

(** Modelled from the spec: [valueOrBlockAll] of the missing package, the
    encoding of a resolved limit used by [ToPartialLimitConfig]; a resolved
    0 is written back as "block all", never as the [Default] marker. *)
Definition valueOrBlockAll (n : Z) : LimitVal :=
  if n =? 0 then BlockAllLimit
  else if n =? Go.MaxInt then Unlimited
  else n.

(** Modelled from the spec: [ResourceLimits.Build] of the missing package,
    the merge rule of section 4.2 applied to every field of a scope. *)
Definition ResourceLimits_Build (l : ResourceLimits) (defaults : BaseLimit.t)
  : BaseLimit.t :=
  {| BaseLimit.Streams := LimitVal_Build (Streams l) (BaseLimit.Streams defaults);
     BaseLimit.StreamsInbound :=
       LimitVal_Build (StreamsInbound l) (BaseLimit.StreamsInbound defaults);
     BaseLimit.StreamsOutbound :=
       LimitVal_Build (StreamsOutbound l) (BaseLimit.StreamsOutbound defaults);
     BaseLimit.Conns := LimitVal_Build (Conns l) (BaseLimit.Conns defaults);
     BaseLimit.ConnsInbound :=
       LimitVal_Build (ConnsInbound l) (BaseLimit.ConnsInbound defaults);
     BaseLimit.ConnsOutbound :=
       LimitVal_Build (ConnsOutbound l) (BaseLimit.ConnsOutbound defaults);
     BaseLimit.FD := LimitVal_Build (FD l) (BaseLimit.FD defaults);
     BaseLimit.Memory := LimitVal_Build (Memory l) (BaseLimit.Memory defaults) |}.

(** Modelled from the spec: [BaseLimit.ToResourceLimits] of the missing
    package. *)
Definition ToResourceLimits (l : BaseLimit.t) : ResourceLimits :=
  {| Streams := valueOrBlockAll (BaseLimit.Streams l);
     StreamsInbound := valueOrBlockAll (BaseLimit.StreamsInbound l);
     StreamsOutbound := valueOrBlockAll (BaseLimit.StreamsOutbound l);
     Conns := valueOrBlockAll (BaseLimit.Conns l);
     ConnsInbound := valueOrBlockAll (BaseLimit.ConnsInbound l);
     ConnsOutbound := valueOrBlockAll (BaseLimit.ConnsOutbound l);
     FD := valueOrBlockAll (BaseLimit.FD l);
     Memory := valueOrBlockAll (BaseLimit.Memory l) |}.

(** Modelled from the spec: the record [PartialLimitConfig] of the missing
    package, the scope hierarchy of section 3 with possibly unresolved
    fields.  The maps hold the limits of individually named services,
    protocols and peers. *)
Record PartialLimitConfig : Type := mkPartialLimitConfig {
  System : ResourceLimits;
  Transient : ResourceLimits;
  AllowlistedSystem : ResourceLimits;
  AllowlistedTransient : ResourceLimits;
  ServiceDefault : ResourceLimits;
  Service : gmap string ResourceLimits;
  ServicePeerDefault : ResourceLimits;
  ServicePeer : gmap string ResourceLimits;
  ProtocolDefault : ResourceLimits;
  Protocol : gmap string ResourceLimits;
  ProtocolPeerDefault : ResourceLimits;
  ProtocolPeer : gmap string ResourceLimits;
  PeerDefault : ResourceLimits;
  Peer : gmap string ResourceLimits;
  Conn : ResourceLimits;
  Stream : ResourceLimits
}.

(** Modelled from the spec: the record [ConcreteLimitConfig] of the missing
    package, the resolved scope hierarchy, the only form the enforcement
    layer accepts. *)
Record ConcreteLimitConfig : Type := mkConcreteLimitConfig {
  system : BaseLimit.t;
  transient : BaseLimit.t;
  allowlistedSystem : BaseLimit.t;
  allowlistedTransient : BaseLimit.t;
  serviceDefault : BaseLimit.t;
  service : gmap string BaseLimit.t;
  servicePeerDefault : BaseLimit.t;
  servicePeer : gmap string BaseLimit.t;
  protocolDefault : BaseLimit.t;
  protocol : gmap string BaseLimit.t;
  protocolPeerDefault : BaseLimit.t;
  protocolPeer : gmap string BaseLimit.t;
  peerDefault : BaseLimit.t;
  peer : gmap string BaseLimit.t;
  conn : BaseLimit.t;
  stream : BaseLimit.t
}.

(** Modelled from the spec: [buildMapWithDefault] of the missing package.
    Entries of [defaults] are kept; an entry of [definedLimits] is resolved
    against the default of the same key, or against [fallbackDefault] when
    there is none. *)
Definition buildMapWithDefault (definedLimits : gmap string ResourceLimits)
    (defaults : gmap string BaseLimit.t) (fallbackDefault : BaseLimit.t)
  : gmap string BaseLimit.t :=
  merge (fun l d =>
           match l, d with
           | Some l, Some d => Some (ResourceLimits_Build l d)
           | Some l, None => Some (ResourceLimits_Build l fallbackDefault)
           | None, d => d
           end) definedLimits defaults.

(** Modelled from the spec: [PartialLimitConfig.Build] of the missing
    package, the merge operator [build(partial, fallback)] of sections 4.2
    and 6. *)
Definition Build (cfg : PartialLimitConfig) (defaults : ConcreteLimitConfig)
  : ConcreteLimitConfig :=
  let serviceDefault' := ResourceLimits_Build (ServiceDefault cfg) (serviceDefault defaults) in
  let servicePeerDefault' :=
    ResourceLimits_Build (ServicePeerDefault cfg) (servicePeerDefault defaults) in
  let protocolDefault' := ResourceLimits_Build (ProtocolDefault cfg) (protocolDefault defaults) in
  let protocolPeerDefault' :=
    ResourceLimits_Build (ProtocolPeerDefault cfg) (protocolPeerDefault defaults) in
  let peerDefault' := ResourceLimits_Build (PeerDefault cfg) (peerDefault defaults) in
  {| system := ResourceLimits_Build (System cfg) (system defaults);
     transient := ResourceLimits_Build (Transient cfg) (transient defaults);
     allowlistedSystem :=
       ResourceLimits_Build (AllowlistedSystem cfg) (allowlistedSystem defaults);
     allowlistedTransient :=
       ResourceLimits_Build (AllowlistedTransient cfg) (allowlistedTransient defaults);
     serviceDefault := serviceDefault';
     service := buildMapWithDefault (Service cfg) (service defaults) serviceDefault';
     servicePeerDefault := servicePeerDefault';
     servicePeer :=
       buildMapWithDefault (ServicePeer cfg) (servicePeer defaults) servicePeerDefault';
     protocolDefault := protocolDefault';
     protocol := buildMapWithDefault (Protocol cfg) (protocol defaults) protocolDefault';
     protocolPeerDefault := protocolPeerDefault';
     protocolPeer :=
       buildMapWithDefault (ProtocolPeer cfg) (protocolPeer defaults) protocolPeerDefault';
     peerDefault := peerDefault';
     peer := buildMapWithDefault (Peer cfg) (peer defaults) peerDefault';
     conn := ResourceLimits_Build (Conn cfg) (conn defaults);
     stream := ResourceLimits_Build (Stream cfg) (stream defaults) |}.

(** Modelled from the spec: [ConcreteLimitConfig.ToPartialLimitConfig] of
    the missing package, which writes a resolved hierarchy back in the
    partial form. *)
Definition ToPartialLimitConfig (cfg : ConcreteLimitConfig) : PartialLimitConfig :=
  {| System := ToResourceLimits (system cfg);
     Transient := ToResourceLimits (transient cfg);
     AllowlistedSystem := ToResourceLimits (allowlistedSystem cfg);
     AllowlistedTransient := ToResourceLimits (allowlistedTransient cfg);
     ServiceDefault := ToResourceLimits (serviceDefault cfg);
     Service := ToResourceLimits <$> service cfg;
     ServicePeerDefault := ToResourceLimits (servicePeerDefault cfg);
     ServicePeer := ToResourceLimits <$> servicePeer cfg;
     ProtocolDefault := ToResourceLimits (protocolDefault cfg);
     Protocol := ToResourceLimits <$> protocol cfg;
     ProtocolPeerDefault := ToResourceLimits (protocolPeerDefault cfg);
     ProtocolPeer := ToResourceLimits <$> protocolPeer cfg;
     PeerDefault := ToResourceLimits (peerDefault cfg);
     Peer := ToResourceLimits <$> peer cfg;
     Conn := ToResourceLimits (conn cfg);
     Stream := ToResourceLimits (stream cfg) |}.

(** Modelled from the spec: [BaseLimit{}] and [ConcreteLimitConfig{}], Go's
    zero values of the two records of the missing package (the "empty"
    fallback of section 6). *)
Definition zeroBaseLimit : BaseLimit.t := BaseLimit.mk 0 0 0 0 0 0 0 0.

Definition emptyConcreteLimitConfig : ConcreteLimitConfig :=
  {| system := zeroBaseLimit; transient := zeroBaseLimit;
     allowlistedSystem := zeroBaseLimit; allowlistedTransient := zeroBaseLimit;
     serviceDefault := zeroBaseLimit; service := ∅;
     servicePeerDefault := zeroBaseLimit; servicePeer := ∅;
     protocolDefault := zeroBaseLimit; protocol := ∅;
     protocolPeerDefault := zeroBaseLimit; protocolPeer := ∅;
     peerDefault := zeroBaseLimit; peer := ∅;
     conn := zeroBaseLimit; stream := zeroBaseLimit |}.

(** Modelled from the spec: [InfiniteLimits] of the missing package, the
    constant "fully unlimited" hierarchy of section 4.1. *)
Definition infiniteBaseLimit : BaseLimit.t :=
  BaseLimit.mk Go.MaxInt Go.MaxInt Go.MaxInt Go.MaxInt Go.MaxInt Go.MaxInt
    Go.MaxInt Go.MaxInt.

Definition InfiniteLimits : ConcreteLimitConfig :=
  {| system := infiniteBaseLimit; transient := infiniteBaseLimit;
     allowlistedSystem := infiniteBaseLimit; allowlistedTransient := infiniteBaseLimit;
     serviceDefault := infiniteBaseLimit; service := ∅;
     servicePeerDefault := infiniteBaseLimit; servicePeer := ∅;
     protocolDefault := infiniteBaseLimit; protocol := ∅;
     protocolPeerDefault := infiniteBaseLimit; protocolPeer := ∅;
     peerDefault := infiniteBaseLimit; peer := ∅;
     conn := infiniteBaseLimit; stream := infiniteBaseLimit |}.

End rcmgr.

(** ** The planner (package main, rcmgr.go) *)

Import rcmgr.

(** [infiniteResourceLimits]: the System scope of the partial form of
    [rcmgr.InfiniteLimits]. *)
Definition infiniteResourceLimits : ResourceLimits :=
  System (ToPartialLimitConfig InfiniteLimits).

(** The two limits the check against the connection manager reads and
    writes. *)
Definition inboundConns (partialLimits : PartialLimitConfig) : LimitVal :=
  ConnsInbound (System partialLimits).

Definition inboundStreams (partialLimits : PartialLimitConfig) : LimitVal :=
  StreamsInbound (System partialLimits).

(** No limit of the scope is the [Default] marker. *)
Definition noDefault (l : ResourceLimits) : Prop :=
  Streams l <> DefaultLimit /\ StreamsInbound l <> DefaultLimit
  /\ StreamsOutbound l <> DefaultLimit /\ Conns l <> DefaultLimit
  /\ ConnsInbound l <> DefaultLimit /\ ConnsOutbound l <> DefaultLimit
  /\ FD l <> DefaultLimit /\ Memory l <> DefaultLimit.

(** No limit of any scope, named or default, is the [Default] marker. *)
Definition fullyResolved (cfg : PartialLimitConfig) : Prop :=
  noDefault (System cfg) /\ noDefault (Transient cfg)
  /\ noDefault (AllowlistedSystem cfg) /\ noDefault (AllowlistedTransient cfg)
  /\ noDefault (ServiceDefault cfg) /\ noDefault (ServicePeerDefault cfg)
  /\ noDefault (ProtocolDefault cfg) /\ noDefault (ProtocolPeerDefault cfg)
  /\ noDefault (PeerDefault cfg) /\ noDefault (Conn cfg) /\ noDefault (Stream cfg)
  /\ map_Forall (fun _ => noDefault) (Service cfg)
  /\ map_Forall (fun _ => noDefault) (ServicePeer cfg)
  /\ map_Forall (fun _ => noDefault) (Protocol cfg)
  /\ map_Forall (fun _ => noDefault) (ProtocolPeer cfg)
  /\ map_Forall (fun _ => noDefault) (Peer cfg).

#[global] Instance noDefault_dec (l : ResourceLimits) : Decision (noDefault l).
Proof. unfold noDefault. apply _. Defined.

#[global] Instance fullyResolved_dec (cfg : PartialLimitConfig) : Decision (fullyResolved cfg).
Proof. unfold fullyResolved. apply _. Defined.

(** A fallback for [Build] that carries base limits for every scope but
    names no service, protocol or peer, as [ConcreteLimitConfig{}] does. *)
Definition baseLimitsOnly (d : ConcreteLimitConfig) : ConcreteLimitConfig :=
  {| system := system d; transient := transient d;
     allowlistedSystem := allowlistedSystem d;
     allowlistedTransient := allowlistedTransient d;
     serviceDefault := serviceDefault d; service := ∅;
     servicePeerDefault := servicePeerDefault d; servicePeer := ∅;
     protocolDefault := protocolDefault d; protocol := ∅;
     protocolPeerDefault := protocolPeerDefault d; protocolPeer := ∅;
     peerDefault := peerDefault d; peer := ∅;
     conn := conn d; stream := stream d |}.

(** The Transient scope is a quarter of the budget and of the System
    inbound-connections limit, and unlimited otherwise. *)
Definition quarterTransient (cfg : PartialLimitConfig) (maxMemory maxFD : Z) : Prop :=
  Memory (Transient cfg) = maxMemory / 4
  /\ FD (Transient cfg) = Z.quot maxFD 4
  /\ ConnsInbound (Transient cfg) = Z.quot (ConnsInbound (System cfg)) 4
  /\ Conns (Transient cfg) = Unlimited
  /\ ConnsOutbound (Transient cfg) = Unlimited
  /\ Streams (Transient cfg) = Unlimited
  /\ StreamsInbound (Transient cfg) = Unlimited
  /\ StreamsOutbound (Transient cfg) = Unlimited.

(** [share] is [pct] percent of [total] as far as two float64 roundings and
    a truncation allow: it has the sign of [total], at most its magnitude,
    and lies within one unit and one part in [2 ^ 50] of the exact
    percentage. *)
Definition percentShare (pct total share : Z) : Prop :=
  share = Z.sgn total * Z.abs share
  /\ Z.abs share <= Z.abs total
  /\ 100 * 2 ^ 50 * Z.abs share <= pct * (2 ^ 50 + 1) * Z.abs total
  /\ pct * (2 ^ 50 - 1) * Z.abs total < 100 * 2 ^ 50 * (Z.abs share + 1).

Section Planner.

(** What the planner obtains from its collaborators: the total memory of
    the machine ([memory.TotalMemory()], a uint64), the file-descriptor
    ceiling of the process ([fd.GetNumFDs()], an int), the autoscaled
    limits [scalingLimitConfig.Scale(memory, numFD)] of go-libp2p's
    [DefaultLimits] extended by [libp2p.SetDefaultServiceLimits], and the
    constructor [rcmgr.NewResourceManager(rcmgr.NewFixedLimiter(cfg))],
    which may fail. *)
Variable TotalMemory : Z.
Variable GetNumFDs : Z.
Variable Scale : Z -> Z -> ConcreteLimitConfig.
Variables ResourceManager error : Type.
Variable NewResourceManager : ConcreteLimitConfig -> ResourceManager + error.

(** [uint64((float64(memory.TotalMemory()) * 0.85))] *)
Definition defaultMaxMemory : Z :=
  Float64.to_uint64 (Float64.mul (Float64.of_Z TotalMemory) Float64.c0_85).

(** [fd.GetNumFDs() / 2] *)
Definition defaultMaxFD : Z := Go.int_div GetNumFDs 2.

(** [systemConnsInbound := int(1 * maxMemoryMB)] with
    [maxMemoryMB := maxMemory / (1024 * 1024)]. *)
Definition systemConnsInbound (maxMemory : Z) : Z :=
  let maxMemoryMB := Go.uint64_div maxMemory (1024 * 1024) in
  Go.to_int (Go.uint64_mul 1 maxMemoryMB).

(** The [partialLimits] literal of [makeResourceManagerConfig], for the
    budget in force after the zero substitutions. *)
Definition makeResourceManagerConfig_partialLimits (maxMemory maxFD : Z)
  : PartialLimitConfig :=
  let systemConnsInbound := systemConnsInbound maxMemory in
  {| System :=
       {| Memory := Go.to_int maxMemory;
          FD := maxFD;
          Conns := Unlimited;
          ConnsInbound := systemConnsInbound;
          ConnsOutbound := Unlimited;
          Streams := Unlimited;
          StreamsOutbound := Unlimited;
          StreamsInbound := Unlimited |};
     Transient :=
       {| Memory := Go.to_int (Go.uint64_div maxMemory 4);
          FD := Go.int_div maxFD 4;
          Conns := Unlimited;
          ConnsInbound := Go.int_div systemConnsInbound 4;
          ConnsOutbound := Unlimited;
          Streams := Unlimited;
          StreamsInbound := Unlimited;
          StreamsOutbound := Unlimited |};
     AllowlistedSystem := infiniteResourceLimits;
     AllowlistedTransient := infiniteResourceLimits;
     ServiceDefault := infiniteResourceLimits;
     Service := ∅;
     ServicePeerDefault := infiniteResourceLimits;
     ServicePeer := ∅;
     ProtocolDefault := infiniteResourceLimits;
     Protocol := ∅;
     ProtocolPeerDefault := infiniteResourceLimits;
     ProtocolPeer := ∅;
     PeerDefault :=
       {| Memory := Unlimited64;
          FD := Unlimited;
          Conns := Unlimited;
          ConnsInbound := DefaultLimit;
          ConnsOutbound := Unlimited;
          Streams := Unlimited;
          StreamsInbound := DefaultLimit;
          StreamsOutbound := Unlimited |};
     Peer := ∅;
     Conn := infiniteResourceLimits;
     Stream := infiniteResourceLimits |}.

(** [partialLimits.Build(scalingLimitConfig.Scale(int64(maxMemory), maxFD)).ToPartialLimitConfig()] *)
Definition autoscaleMerge (partialLimits : PartialLimitConfig) (maxMemory maxFD : Z)
  : PartialLimitConfig :=
  ToPartialLimitConfig (Build partialLimits (Scale (Go.to_int maxMemory) maxFD)).

(** The check of the merged System inbound-connections limit against the
    connection manager's high-water mark ([if partialLimits.System.ConnsInbound
    > rcmgr.DefaultLimit { ... }]).  [LimitVal], [int] and [int64] have the
    same width, so the conversions between them change nothing. *)
Definition overrideInboundConns (partialLimits : PartialLimitConfig)
    (connMgrHighWater : Z) : PartialLimitConfig :=
  let sys := System partialLimits in
  if DefaultLimit <? ConnsInbound sys then
    let maxInboundConns := ConnsInbound sys in
    let connmgrHighWaterTimesTwo := Go.int_mul connMgrHighWater 2 in
    let maxInboundConns :=
      if maxInboundConns <? connmgrHighWaterTimesTwo
      then connmgrHighWaterTimesTwo else maxInboundConns in
    let maxInboundConns := if maxInboundConns <? 800 then 800 else maxInboundConns in
    let streamsInbound :=
      if DefaultLimit <? StreamsInbound sys
      then Go.int_div (Go.int_mul maxInboundConns (StreamsInbound sys)) (ConnsInbound sys)
      else StreamsInbound sys in
    {| System :=
         {| Streams := Streams sys;
            StreamsInbound := streamsInbound;
            StreamsOutbound := StreamsOutbound sys;
            Conns := Conns sys;
            ConnsInbound := maxInboundConns;
            ConnsOutbound := ConnsOutbound sys;
            FD := FD sys;
            Memory := Memory sys |};
       Transient := Transient partialLimits;
       AllowlistedSystem := AllowlistedSystem partialLimits;
       AllowlistedTransient := AllowlistedTransient partialLimits;
       ServiceDefault := ServiceDefault partialLimits;
       Service := Service partialLimits;
       ServicePeerDefault := ServicePeerDefault partialLimits;
       ServicePeer := ServicePeer partialLimits;
       ProtocolDefault := ProtocolDefault partialLimits;
       Protocol := Protocol partialLimits;
       ProtocolPeerDefault := ProtocolPeerDefault partialLimits;
       ProtocolPeer := ProtocolPeer partialLimits;
       PeerDefault := PeerDefault partialLimits;
       Peer := Peer partialLimits;
       Conn := Conn partialLimits;
       Stream := Stream partialLimits |}
  else partialLimits.

(** The substitutions at the head of [makeResourceMgrs] and of
    [makeResourceManagerConfig]: a zero budget is replaced by the share of
    the machine. *)
Definition budgetMemory (maxMemory : Z) : Z :=
  if maxMemory =? 0 then defaultMaxMemory else maxMemory.

Definition budgetFD (maxFD : Z) : Z :=
  if maxFD =? 0 then defaultMaxFD else maxFD.

(** [partialLimits] of [makeResourceManagerConfig] after the merge with
    the autoscaled limits, before the check against the connection
    manager. *)
Definition makeResourceManagerConfig_merged (maxMemory maxFD : Z) : PartialLimitConfig :=
  let maxMemory := budgetMemory maxMemory in
  let maxFD := budgetFD maxFD in
  autoscaleMerge (makeResourceManagerConfig_partialLimits maxMemory maxFD) maxMemory maxFD.

(** [partialLimits] of [makeResourceManagerConfig] as it reaches the final
    [Build]. *)
Definition makeResourceManagerConfig_resolved (maxMemory maxFD connMgrHighWater : Z)
  : PartialLimitConfig :=
  overrideInboundConns (makeResourceManagerConfig_merged maxMemory maxFD) connMgrHighWater.

Definition makeResourceManagerConfig (maxMemory maxFD connMgrHighWater : Z)
  : ConcreteLimitConfig :=
  Build (makeResourceManagerConfig_resolved maxMemory maxFD connMgrHighWater)
    emptyConcreteLimitConfig.

(** The System inbound-connections limit before the check against the
    connection manager, and in the configuration returned. *)
Definition preOverrideInboundConns (maxMemory maxFD : Z) : LimitVal :=
  inboundConns (makeResourceManagerConfig_merged maxMemory maxFD).

Definition finalInboundConns (maxMemory maxFD connMgrHighWater : Z) : Z :=
  BaseLimit.ConnsInbound
    (system (makeResourceManagerConfig maxMemory maxFD connMgrHighWater)).

(** The [partialLimits] literal of
    [makeSeparateDHTClientResourceManagerConfig]. *)
Definition makeSeparateDHTClientResourceManagerConfig_partialLimits
    (maxMemory maxFD : Z) : PartialLimitConfig :=
  let systemConnsInbound := 30 in
  let systemStreamsPerPeerInbound := 10 in
  {| System :=
       {| Memory := Go.to_int maxMemory;
          FD := maxFD;
          Conns := Unlimited;
          ConnsInbound := systemConnsInbound;
          ConnsOutbound := Unlimited;
          Streams := Unlimited;
          StreamsOutbound := Unlimited;
          StreamsInbound := Unlimited |};
     Transient :=
       {| Memory := Go.to_int (Go.uint64_div maxMemory 4);
          FD := Go.int_div maxFD 4;
          Conns := Unlimited;
          ConnsInbound := Go.int_div systemConnsInbound 4;
          ConnsOutbound := Unlimited;
          Streams := Unlimited;
          StreamsInbound := Unlimited;
          StreamsOutbound := Unlimited |};
     AllowlistedSystem := infiniteResourceLimits;
     AllowlistedTransient := infiniteResourceLimits;
     ServiceDefault := infiniteResourceLimits;
     Service := ∅;
     ServicePeerDefault := infiniteResourceLimits;
     ServicePeer := ∅;
     ProtocolDefault := infiniteResourceLimits;
     Protocol := ∅;
     ProtocolPeerDefault := infiniteResourceLimits;
     ProtocolPeer := ∅;
     PeerDefault :=
       {| Memory := Unlimited64;
          FD := Unlimited;
          Conns := Unlimited;
          ConnsInbound := DefaultLimit;
          ConnsOutbound := Unlimited;
          Streams := Unlimited;
          StreamsInbound := systemStreamsPerPeerInbound;
          StreamsOutbound := Unlimited |};
     Peer := ∅;
     Conn := infiniteResourceLimits;
     Stream := infiniteResourceLimits |}.

(** [partialLimits] of [makeSeparateDHTClientResourceManagerConfig] as it
    reaches the final [Build]; this function has no zero substitution and
    no check against the connection manager. *)
Definition makeSeparateDHTClientResourceManagerConfig_resolved (maxMemory maxFD : Z)
  : PartialLimitConfig :=
  autoscaleMerge (makeSeparateDHTClientResourceManagerConfig_partialLimits maxMemory maxFD)
    maxMemory maxFD.

Definition makeSeparateDHTClientResourceManagerConfig (maxMemory maxFD : Z)
  : ConcreteLimitConfig :=
  Build (makeSeparateDHTClientResourceManagerConfig_resolved maxMemory maxFD)
    emptyConcreteLimitConfig.

(** The shares of the two hosts when the DHT host is separate. *)
Record Shares : Type := mkShares {
  bitswapHostMem : Z;
  bitswapHostFDs : Z;
  dhtHostMem : Z;
  dhtHostFDs : Z
}.

Definition splitBudget (maxMemory maxFD : Z) : Shares :=
  let bitswapHostMem := Float64.to_uint64 (Float64.mul (Float64.of_Z maxMemory) Float64.c0_85) in
  let bitswapHostFDs := Float64.to_int (Float64.mul (Float64.of_Z maxFD) Float64.c0_75) in
  {| bitswapHostMem := bitswapHostMem;
     bitswapHostFDs := bitswapHostFDs;
     dhtHostMem := Go.uint64_sub maxMemory bitswapHostMem;
     dhtHostFDs := Go.int_sub maxFD bitswapHostFDs |}.

(** The result triple [(bitswapHost, dhtHost, err)]; [None] is Go's nil. *)
Definition makeResourceMgrs (maxMemory maxFD connMgrHighWater : Z) (separateDHT : bool)
  : option ResourceManager * option ResourceManager * option error :=
  let maxMemory := budgetMemory maxMemory in
  let maxFD := budgetFD maxFD in
  if negb separateDHT then
    match NewResourceManager (makeResourceManagerConfig maxMemory maxFD connMgrHighWater) with
    | inr err => (None, None, Some err)
    | inl mgr => (Some mgr, None, None)
    end
  else
    let shares := splitBudget maxMemory maxFD in
    match NewResourceManager
            (makeResourceManagerConfig (bitswapHostMem shares) (bitswapHostFDs shares)
               connMgrHighWater) with
    | inr err => (None, None, Some err)
    | inl bitswapHostRcMgr =>
        match NewResourceManager
                (makeSeparateDHTClientResourceManagerConfig (dhtHostMem shares)
                   (dhtHostFDs shares)) with
        | inr err => (None, None, Some err)
        | inl dhtHostRcMgr => (Some bitswapHostRcMgr, Some dhtHostRcMgr, None)
        end
    end.

End Planner.

(** ** Observations on returned configurations *)

(** Every limit of the scope is a count or a size, not a negative number. *)
Definition nonNegative (l : BaseLimit.t) : Prop :=
  0 <= BaseLimit.Streams l /\ 0 <= BaseLimit.StreamsInbound l
  /\ 0 <= BaseLimit.StreamsOutbound l /\ 0 <= BaseLimit.Conns l
  /\ 0 <= BaseLimit.ConnsInbound l /\ 0 <= BaseLimit.ConnsOutbound l
  /\ 0 <= BaseLimit.FD l /\ 0 <= BaseLimit.Memory l.

(** [c] with its System inbound-connections limit replaced by [n]. *)
Definition setSystemConnsInbound (c : ConcreteLimitConfig) (n : Z) : ConcreteLimitConfig :=
  {| system :=
       {| BaseLimit.Streams := BaseLimit.Streams (system c);
          BaseLimit.StreamsInbound := BaseLimit.StreamsInbound (system c);
          BaseLimit.StreamsOutbound := BaseLimit.StreamsOutbound (system c);
          BaseLimit.Conns := BaseLimit.Conns (system c);
          BaseLimit.ConnsInbound := n;
          BaseLimit.ConnsOutbound := BaseLimit.ConnsOutbound (system c);
          BaseLimit.FD := BaseLimit.FD (system c);
          BaseLimit.Memory := BaseLimit.Memory (system c) |};
     transient := transient c;
     allowlistedSystem := allowlistedSystem c;
     allowlistedTransient := allowlistedTransient c;
     serviceDefault := serviceDefault c; service := service c;
     servicePeerDefault := servicePeerDefault c; servicePeer := servicePeer c;
     protocolDefault := protocolDefault c; protocol := protocol c;
     protocolPeerDefault := protocolPeerDefault c; protocolPeer := protocolPeer c;
     peerDefault := peerDefault c; peer := peer c;
     conn := conn c; stream := stream c |}.

#[global] Instance nonNegative_dec (l : BaseLimit.t) : Decision (nonNegative l).
Proof. unfold nonNegative. apply _. Defined.

(** ** A sample environment

    A stand-in for go-libp2p's table of default limits, used to run the
    planner on concrete budgets: every scope gets 64 inbound connections
    plus 64 per GiB of memory, sixteen streams per connection, and one
    named service is registered. *)

Module Sample.

Definition scaledBaseLimit (memory numFD : Z) : BaseLimit.t :=
  let conns := 64 + 64 * (memory / 2 ^ 30) in
  {| BaseLimit.Streams := 32 * conns;
     BaseLimit.StreamsInbound := 16 * conns;
     BaseLimit.StreamsOutbound := 32 * conns;
     BaseLimit.Conns := 2 * conns;
     BaseLimit.ConnsInbound := conns;
     BaseLimit.ConnsOutbound := 2 * conns;
     BaseLimit.FD := numFD;
     BaseLimit.Memory := memory |}.

Definition Scale (memory numFD : Z) : ConcreteLimitConfig :=
  let b := scaledBaseLimit memory numFD in
  {| system := b; transient := b;
     allowlistedSystem := b; allowlistedTransient := b;
     serviceDefault := b; service := {[ "libp2p.ping"%string := b ]};
     servicePeerDefault := b; servicePeer := ∅;
     protocolDefault := b; protocol := ∅;
     protocolPeerDefault := b; protocolPeer := ∅;
     peerDefault := b; peer := ∅;
     conn := b; stream := b |}.

(** The machine: 16 GiB of memory, 1024 file descriptors. *)
Definition TotalMemory : Z := 16 * 2 ^ 30.
Definition GetNumFDs : Z := 1024.

(** A constructor that always fails. *)
Definition newFail (cfg : ConcreteLimitConfig) : ConcreteLimitConfig + string :=
  inr "limiter rejected"%string.

(** A constructor that rejects a host allowed fewer than 100 inbound
    connections. *)
Definition newFailSmall (cfg : ConcreteLimitConfig) : ConcreteLimitConfig + string :=
  if BaseLimit.ConnsInbound (system cfg) <? 100
  then inr "too few inbound connections"%string
  else inl cfg.

(** A merged configuration whose System inbound connections and inbound
    streams are both concrete: the autoscaled limits for 1 GiB, unmodified. *)
Definition autoscaled1GiB : PartialLimitConfig :=
  ToPartialLimitConfig (Scale (2 ^ 30) 1024).

End Sample.

(** ** Facts about the integer conversions *)

Lemma to_int_id (z : Z) : Go.is_int z -> Go.to_int z = z.
Proof.
  unfold Go.is_int, Go.MinInt, Go.MaxInt, Go.to_int. intros H.
  rewrite Z.mod_small; lia.
Qed.

Lemma to_int_is_int (z : Z) : Go.is_int (Go.to_int z).
Proof.
  unfold Go.is_int, Go.MinInt, Go.MaxInt, Go.to_int.
  pose proof (Z.mod_pos_bound (z + 2 ^ 63) (2 ^ 64)). lia.
Qed.

Lemma to_uint64_id (z : Z) : Go.is_uint64 z -> Go.to_uint64 z = z.
Proof.
  unfold Go.is_uint64, Go.MaxUint64, Go.to_uint64. intros H.
  rewrite Z.mod_small; lia.
Qed.

Lemma int_div_pos (a b : Z) : Go.is_int a -> 0 < b -> Go.int_div a b = Z.quot a b.
Proof.
  unfold Go.int_div, Go.is_int, Go.MinInt, Go.MaxInt. intros Ha Hb.
  apply to_int_id. unfold Go.is_int, Go.MinInt, Go.MaxInt.
  destruct (Z.le_gt_cases 0 a) as [H0 | H0].
  - pose proof (Z.quot_pos a b H0 Hb).
    assert (a ÷ b <= a) by (apply Z.quot_le_upper_bound; nia). lia.
  - assert (Hq : a ÷ b = - ((- a) ÷ b)) by (rewrite Z.quot_opp_l; lia).
    pose proof (Z.quot_pos (- a) b ltac:(lia) Hb).
    assert ((- a) ÷ b <= - a) by (apply Z.quot_le_upper_bound; nia). lia.
Qed.

Lemma systemConnsInbound_eq (maxMemory : Z) :
  Go.is_uint64 maxMemory -> systemConnsInbound maxMemory = maxMemory / 2 ^ 20.
Proof.
  unfold systemConnsInbound, Go.uint64_mul, Go.uint64_div, Go.is_uint64, Go.MaxUint64.
  intros H. change (1024 * 1024) with (2 ^ 20).
  assert (0 <= maxMemory / 2 ^ 20 < 2 ^ 44).
  { split; [apply Z.div_pos; lia | apply Z.div_lt_upper_bound; lia]. }
  rewrite Z.mul_1_l, to_uint64_id by (unfold Go.is_uint64, Go.MaxUint64; lia).
  apply to_int_id. unfold Go.is_int, Go.MinInt, Go.MaxInt. lia.
Qed.

(** ** Facts about the limit encoding *)

Lemma LimitVal_Build_Default (d : Z) : LimitVal_Build DefaultLimit d = d.
Proof. reflexivity. Qed.

Lemma LimitVal_Build_concrete (l d : Z) : DefaultLimit < l -> LimitVal_Build l d = l.
Proof.
  unfold LimitVal_Build, DefaultLimit, Unlimited, BlockAllLimit. intros H.
  destruct (Z.eqb_spec l 0); [lia |].
  destruct (Z.eqb_spec l (-1)); [lia |].
  destruct (Z.eqb_spec l (-2)); [lia | reflexivity].
Qed.

Lemma LimitVal_Build_explicit (l d d' : Z) :
  l <> DefaultLimit -> LimitVal_Build l d = LimitVal_Build l d'.
Proof.
  unfold LimitVal_Build. intros H.
  destruct (Z.eqb_spec l DefaultLimit); [contradiction | reflexivity].
Qed.

Lemma valueOrBlockAll_resolved (n : Z) : valueOrBlockAll n <> DefaultLimit.
Proof.
  unfold valueOrBlockAll, DefaultLimit, BlockAllLimit, Unlimited.
  destruct (Z.eqb_spec n 0); [lia |].
  destruct (Z.eqb_spec n Go.MaxInt); lia.
Qed.

Lemma valueOrBlockAll_concrete (n : Z) :
  0 < n < Go.MaxInt -> valueOrBlockAll n = n.
Proof.
  unfold valueOrBlockAll. intros H.
  destruct (Z.eqb_spec n 0); [lia |].
  destruct (Z.eqb_spec n Go.MaxInt); [lia | reflexivity].
Qed.

(** The merge keeps an explicit concrete value below [math.MaxInt]. *)
Lemma merge_keeps_concrete (l d : Z) :
  0 < l < Go.MaxInt -> valueOrBlockAll (LimitVal_Build l d) = l.
Proof.
  intros H. rewrite LimitVal_Build_concrete by (unfold DefaultLimit; lia).
  now apply valueOrBlockAll_concrete.
Qed.


(** ** Projections of [Build] *)

Lemma Build_system_ConnsInbound (cfg : PartialLimitConfig) (d : ConcreteLimitConfig) :
  BaseLimit.ConnsInbound (system (Build cfg d))
  = LimitVal_Build (inboundConns cfg) (BaseLimit.ConnsInbound (system d)).
Proof. reflexivity. Qed.

Lemma Build_system_StreamsInbound (cfg : PartialLimitConfig) (d : ConcreteLimitConfig) :
  BaseLimit.StreamsInbound (system (Build cfg d))
  = LimitVal_Build (inboundStreams cfg) (BaseLimit.StreamsInbound (system d)).
Proof. reflexivity. Qed.

Lemma Build_peerDefault_StreamsInbound (cfg : PartialLimitConfig) (d : ConcreteLimitConfig) :
  BaseLimit.StreamsInbound (peerDefault (Build cfg d))
  = LimitVal_Build (StreamsInbound (PeerDefault cfg)) (BaseLimit.StreamsInbound (peerDefault d)).
Proof. reflexivity. Qed.

(** ** The check against the connection manager *)

Lemma override_skipped (partialLimits : PartialLimitConfig) (connMgrHighWater : Z) :
  inboundConns partialLimits <= DefaultLimit ->
  overrideInboundConns partialLimits connMgrHighWater = partialLimits.
Proof.
  unfold inboundConns, overrideInboundConns. intros H.
  destruct (Z.ltb_spec DefaultLimit (ConnsInbound (System partialLimits))); [lia | reflexivity].
Qed.

Lemma override_inboundConns (partialLimits : PartialLimitConfig) (connMgrHighWater : Z) :
  DefaultLimit < inboundConns partialLimits ->
  inboundConns (overrideInboundConns partialLimits connMgrHighWater)
  = Z.max (Z.max (inboundConns partialLimits) (Go.int_mul connMgrHighWater 2)) 800.
Proof.
  unfold inboundConns, overrideInboundConns. intros H.
  destruct (Z.ltb_spec DefaultLimit (ConnsInbound (System partialLimits))); [| lia].
  cbn [System ConnsInbound].
  destruct (Z.ltb_spec (ConnsInbound (System partialLimits)) (Go.int_mul connMgrHighWater 2));
    match goal with |- context [?a <? 800] => destruct (Z.ltb_spec a 800) end; lia.
Qed.

Lemma override_inboundStreams (partialLimits : PartialLimitConfig) (connMgrHighWater : Z) :
  DefaultLimit < inboundConns partialLimits ->
  inboundStreams (overrideInboundConns partialLimits connMgrHighWater)
  = if DefaultLimit <? inboundStreams partialLimits
    then Go.int_div
           (Go.int_mul (inboundConns (overrideInboundConns partialLimits connMgrHighWater))
              (inboundStreams partialLimits))
           (inboundConns partialLimits)
    else inboundStreams partialLimits.
Proof.
  unfold inboundConns, inboundStreams, overrideInboundConns. intros H.
  destruct (Z.ltb_spec DefaultLimit (ConnsInbound (System partialLimits))); [| lia].
  reflexivity.
Qed.

(** What the check leaves alone. *)
Lemma override_frame (partialLimits : PartialLimitConfig) (connMgrHighWater : Z) :
  let partialLimits' := overrideInboundConns partialLimits connMgrHighWater in
  (Transient partialLimits' = Transient partialLimits
   /\ AllowlistedSystem partialLimits' = AllowlistedSystem partialLimits
   /\ AllowlistedTransient partialLimits' = AllowlistedTransient partialLimits
   /\ ServiceDefault partialLimits' = ServiceDefault partialLimits
   /\ ServicePeerDefault partialLimits' = ServicePeerDefault partialLimits
   /\ ProtocolDefault partialLimits' = ProtocolDefault partialLimits
   /\ ProtocolPeerDefault partialLimits' = ProtocolPeerDefault partialLimits
   /\ PeerDefault partialLimits' = PeerDefault partialLimits
   /\ Conn partialLimits' = Conn partialLimits
   /\ Stream partialLimits' = Stream partialLimits)
  /\ (Service partialLimits' = Service partialLimits
      /\ ServicePeer partialLimits' = ServicePeer partialLimits
      /\ Protocol partialLimits' = Protocol partialLimits
      /\ ProtocolPeer partialLimits' = ProtocolPeer partialLimits
      /\ Peer partialLimits' = Peer partialLimits)
  /\ (Streams (System partialLimits') = Streams (System partialLimits)
      /\ StreamsOutbound (System partialLimits') = StreamsOutbound (System partialLimits)
      /\ Conns (System partialLimits') = Conns (System partialLimits)
      /\ ConnsOutbound (System partialLimits') = ConnsOutbound (System partialLimits)
      /\ FD (System partialLimits') = FD (System partialLimits)
      /\ Memory (System partialLimits') = Memory (System partialLimits)).
Proof.
  unfold overrideInboundConns.
  destruct (DefaultLimit <? ConnsInbound (System partialLimits));
    repeat match goal with |- _ /\ _ => split end; reflexivity.
Qed.

Lemma int_mul_two (z : Z) : - 2 ^ 62 <= z < 2 ^ 62 -> Go.int_mul z 2 = 2 * z.
Proof.
  intros H. unfold Go.int_mul. rewrite to_int_id; [lia |].
  unfold Go.is_int, Go.MinInt, Go.MaxInt. lia.
Qed.

(** The limit written by the check is what the final [Build] returns. *)
Lemma Build_override_ConnsInbound
    (partialLimits : PartialLimitConfig) (connMgrHighWater : Z) (d : ConcreteLimitConfig) :
  DefaultLimit < inboundConns partialLimits ->
  BaseLimit.ConnsInbound (system (Build (overrideInboundConns partialLimits connMgrHighWater) d))
  = Z.max (Z.max (inboundConns partialLimits) (Go.int_mul connMgrHighWater 2)) 800.
Proof.
  intros H. rewrite Build_system_ConnsInbound, override_inboundConns by exact H.
  apply LimitVal_Build_concrete. unfold DefaultLimit. lia.
Qed.

Lemma override_fullyResolved (partialLimits : PartialLimitConfig) (connMgrHighWater : Z) :
  fullyResolved partialLimits ->
  inboundStreams partialLimits <= DefaultLimit ->
  fullyResolved (overrideInboundConns partialLimits connMgrHighWater).
Proof.
  intros Hres Hs.
  destruct (Z.le_gt_cases (inboundConns partialLimits) DefaultLimit) as [Hc | Hc].
  { now rewrite override_skipped. }
  pose proof (override_inboundConns partialLimits connMgrHighWater Hc) as Hconns.
  pose proof (override_inboundStreams partialLimits connMgrHighWater Hc) as Hstreams.
  destruct (Z.ltb_spec DefaultLimit (inboundStreams partialLimits)); [lia |].
  destruct (override_frame partialLimits connMgrHighWater)
    as ((E1 & E2 & E3 & E4 & E5 & E6 & E7 & E8 & E9 & E10)
        & (M1 & M2 & M3 & M4 & M5) & (F1 & F2 & F3 & F4 & F5 & F6)).
  unfold inboundConns, inboundStreams in Hconns, Hstreams.
  unfold fullyResolved in *.
  rewrite E1, E2, E3, E4, E5, E6, E7, E8, E9, E10, M1, M2, M3, M4, M5.
  destruct Hres as (Hsys & Hrest). split; [| exact Hrest].
  unfold noDefault in *. rewrite F1, F2, F3, F4, F5, F6, Hconns, Hstreams.
  destruct Hsys as (? & ? & ? & ? & ? & ? & ? & ?).
  repeat match goal with |- _ /\ _ => split end; try assumption.
  clear. unfold DefaultLimit. lia.
Qed.

(** ** Resolved configurations *)

Lemma ToResourceLimits_noDefault (l : BaseLimit.t) : noDefault (ToResourceLimits l).
Proof.
  unfold noDefault, ToResourceLimits.
  cbn [Streams StreamsInbound StreamsOutbound Conns ConnsInbound ConnsOutbound FD Memory].
  repeat match goal with |- _ /\ _ => split end; apply valueOrBlockAll_resolved.
Qed.

Lemma ToPartialLimitConfig_fullyResolved (cfg : ConcreteLimitConfig) :
  fullyResolved (ToPartialLimitConfig cfg).
Proof.
  unfold fullyResolved, ToPartialLimitConfig.
  cbn [System Transient AllowlistedSystem AllowlistedTransient ServiceDefault Service
       ServicePeerDefault ServicePeer ProtocolDefault Protocol ProtocolPeerDefault
       ProtocolPeer PeerDefault Peer Conn Stream].
  repeat match goal with |- _ /\ _ => split end;
    try apply ToResourceLimits_noDefault;
    apply map_Forall_fmap; intros k l _; apply ToResourceLimits_noDefault.
Qed.

Lemma ResourceLimits_Build_fallback (l : ResourceLimits) (d d' : BaseLimit.t) :
  noDefault l -> ResourceLimits_Build l d = ResourceLimits_Build l d'.
Proof.
  unfold noDefault, ResourceLimits_Build. intros (H1 & H2 & H3 & H4 & H5 & H6 & H7 & H8).
  f_equal; now apply LimitVal_Build_explicit.
Qed.

(** A fully resolved configuration takes nothing from the fallback given to
    [Build], as long as the fallback names no service, protocol or peer. *)
Lemma Build_fullyResolved_fallback (cfg : PartialLimitConfig) (d : ConcreteLimitConfig) :
  fullyResolved cfg ->
  service d = ∅ -> servicePeer d = ∅ -> protocol d = ∅ -> protocolPeer d = ∅ ->
  peer d = ∅ ->
  Build cfg d = Build cfg emptyConcreteLimitConfig.
Proof.
  unfold fullyResolved.
  intros (H1 & H2 & H3 & H4 & H5 & H6 & H7 & H8 & H9 & H10 & H11 & _) E1 E2 E3 E4 E5.
  unfold Build. rewrite E1, E2, E3, E4, E5.
  cbn [emptyConcreteLimitConfig system transient
    allowlistedSystem allowlistedTransient serviceDefault service servicePeerDefault
    servicePeer protocolDefault protocol protocolPeerDefault protocolPeer peerDefault peer
    conn stream].
  rewrite (ResourceLimits_Build_fallback _ (system d) zeroBaseLimit H1).
  rewrite (ResourceLimits_Build_fallback _ (transient d) zeroBaseLimit H2).
  rewrite (ResourceLimits_Build_fallback _ (allowlistedSystem d) zeroBaseLimit H3).
  rewrite (ResourceLimits_Build_fallback _ (allowlistedTransient d) zeroBaseLimit H4).
  rewrite (ResourceLimits_Build_fallback _ (serviceDefault d) zeroBaseLimit H5).
  rewrite (ResourceLimits_Build_fallback _ (servicePeerDefault d) zeroBaseLimit H6).
  rewrite (ResourceLimits_Build_fallback _ (protocolDefault d) zeroBaseLimit H7).
  rewrite (ResourceLimits_Build_fallback _ (protocolPeerDefault d) zeroBaseLimit H8).
  rewrite (ResourceLimits_Build_fallback _ (peerDefault d) zeroBaseLimit H9).
  rewrite (ResourceLimits_Build_fallback _ (conn d) zeroBaseLimit H10).
  rewrite (ResourceLimits_Build_fallback _ (stream d) zeroBaseLimit H11).
  reflexivity.
Qed.

(** ** The autoscale merge *)

Section Merge.

Variable Scale : Z -> Z -> ConcreteLimitConfig.

Lemma autoscaleMerge_inboundConns (partialLimits : PartialLimitConfig) (maxMemory maxFD : Z) :
  inboundConns (autoscaleMerge Scale partialLimits maxMemory maxFD)
  = valueOrBlockAll
      (LimitVal_Build (inboundConns partialLimits)
         (BaseLimit.ConnsInbound (system (Scale (Go.to_int maxMemory) maxFD)))).
Proof. reflexivity. Qed.

Lemma autoscaleMerge_inboundStreams (partialLimits : PartialLimitConfig) (maxMemory maxFD : Z) :
  inboundStreams (autoscaleMerge Scale partialLimits maxMemory maxFD)
  = valueOrBlockAll
      (LimitVal_Build (inboundStreams partialLimits)
         (BaseLimit.StreamsInbound (system (Scale (Go.to_int maxMemory) maxFD)))).
Proof. reflexivity. Qed.

Lemma autoscaleMerge_peer_StreamsInbound
    (partialLimits : PartialLimitConfig) (maxMemory maxFD : Z) :
  StreamsInbound (PeerDefault (autoscaleMerge Scale partialLimits maxMemory maxFD))
  = valueOrBlockAll
      (LimitVal_Build (StreamsInbound (PeerDefault partialLimits))
         (BaseLimit.StreamsInbound (peerDefault (Scale (Go.to_int maxMemory) maxFD)))).
Proof. reflexivity. Qed.

Lemma autoscaleMerge_fullyResolved (partialLimits : PartialLimitConfig) (maxMemory maxFD : Z) :
  fullyResolved (autoscaleMerge Scale partialLimits maxMemory maxFD).
Proof. apply ToPartialLimitConfig_fullyResolved. Qed.

End Merge.

Lemma budgetMemory_nonzero (TotalMemory maxMemory : Z) :
  maxMemory <> 0 -> budgetMemory TotalMemory maxMemory = maxMemory.
Proof.
  intros H. unfold budgetMemory. destruct (Z.eqb_spec maxMemory 0); [contradiction | reflexivity].
Qed.

(** ** Properties of the planning policy *)

Section Policy.

Variables (TotalMemory GetNumFDs : Z) (Scale : Z -> Z -> ConcreteLimitConfig).

Lemma merged_inboundStreams (maxMemory maxFD : Z) :
  inboundStreams (makeResourceManagerConfig_merged TotalMemory GetNumFDs Scale maxMemory maxFD)
  = Unlimited.
Proof.
  unfold makeResourceManagerConfig_merged. rewrite autoscaleMerge_inboundStreams.
  reflexivity.
Qed.

Lemma merged_inboundConns (maxMemory maxFD : Z) :
  preOverrideInboundConns TotalMemory GetNumFDs Scale maxMemory maxFD
  = valueOrBlockAll
      (LimitVal_Build (systemConnsInbound (budgetMemory TotalMemory maxMemory))
         (BaseLimit.ConnsInbound
            (system (Scale (Go.to_int (budgetMemory TotalMemory maxMemory))
                       (budgetFD GetNumFDs maxFD))))).
Proof.
  unfold preOverrideInboundConns, makeResourceManagerConfig_merged.
  rewrite autoscaleMerge_inboundConns. reflexivity.
Qed.

(** C1: for every maxMemory > 0 the general-host builder sets the System
    inbound-connections limit to floor(maxMemory / 2^20), one connection
    per megabyte; from one megabyte on, that is also the value the merge
    hands to the check against the connection manager. *)
Theorem system_conns_inbound_per_megabyte (maxMemory maxFD : Z) :
  0 < maxMemory <= Go.MaxUint64 ->
  inboundConns
    (makeResourceManagerConfig_partialLimits
       (budgetMemory TotalMemory maxMemory) (budgetFD GetNumFDs maxFD))
  = maxMemory / 2 ^ 20
  /\ (2 ^ 20 <= maxMemory ->
      preOverrideInboundConns TotalMemory GetNumFDs Scale maxMemory maxFD
      = maxMemory / 2 ^ 20).
Proof.
  intros H.
  assert (Hs : systemConnsInbound maxMemory = maxMemory / 2 ^ 20).
  { apply systemConnsInbound_eq. unfold Go.is_uint64. lia. }
  split.
  - rewrite budgetMemory_nonzero by lia. exact Hs.
  - intros Hge. rewrite merged_inboundConns, budgetMemory_nonzero, Hs by lia.
    apply merge_keeps_concrete.
    unfold Go.MaxUint64, Go.MaxInt in *.
    split; [apply Z.div_str_pos; lia | apply Z.div_lt_upper_bound; lia].
Qed.

(** C2: when the merged System inbound-connections limit is concrete, the
    limit returned is at least twice the connection manager's high-water
    mark (the product as Go computes it) and at least 800, and it is the
    merged limit itself when that already meets both floors. *)
Theorem override_raises_inbound_conns (maxMemory maxFD connMgrHighWater : Z) :
  DefaultLimit < preOverrideInboundConns TotalMemory GetNumFDs Scale maxMemory maxFD ->
  Z.max (Go.int_mul connMgrHighWater 2) 800
    <= finalInboundConns TotalMemory GetNumFDs Scale maxMemory maxFD connMgrHighWater
  /\ (Go.int_mul connMgrHighWater 2
        <= preOverrideInboundConns TotalMemory GetNumFDs Scale maxMemory maxFD ->
      800 <= preOverrideInboundConns TotalMemory GetNumFDs Scale maxMemory maxFD ->
      finalInboundConns TotalMemory GetNumFDs Scale maxMemory maxFD connMgrHighWater
      = preOverrideInboundConns TotalMemory GetNumFDs Scale maxMemory maxFD)
  /\ (- 2 ^ 62 <= connMgrHighWater < 2 ^ 62 ->
      Go.int_mul connMgrHighWater 2 = 2 * connMgrHighWater).
Proof.
  unfold preOverrideInboundConns, finalInboundConns, makeResourceManagerConfig,
    makeResourceManagerConfig_resolved.
  generalize (makeResourceManagerConfig_merged TotalMemory GetNumFDs Scale maxMemory maxFD).
  intros merged Hpre. rewrite Build_override_ConnsInbound by exact Hpre.
  split; [lia |]. split; [lia |]. apply int_mul_two.
Qed.

(** C4: in both builders the Transient scope gets a quarter of the memory, a
    quarter of the file descriptors and a quarter of the System
    inbound-connections limit (Go's integer division), and is unlimited in
    every other field. *)
Theorem transient_is_quarter_of_system (maxMemory maxFD : Z) :
  Go.is_uint64 maxMemory -> Go.is_int maxFD ->
  quarterTransient (makeResourceManagerConfig_partialLimits maxMemory maxFD) maxMemory maxFD
  /\ quarterTransient
       (makeSeparateDHTClientResourceManagerConfig_partialLimits maxMemory maxFD)
       maxMemory maxFD.
Proof.
  intros Hm Hf.
  assert (Hmem : Go.to_int (Go.uint64_div maxMemory 4) = maxMemory / 4).
  { apply to_int_id.
    unfold Go.uint64_div, Go.is_uint64, Go.MaxUint64, Go.is_int, Go.MinInt, Go.MaxInt in *.
    split; [pose proof (Z.div_pos maxMemory 4); lia |].
    assert (maxMemory / 4 < 2 ^ 62) by (apply Z.div_lt_upper_bound; lia). lia. }
  assert (Hfd : Go.int_div maxFD 4 = Z.quot maxFD 4) by (apply int_div_pos; [exact Hf | lia]).
  assert (Hsci : Go.int_div (systemConnsInbound maxMemory) 4
                 = Z.quot (systemConnsInbound maxMemory) 4).
  { apply int_div_pos; [apply to_int_is_int | lia]. }
  unfold quarterTransient.
  cbn [makeResourceManagerConfig_partialLimits
       makeSeparateDHTClientResourceManagerConfig_partialLimits
       System Transient Memory FD ConnsInbound Conns ConnsOutbound Streams StreamsInbound
       StreamsOutbound].
  rewrite Hmem, Hfd, Hsci.
  repeat match goal with |- _ /\ _ => split end; reflexivity.
Qed.

(** C5: when the merged System inbound connections and inbound streams are
    both concrete, the check clamps the connections to the largest of the
    old limit, twice the high-water mark and 800, and sets the
    inbound-streams limit to clampedConns * oldStreams / oldConns in Go's
    int64 arithmetic; as long as the product fits in an int64 this is the
    exact integer quotient, so the streams-per-connection ratio is kept up
    to the rounding of the division, and the final [Build] returns the two
    numbers as they are. *)
Theorem override_rescales_inbound_streams
    (partialLimits : PartialLimitConfig) (connMgrHighWater : Z) :
  DefaultLimit < inboundConns partialLimits ->
  DefaultLimit < inboundStreams partialLimits ->
  let oldConns := inboundConns partialLimits in
  let oldStreams := inboundStreams partialLimits in
  let clampedConns := Z.max (Z.max oldConns (Go.int_mul connMgrHighWater 2)) 800 in
  let newStreams := inboundStreams (overrideInboundConns partialLimits connMgrHighWater) in
  inboundConns (overrideInboundConns partialLimits connMgrHighWater) = clampedConns
  /\ newStreams = Go.int_div (Go.int_mul clampedConns oldStreams) oldConns
  /\ (- 2 ^ 62 <= connMgrHighWater < 2 ^ 62 ->
      Go.int_mul connMgrHighWater 2 = 2 * connMgrHighWater)
  /\ (clampedConns * oldStreams <= Go.MaxInt ->
      newStreams = clampedConns * oldStreams / oldConns
      /\ oldConns * newStreams <= clampedConns * oldStreams < oldConns * (newStreams + 1)
      /\ BaseLimit.ConnsInbound
           (system (Build (overrideInboundConns partialLimits connMgrHighWater)
                      emptyConcreteLimitConfig)) = clampedConns
      /\ BaseLimit.StreamsInbound
           (system (Build (overrideInboundConns partialLimits connMgrHighWater)
                      emptyConcreteLimitConfig)) = newStreams).
Proof.
  intros Hc Hs oldConns oldStreams clampedConns newStreams.
  assert (Hclamp : inboundConns (overrideInboundConns partialLimits connMgrHighWater)
                   = clampedConns) by now apply override_inboundConns.
  assert (Hnew : newStreams = Go.int_div (Go.int_mul clampedConns oldStreams) oldConns).
  { unfold newStreams. rewrite (override_inboundStreams _ _ Hc), Hclamp.
    destruct (Z.ltb_spec DefaultLimit (inboundStreams partialLimits)) as [_ | ?]; [| lia].
    reflexivity. }
  split; [exact Hclamp |]. split; [exact Hnew |]. split; [apply int_mul_two |].
  intros Hfit. fold oldConns in Hc. fold oldStreams in Hs. unfold DefaultLimit in Hc, Hs.
  assert (Hclamped : oldConns <= clampedConns /\ 800 <= clampedConns)
    by (unfold clampedConns; lia).
  assert (Hprod : 0 <= clampedConns * oldStreams) by nia.
  assert (Hmul : Go.int_mul clampedConns oldStreams = clampedConns * oldStreams).
  { apply to_int_id. unfold Go.is_int, Go.MinInt, Go.MaxInt in *. lia. }
  assert (Hdiv : Go.int_div (clampedConns * oldStreams) oldConns
                 = clampedConns * oldStreams / oldConns).
  { rewrite int_div_pos by (unfold Go.is_int, Go.MinInt, Go.MaxInt in *; lia).
    apply Z.quot_div_nonneg; lia. }
  rewrite Hmul, Hdiv in Hnew.
  pose proof (Z.mul_div_le (clampedConns * oldStreams) oldConns Hc) as Hlo.
  pose proof (Z.mul_succ_div_gt (clampedConns * oldStreams) oldConns Hc) as Hhi.
  rewrite <- Hnew in Hlo, Hhi.
  assert (Hpos : 0 < newStreams) by nia.
  split; [exact Hnew |]. split; [lia |]. split.
  - now apply Build_override_ConnsInbound.
  - rewrite Build_system_StreamsInbound. apply LimitVal_Build_concrete. exact Hpos.
Qed.

Lemma general_resolved (maxMemory maxFD connMgrHighWater : Z) :
  fullyResolved
    (makeResourceManagerConfig_resolved TotalMemory GetNumFDs Scale maxMemory maxFD
       connMgrHighWater).
Proof.
  unfold makeResourceManagerConfig_resolved. apply override_fullyResolved.
  - apply autoscaleMerge_fullyResolved.
  - rewrite merged_inboundStreams. unfold Unlimited, DefaultLimit. lia.
Qed.

(** C7: the configuration either builder hands to the final [Build] has no
    limit left at the [Default] marker, in any scope and for any named
    service, protocol or peer; so the configuration returned takes nothing
    from the fallback of the final [Build], whatever base limits that
    fallback carries. *)
Theorem returned_configurations_resolved (maxMemory maxFD connMgrHighWater : Z) :
  fullyResolved
    (makeResourceManagerConfig_resolved TotalMemory GetNumFDs Scale maxMemory maxFD
       connMgrHighWater)
  /\ fullyResolved (makeSeparateDHTClientResourceManagerConfig_resolved Scale maxMemory maxFD)
  /\ (forall d : ConcreteLimitConfig,
        Build (makeResourceManagerConfig_resolved TotalMemory GetNumFDs Scale maxMemory maxFD
                 connMgrHighWater) (baseLimitsOnly d)
        = makeResourceManagerConfig TotalMemory GetNumFDs Scale maxMemory maxFD
            connMgrHighWater)
  /\ (forall d : ConcreteLimitConfig,
        Build (makeSeparateDHTClientResourceManagerConfig_resolved Scale maxMemory maxFD)
          (baseLimitsOnly d)
        = makeSeparateDHTClientResourceManagerConfig Scale maxMemory maxFD).
Proof.
  split; [apply general_resolved |].
  split; [apply autoscaleMerge_fullyResolved |].
  split; intros d.
  - apply Build_fullyResolved_fallback; [apply general_resolved | reflexivity ..].
  - apply Build_fullyResolved_fallback; [apply autoscaleMerge_fullyResolved | reflexivity ..].
Qed.

(** C9: for every input of the general-host builder the System
    inbound-streams limit is unlimited: in the literal, after the merge,
    after the check against the connection manager, and (as math.MaxInt) in
    the configuration returned. *)
Theorem system_inbound_streams_unlimited (maxMemory maxFD connMgrHighWater : Z) :
  inboundStreams
    (makeResourceManagerConfig_partialLimits
       (budgetMemory TotalMemory maxMemory) (budgetFD GetNumFDs maxFD)) = Unlimited
  /\ inboundStreams
       (makeResourceManagerConfig_merged TotalMemory GetNumFDs Scale maxMemory maxFD)
     = Unlimited
  /\ inboundStreams
       (makeResourceManagerConfig_resolved TotalMemory GetNumFDs Scale maxMemory maxFD
          connMgrHighWater) = Unlimited
  /\ BaseLimit.StreamsInbound
       (system (makeResourceManagerConfig TotalMemory GetNumFDs Scale maxMemory maxFD
                  connMgrHighWater)) = Go.MaxInt.
Proof.
  pose proof (merged_inboundStreams maxMemory maxFD) as Hm.
  assert (Hres : inboundStreams
       (makeResourceManagerConfig_resolved TotalMemory GetNumFDs Scale maxMemory maxFD
          connMgrHighWater) = Unlimited).
  { unfold makeResourceManagerConfig_resolved.
    revert Hm.
    generalize (makeResourceManagerConfig_merged TotalMemory GetNumFDs Scale maxMemory maxFD).
    intros merged Hm.
    destruct (Z.le_gt_cases (inboundConns merged) DefaultLimit) as [Hc | Hc].
    - rewrite override_skipped by exact Hc. exact Hm.
    - rewrite override_inboundStreams by exact Hc. rewrite Hm. reflexivity. }
  split; [reflexivity |]. split; [exact Hm |]. split; [exact Hres |].
  unfold makeResourceManagerConfig. rewrite Build_system_StreamsInbound, Hres.
  reflexivity.
Qed.

(** C10: for 0 < maxMemory < 2^20 the builder computes an inbound-connections
    limit of 0, which is the [Default] marker; the merge therefore takes the
    autoscaled limit and hands on its encoding, never 0; and the check
    against the connection manager leaves any configuration alone whose
    limit is 0 or unlimited. *)
Theorem sub_megabyte_budget_inherits_default (maxMemory maxFD : Z) :
  0 < maxMemory < 2 ^ 20 ->
  inboundConns
    (makeResourceManagerConfig_partialLimits
       (budgetMemory TotalMemory maxMemory) (budgetFD GetNumFDs maxFD)) = DefaultLimit
  /\ BaseLimit.ConnsInbound
       (system (Build (makeResourceManagerConfig_partialLimits
                         (budgetMemory TotalMemory maxMemory) (budgetFD GetNumFDs maxFD))
                  (Scale (Go.to_int maxMemory) (budgetFD GetNumFDs maxFD))))
     = BaseLimit.ConnsInbound
         (system (Scale (Go.to_int maxMemory) (budgetFD GetNumFDs maxFD)))
  /\ preOverrideInboundConns TotalMemory GetNumFDs Scale maxMemory maxFD
     = valueOrBlockAll
         (BaseLimit.ConnsInbound
            (system (Scale (Go.to_int maxMemory) (budgetFD GetNumFDs maxFD))))
  /\ preOverrideInboundConns TotalMemory GetNumFDs Scale maxMemory maxFD <> DefaultLimit
  /\ (forall (partialLimits : PartialLimitConfig) (connMgrHighWater : Z),
        inboundConns partialLimits = DefaultLimit
        \/ inboundConns partialLimits = Unlimited ->
        overrideInboundConns partialLimits connMgrHighWater = partialLimits).
Proof.
  intros H.
  assert (Hs : systemConnsInbound maxMemory = DefaultLimit).
  { rewrite systemConnsInbound_eq by (unfold Go.is_uint64, Go.MaxUint64; lia).
    apply Z.div_small. lia. }
  assert (Hm : preOverrideInboundConns TotalMemory GetNumFDs Scale maxMemory maxFD
     = valueOrBlockAll
         (BaseLimit.ConnsInbound
            (system (Scale (Go.to_int maxMemory) (budgetFD GetNumFDs maxFD))))).
  { rewrite merged_inboundConns, budgetMemory_nonzero, Hs by lia.
    now rewrite LimitVal_Build_Default. }
  rewrite budgetMemory_nonzero by lia.
  split; [exact Hs |].
  split.
  { rewrite Build_system_ConnsInbound.
    change (inboundConns (makeResourceManagerConfig_partialLimits maxMemory
                            (budgetFD GetNumFDs maxFD)))
      with (systemConnsInbound maxMemory).
    now rewrite Hs, LimitVal_Build_Default. }
  split; [exact Hm |].
  split; [rewrite Hm; apply valueOrBlockAll_resolved |].
  intros partialLimits connMgrHighWater Hnc. apply override_skipped.
  unfold DefaultLimit, Unlimited in *. lia.
Qed.

Lemma dht_client_ConnsInbound (maxMemory maxFD : Z) :
  BaseLimit.ConnsInbound
    (system (makeSeparateDHTClientResourceManagerConfig Scale maxMemory maxFD)) = 30.
Proof.
  unfold makeSeparateDHTClientResourceManagerConfig,
    makeSeparateDHTClientResourceManagerConfig_resolved.
  rewrite Build_system_ConnsInbound, autoscaleMerge_inboundConns.
  change (inboundConns
            (makeSeparateDHTClientResourceManagerConfig_partialLimits maxMemory maxFD))
    with 30.
  rewrite merge_keeps_concrete by (unfold Go.MaxInt; lia). reflexivity.
Qed.

Lemma dht_client_peer_StreamsInbound (maxMemory maxFD : Z) :
  BaseLimit.StreamsInbound
    (peerDefault (makeSeparateDHTClientResourceManagerConfig Scale maxMemory maxFD)) = 10.
Proof.
  unfold makeSeparateDHTClientResourceManagerConfig,
    makeSeparateDHTClientResourceManagerConfig_resolved.
  rewrite Build_peerDefault_StreamsInbound, autoscaleMerge_peer_StreamsInbound.
  change (StreamsInbound
            (PeerDefault
               (makeSeparateDHTClientResourceManagerConfig_partialLimits maxMemory maxFD)))
    with 10.
  rewrite merge_keeps_concrete by (unfold Go.MaxInt; lia). reflexivity.
Qed.

(** C6: whatever memory and file-descriptor share the DHT-client builder is
    given, it returns 30 System inbound connections and 10 inbound streams
    per peer; and whatever the connection manager's high-water mark, that is
    the secondary configuration the planner builds. *)
Theorem dht_client_inbound_limits_fixed (maxMemory maxFD connMgrHighWater : Z) :
  (forall mem fds : Z,
     BaseLimit.ConnsInbound
       (system (makeSeparateDHTClientResourceManagerConfig Scale mem fds)) = 30
     /\ BaseLimit.StreamsInbound
          (peerDefault (makeSeparateDHTClientResourceManagerConfig Scale mem fds)) = 10)
  /\ exists bitswapHost dhtHost : ConcreteLimitConfig,
       makeResourceMgrs TotalMemory GetNumFDs Scale ConcreteLimitConfig Empty_set inl
         maxMemory maxFD connMgrHighWater true
       = (Some bitswapHost, Some dhtHost, None)
       /\ BaseLimit.ConnsInbound (system dhtHost) = 30
       /\ BaseLimit.StreamsInbound (peerDefault dhtHost) = 10.
Proof.
  split.
  - intros mem fds. split; [apply dht_client_ConnsInbound | apply dht_client_peer_StreamsInbound].
  - unfold makeResourceMgrs. cbn [negb]. eexists. eexists.
    split; [reflexivity |].
    split; [apply dht_client_ConnsInbound | apply dht_client_peer_StreamsInbound].
Qed.

Section Construction.

Variables (ResourceManager error : Type).
Variable NewResourceManager : ConcreteLimitConfig -> ResourceManager + error.

(** C8: when the construction of a resource manager fails, in the
    single-host plan or for either host of the dual-host plan, the planner
    returns that very error with nil for both hosts; and whenever it returns
    an error, both hosts are nil. *)
Theorem construction_error_returned_alone
    (maxMemory maxFD connMgrHighWater : Z) (err : error) :
  (NewResourceManager
     (makeResourceManagerConfig TotalMemory GetNumFDs Scale
        (budgetMemory TotalMemory maxMemory) (budgetFD GetNumFDs maxFD) connMgrHighWater)
   = inr err ->
   makeResourceMgrs TotalMemory GetNumFDs Scale ResourceManager error NewResourceManager
     maxMemory maxFD connMgrHighWater false = (None, None, Some err))
  /\ (NewResourceManager
        (makeResourceManagerConfig TotalMemory GetNumFDs Scale
           (bitswapHostMem
              (splitBudget (budgetMemory TotalMemory maxMemory) (budgetFD GetNumFDs maxFD)))
           (bitswapHostFDs
              (splitBudget (budgetMemory TotalMemory maxMemory) (budgetFD GetNumFDs maxFD)))
           connMgrHighWater)
      = inr err ->
      makeResourceMgrs TotalMemory GetNumFDs Scale ResourceManager error NewResourceManager
        maxMemory maxFD connMgrHighWater true = (None, None, Some err))
  /\ (forall bitswapHostRcMgr : ResourceManager,
        NewResourceManager
          (makeResourceManagerConfig TotalMemory GetNumFDs Scale
             (bitswapHostMem
                (splitBudget (budgetMemory TotalMemory maxMemory) (budgetFD GetNumFDs maxFD)))
             (bitswapHostFDs
                (splitBudget (budgetMemory TotalMemory maxMemory) (budgetFD GetNumFDs maxFD)))
             connMgrHighWater)
        = inl bitswapHostRcMgr ->
        NewResourceManager
          (makeSeparateDHTClientResourceManagerConfig Scale
             (dhtHostMem
                (splitBudget (budgetMemory TotalMemory maxMemory) (budgetFD GetNumFDs maxFD)))
             (dhtHostFDs
                (splitBudget (budgetMemory TotalMemory maxMemory) (budgetFD GetNumFDs maxFD))))
        = inr err ->
        makeResourceMgrs TotalMemory GetNumFDs Scale ResourceManager error NewResourceManager
          maxMemory maxFD connMgrHighWater true = (None, None, Some err))
  /\ (forall (separateDHT : bool) (bitswapHost dhtHost : option ResourceManager),
        makeResourceMgrs TotalMemory GetNumFDs Scale ResourceManager error NewResourceManager
          maxMemory maxFD connMgrHighWater separateDHT = (bitswapHost, dhtHost, Some err) ->
        bitswapHost = None /\ dhtHost = None).
Proof.
  unfold makeResourceMgrs, budgetMemory, budgetFD.
  repeat match goal with |- _ /\ _ => split end.
  - intros H. cbn [negb]. now rewrite H.
  - intros H. cbn [negb]. now rewrite H.
  - intros mgr H1 H2. cbn [negb]. now rewrite H1, H2.
  - intros separateDHT b d.
    destruct separateDHT; cbn [negb];
      repeat match goal with
             | |- context [NewResourceManager ?c] => destruct (NewResourceManager c)
             end; intros [= <- <- ?]; auto; discriminate.
Qed.

End Construction.

End Policy.

(** ** Accuracy of the float64 operations *)

Lemma digits2_pos_bounds (p : positive) :
  2 ^ (Z.pos (digits2_pos p) - 1) <= Z.pos p < 2 ^ Z.pos (digits2_pos p).
Proof.
  induction p as [p IH | p IH |]; cbn [digits2_pos].
  - rewrite Pos2Z.inj_succ, (Pos2Z.inj_xI p).
    replace (Z.succ (Z.pos (digits2_pos p)) - 1) with (Z.succ (Z.pos (digits2_pos p) - 1)) by lia.
    rewrite !Z.pow_succ_r by lia. lia.
  - rewrite Pos2Z.inj_succ, (Pos2Z.inj_xO p).
    replace (Z.succ (Z.pos (digits2_pos p)) - 1) with (Z.succ (Z.pos (digits2_pos p) - 1)) by lia.
    rewrite !Z.pow_succ_r by lia. lia.
  - cbn. lia.
Qed.

(** The number of binary digits of a positive integer below [2 ^ k]. *)
Lemma Zdigits2_le (m k : Z) : 0 < m -> m < 2 ^ k -> Zdigits2 m <= k.
Proof.
  intros Hm Hk. destruct m as [| p | p]; try lia. cbn [Zdigits2].
  destruct (Z.le_gt_cases (Z.pos (digits2_pos p)) k) as [H | H]; [exact H | exfalso].
  pose proof (digits2_pos_bounds p) as [Hlo _].
  assert (0 <= k).
  { destruct (Z.le_gt_cases 0 k); [assumption |]. rewrite Z.pow_neg_r in Hk; lia. }
  assert (2 ^ k <= 2 ^ (Z.pos (digits2_pos p) - 1)) by (apply Z.pow_le_mono_r; lia).
  lia.
Qed.

Lemma shr_1_m (mrs : shr_record) :
  0 <= shr_m mrs -> shr_m (shr_1 mrs) = shr_m mrs / 2.
Proof.
  destruct mrs as [m r s]. cbn [shr_m]. intros Hm.
  destruct m as [| [q | q |] | q]; cbn [shr_1 shr_m]; try lia.
  - reflexivity.
  - rewrite (Pos2Z.inj_xI q). apply (Z.div_unique _ 2 _ 1); lia.
  - rewrite (Pos2Z.inj_xO q). apply (Z.div_unique _ 2 _ 0); lia.
  - reflexivity.
Qed.

Lemma iter_shr_1_m (p : positive) (mrs : shr_record) :
  0 <= shr_m mrs -> shr_m (SpecFloat.iter_pos shr_1 p mrs) = shr_m mrs / 2 ^ Z.pos p.
Proof.
  revert mrs. induction p as [p IH | p IH |]; intros mrs Hm; cbn [SpecFloat.iter_pos].
  - assert (H1 : 0 <= shr_m (shr_1 mrs)).
    { rewrite shr_1_m by exact Hm. apply Z.div_pos; lia. }
    assert (H2 : 0 <= shr_m (SpecFloat.iter_pos shr_1 p (shr_1 mrs))).
    { rewrite IH by exact H1. apply Z.div_pos; lia. }
    rewrite IH by exact H2. rewrite IH by exact H1. rewrite shr_1_m by exact Hm.
    rewrite !Z.div_div by lia. f_equal.
    rewrite (Pos2Z.inj_xI p).
    replace (2 * Z.pos p + 1) with (Z.pos p + Z.pos p + 1) by lia.
    rewrite !Z.pow_add_r by lia. lia.
  - assert (H1 : 0 <= shr_m (SpecFloat.iter_pos shr_1 p mrs)).
    { rewrite IH by exact Hm. apply Z.div_pos; lia. }
    rewrite IH by exact H1. rewrite IH by exact Hm.
    rewrite !Z.div_div by lia. f_equal.
    rewrite (Pos2Z.inj_xO p).
    replace (2 * Z.pos p) with (Z.pos p + Z.pos p) by lia.
    rewrite Z.pow_add_r by lia. lia.
  - rewrite shr_1_m by exact Hm. reflexivity.
Qed.

Lemma fexp_normal (e : Z) :
  -1021 <= e -> fexp Float64.prec Float64.emax e = e - 53.
Proof.
  intros H. unfold fexp, emin, Float64.prec, Float64.emax. lia.
Qed.

Lemma round_nearest_even_bounds (m : Z) (l : location) :
  m <= round_nearest_even m l <= m + 1.
Proof.
  destruct l as [| []]; cbn [round_nearest_even]; try lia.
  destruct (Z.even m); lia.
Qed.

Lemma shr_pos (mrs : shr_record) (e n : Z) :
  0 < n -> 0 <= shr_m mrs ->
  exists mrs', shr mrs e n = (mrs', e + n) /\ shr_m mrs' = shr_m mrs / 2 ^ n.
Proof.
  intros Hn Hm. destruct n as [| p | p]; try lia.
  exists (SpecFloat.iter_pos shr_1 p mrs). split; [reflexivity | now apply iter_shr_1_m].
Qed.

(** The first shift of [binary_round_aux]: a mantissa of [d >= 53] digits is
    cut down to 53 digits and rounded. *)
Lemma round_aux_accurate (s : bool) (mx : positive) (ex : Z) :
  53 <= Z.pos (digits2_pos mx) -> -1074 <= ex -> Z.pos (digits2_pos mx) + ex <= 1023 ->
  exists (m' : positive) (e' : Z),
    binary_round_aux Float64.prec Float64.emax s (Z.pos mx) ex loc_Exact
    = S754_finite s m' e'
    /\ ex <= e' <= ex + Z.pos (digits2_pos mx) - 52
    /\ Z.pos m' <= 2 ^ 53
    /\ 2 ^ 52 * (Z.pos m' * 2 ^ (e' - ex)) <= (2 ^ 52 + 1) * Z.pos mx
    /\ (2 ^ 52 - 1) * Z.pos mx <= 2 ^ 52 * (Z.pos m' * 2 ^ (e' - ex)).
Proof.
  intros Hd Hex Hmax.
  pose proof (digits2_pos_bounds mx) as [Hlo Hhi].
  set (d := Z.pos (digits2_pos mx)) in *.
  set (n := d - 53).
  assert (Hpow : 2 ^ (d - 1) = 2 ^ 52 * 2 ^ n).
  { unfold n. rewrite <- Z.pow_add_r by lia. f_equal. lia. }
  assert (Hn2 : 0 < 2 ^ n) by (apply Z.pow_pos_nonneg; lia).
  (* the mantissa after the first shift *)
  set (m1 := Z.pos mx / 2 ^ n).
  assert (Hm1 : m1 * 2 ^ n <= Z.pos mx < (m1 + 1) * 2 ^ n).
  { unfold m1. pose proof (Z.mul_div_le (Z.pos mx) (2 ^ n) Hn2).
    pose proof (Z.mul_succ_div_gt (Z.pos mx) (2 ^ n) Hn2). lia. }
  assert (Hm1lo : 2 ^ 52 <= m1).
  { unfold m1. apply Z.div_le_lower_bound; lia. }
  assert (Hm1hi : m1 < 2 ^ 53).
  { unfold m1. apply Z.div_lt_upper_bound; [lia |].
    replace (2 ^ n * 2 ^ 53) with (2 ^ d); [lia |].
    unfold n. rewrite <- Z.pow_add_r by lia. f_equal. lia. }
  unfold binary_round_aux, shr_fexp. cbn [Zdigits2]. fold d.
  rewrite fexp_normal by lia.
  replace (d + ex - 53 - ex) with n by (unfold n; lia).
  assert (Hfirst : exists mrs', shr (shr_record_of_loc (Z.pos mx) loc_Exact) ex n = (mrs', ex + n)
                     /\ shr_m mrs' = m1).
  { destruct (Z.eq_dec n 0) as [Hz | Hz].
    - rewrite Hz. eexists. split; [rewrite Z.add_0_r; reflexivity |].
      unfold m1. rewrite Hz. cbn [shr_record_of_loc shr_m]. now rewrite Z.pow_0_r, Z.div_1_r.
    - destruct (shr_pos (shr_record_of_loc (Z.pos mx) loc_Exact) ex n) as (mrs' & E & Em);
        [lia | cbn; lia |].
      exists mrs'. split; [exact E | exact Em]. }
  destruct Hfirst as (mrs' & -> & Em1).
  pose proof (round_nearest_even_bounds (shr_m mrs') (loc_of_shr_record mrs')) as Hr.
  remember (round_nearest_even (shr_m mrs') (loc_of_shr_record mrs')) as m2 eqn:Em2.
  clear Em2. rewrite Em1 in Hr.
  assert (Hdm2 : 53 <= Zdigits2 m2 <= 54).
  { split.
    - destruct m2 as [| p | p]; try lia. cbn [Zdigits2].
      pose proof (digits2_pos_bounds p) as [_ Hp].
      destruct (Z.le_gt_cases 53 (Z.pos (digits2_pos p))); [assumption | exfalso].
      assert (2 ^ Z.pos (digits2_pos p) <= 2 ^ 52) by (apply Z.pow_le_mono_r; lia). lia.
    - apply Zdigits2_le; lia. }
  rewrite fexp_normal by lia.
  set (n' := Zdigits2 m2 + (ex + n) - 53 - (ex + n)).
  assert (Hsecond : exists m3 : positive,
             shr (shr_record_of_loc m2 loc_Exact) (ex + n) n'
             = ({| shr_m := Z.pos m3; shr_r := shr_r (fst (shr (shr_record_of_loc m2 loc_Exact) (ex + n) n'));
                   shr_s := shr_s (fst (shr (shr_record_of_loc m2 loc_Exact) (ex + n) n')) |}, ex + n + n')
             /\ Z.pos m3 * 2 ^ n' = m2 /\ 0 <= n' <= 1).
  { destruct (Z.eq_dec n' 0) as [Hz | Hz].
    - rewrite Hz. cbn [shr shr_record_of_loc fst shr_r shr_s].
      destruct m2 as [| p | p]; try lia.
      exists p. split; [now rewrite Z.add_0_r |]. rewrite Z.pow_0_r. lia.
    - assert (Hn' : n' = 1) by (unfold n' in *; lia).
      assert (Hm2 : m2 = 2 ^ 53).
      { destruct m2 as [| p | p]; try lia. cbn [Zdigits2] in *.
        pose proof (digits2_pos_bounds p) as [Hp _].
        assert (2 ^ 53 <= 2 ^ (Z.pos (digits2_pos p) - 1)) by (apply Z.pow_le_mono_r; unfold n' in *; lia).
        lia. }
      rewrite Hn', Hm2. exists (2 ^ 52)%positive. split; [reflexivity |]. split; [reflexivity | lia]. }
  destruct Hsecond as (m3 & -> & Em3 & Hn').
  cbn [shr_m].
  assert (Hfin : (ex + n + n' <=? Float64.emax - Float64.prec) = true).
  { apply Z.leb_le. unfold Float64.emax, Float64.prec, n. lia. }
  rewrite Hfin. exists m3, (ex + n + n'). split; [reflexivity |].
  split; [unfold n; lia |].
  split; [assert (0 < 2 ^ n') by (apply Z.pow_pos_nonneg; lia); nia |].
  replace (ex + n + n' - ex) with (n' + n) by lia.
  rewrite Z.pow_add_r by lia.
  replace (Z.pos m3 * (2 ^ n' * 2 ^ n)) with (m2 * 2 ^ n) by (rewrite <- Em3; ring).
  clear Hfin Em3 Hdm2. nia.
Qed.

Lemma iter_xO_value (p k : positive) : Z.pos (Pos.iter xO p k) = Z.pos p * 2 ^ Z.pos k.
Proof.
  induction k as [| k IH] using Pos.peano_ind.
  - cbn. lia.
  - rewrite Pos.iter_succ, Pos2Z.inj_xO, IH, Pos2Z.inj_succ, Z.pow_succ_r by lia. lia.
Qed.

Lemma iter_xO_digits (p k : positive) :
  Z.pos (digits2_pos (Pos.iter xO p k)) = Z.pos (digits2_pos p) + Z.pos k.
Proof.
  induction k as [| k IH] using Pos.peano_ind.
  - cbn [Pos.iter digits2_pos]. lia.
  - rewrite Pos.iter_succ. cbn [digits2_pos]. rewrite Pos2Z.inj_succ, IH. lia.
Qed.

(** [float64(n)] for a positive integer of at most 65 bits, with either
    sign: the result is finite, and within one part in [2 ^ 52] of [n]. *)
Lemma of_pos_accurate (s : bool) (p : positive) :
  Z.pos p <= 2 ^ 64 ->
  exists (m : positive) (e k : Z),
    binary_round Float64.prec Float64.emax s p 0 = S754_finite s m e
    /\ 0 <= k <= 52 /\ - k <= e <= 13
    /\ Z.pos m <= 2 ^ 53
    /\ 2 ^ 52 * (Z.pos m * 2 ^ (e + k)) <= (2 ^ 52 + 1) * (Z.pos p * 2 ^ k)
    /\ (2 ^ 52 - 1) * (Z.pos p * 2 ^ k) <= 2 ^ 52 * (Z.pos m * 2 ^ (e + k)).
Proof.
  intros Hp.
  pose proof (digits2_pos_bounds p) as [Hlo Hhi].
  set (d := Z.pos (digits2_pos p)) in *.
  assert (Hd : 1 <= d <= 65).
  { split; [unfold d; lia |].
    destruct (Z.le_gt_cases d 65); [assumption | exfalso].
    assert (2 ^ 65 <= 2 ^ (d - 1)) by (apply Z.pow_le_mono_r; lia). lia. }
  unfold binary_round. fold d. rewrite Z.add_0_r, fexp_normal by lia.
  unfold shl_align. rewrite Z.sub_0_r.
  destruct (d - 53) as [| q | q] eqn:Hq.
  - destruct (round_aux_accurate s p 0) as (m & e & E & He & Hm & Hub & Hlb); fold d; try lia.
    exists m, e, 0. rewrite Z.sub_0_r in *. rewrite Z.add_0_r, Z.pow_0_r, Z.mul_1_r.
    fold d in He. repeat split; try assumption; lia.
  - destruct (round_aux_accurate s p 0) as (m & e & E & He & Hm & Hub & Hlb); fold d; try lia.
    exists m, e, 0. rewrite Z.sub_0_r in *. rewrite Z.add_0_r, Z.pow_0_r, Z.mul_1_r.
    fold d in He. repeat split; try assumption; lia.
  - pose proof (iter_xO_value p q) as Hv. pose proof (iter_xO_digits p q) as Hdig.
    fold d in Hdig.
    destruct (round_aux_accurate s (Pos.iter xO p q) (Z.neg q))
      as (m & e & E & He & Hm & Hub & Hlb); try lia.
    exists m, e, (Z.pos q). rewrite Hdig in He. rewrite Hv in Hub, Hlb.
    replace (e - Z.neg q) with (e + Z.pos q) in * by lia.
    repeat split; try assumption; lia.
Qed.

(** Multiplication of a finite float by a constant with a full mantissa and
    exponent -53, that is, by a constant in [1/2, 1). *)
Lemma mul_const_accurate (s : bool) (m c : positive) (e : Z) :
  Z.pos m <= 2 ^ 53 -> 2 ^ 52 <= Z.pos c < 2 ^ 53 -> -52 <= e <= 13 ->
  exists (m' : positive) (e' : Z),
    Float64.mul (S754_finite s m e) (S754_finite false c (-53)) = S754_finite s m' e'
    /\ e - 53 <= e'
    /\ 2 ^ 52 * (Z.pos m' * 2 ^ (e' - (e - 53))) <= (2 ^ 52 + 1) * (Z.pos m * Z.pos c)
    /\ (2 ^ 52 - 1) * (Z.pos m * Z.pos c) <= 2 ^ 52 * (Z.pos m' * 2 ^ (e' - (e - 53))).
Proof.
  intros Hm Hc He.
  unfold Float64.mul, SFmul. rewrite xorb_false_r.
  pose proof (digits2_pos_bounds (m * c)) as [Hlo Hhi].
  rewrite Pos2Z.inj_mul in Hlo, Hhi.
  set (d := Z.pos (digits2_pos (m * c))) in *.
  assert (Hd : 53 <= d <= 107).
  { split.
    - destruct (Z.le_gt_cases 53 d); [assumption | exfalso].
      assert (2 ^ d <= 2 ^ 52) by (apply Z.pow_le_mono_r; lia). nia.
    - destruct (Z.le_gt_cases d 107); [assumption | exfalso].
      assert (2 ^ 107 <= 2 ^ (d - 1)) by (apply Z.pow_le_mono_r; lia). nia. }
  destruct (round_aux_accurate s (m * c) (e + -53))
    as (m' & e' & E & He' & _ & Hub & Hlb); fold d; try lia.
  exists m', e'. rewrite Pos2Z.inj_mul in Hub, Hlb.
  replace (e + -53) with (e - 53) in * by lia.
  repeat split; try assumption; lia.
Qed.

(** Truncation of a finite float [m * 2 ^ e], against any scale [2 ^ j]
    that clears the exponent. *)
Lemma trunc_finite (s : bool) (m : positive) (e j : Z) :
  0 <= e + j -> 0 <= j ->
  exists a : Z,
    Float64.trunc (S754_finite s m e) = (if s then - a else a)
    /\ 0 <= a
    /\ a * 2 ^ j <= Z.pos m * 2 ^ (e + j) < (a + 1) * 2 ^ j.
Proof.
  intros Hej Hj. unfold Float64.trunc.
  destruct e as [| q | q].
  - exists (Z.pos m * 2 ^ 0). split; [reflexivity |]. rewrite Z.pow_0_r, Z.mul_1_r, Z.add_0_l.
    assert (0 < 2 ^ j) by (apply Z.pow_pos_nonneg; lia). nia.
  - exists (Z.pos m * 2 ^ Z.pos q). split; [reflexivity |].
    assert (0 < 2 ^ j) by (apply Z.pow_pos_nonneg; lia).
    assert (0 < 2 ^ Z.pos q) by (apply Z.pow_pos_nonneg; lia).
    rewrite Z.pow_add_r by lia. nia.
  - exists (Z.pos m / 2 ^ Z.pos q). split; [reflexivity |].
    assert (Hq : 0 < 2 ^ Z.pos q) by (apply Z.pow_pos_nonneg; lia).
    assert (Hr : 0 < 2 ^ (Z.neg q + j)) by (apply Z.pow_pos_nonneg; lia).
    assert (Hs : 2 ^ j = 2 ^ Z.pos q * 2 ^ (Z.neg q + j)).
    { rewrite <- Z.pow_add_r by lia. f_equal. lia. }
    pose proof (Z.mul_div_le (Z.pos m) _ Hq).
    pose proof (Z.mul_succ_div_gt (Z.pos m) _ Hq).
    split; [apply Z.div_pos; lia |].
    rewrite Hs. nia.
Qed.

(** [float64(n) * c], truncated, for [n] of either sign and a constant [c]
    in [1/2, 1) with mantissa [c]: the magnitude [a] of the result satisfies
    [(1 - 2^-52)^2 * c * n - 2^105 < 2^105 * a <= (1 + 2^-52)^2 * c * n]
    up to the scaling written out below. *)
Lemma scale_accurate (s : bool) (p c : positive) :
  Z.pos p <= 2 ^ 64 -> 2 ^ 52 <= Z.pos c < 2 ^ 53 ->
  exists a : Z,
    Float64.trunc
      (Float64.mul (binary_round Float64.prec Float64.emax s p 0) (S754_finite false c (-53)))
    = (if s then - a else a)
    /\ 0 <= a
    /\ 2 ^ 157 * a <= (2 ^ 52 + 1) * (2 ^ 52 + 1) * (Z.pos c * Z.pos p)
    /\ (2 ^ 52 - 1) * (2 ^ 52 - 1) * (Z.pos c * Z.pos p) < 2 ^ 157 * (a + 1).
Proof.
  intros Hp Hc.
  destruct (of_pos_accurate s p Hp) as (m & e & k & -> & Hk & He & Hm & Hub1 & Hlb1).
  destruct (mul_const_accurate s m c e Hm Hc) as (m' & e' & -> & He' & Hub2 & Hlb2); [lia |].
  destruct (trunc_finite s m' e' (53 + k)) as (a & Ea & Ha & Hlo & Hhi); [lia | lia |].
  exists a. split; [exact Ea |]. split; [exact Ha |].
  replace (e' + (53 + k)) with ((e' - (e - 53)) + (e + k)) in Hlo, Hhi by lia.
  rewrite (Z.pow_add_r 2 (e' - (e - 53)) (e + k)) in Hlo, Hhi by lia.
  rewrite (Z.pow_add_r 2 53 k) in Hlo, Hhi by lia.
  assert (HA : 0 < 2 ^ k) by (apply Z.pow_pos_nonneg; lia).
  assert (HT : 0 < 2 ^ (e + k)) by (apply Z.pow_pos_nonneg; lia).
  assert (HY : 0 < 2 ^ (e' - (e - 53))) by (apply Z.pow_pos_nonneg; lia).
  set (A := 2 ^ k) in *. set (T := 2 ^ (e + k)) in *.
  set (Y := Z.pos m' * 2 ^ (e' - (e - 53))) in *.
  replace (Z.pos m' * (2 ^ (e' - (e - 53)) * T)) with (Y * T) in Hlo, Hhi by (unfold Y; lia).
  set (X := Z.pos m * T) in *.
  set (M := Z.pos m) in *. set (C := Z.pos c) in *. set (P := Z.pos p) in *.
  assert (HP : 0 < P) by (unfold P; lia). assert (HC : 0 < C) by lia.
  change (2 ^ 157) with (2 ^ 52 * 2 ^ 52 * 2 ^ 53).
  set (u := 2 ^ 52) in *. assert (Hu : 1 < u) by (unfold u; lia).
  change (2 ^ 53) with (2 * u) in *.
  clearbody A T Y u M C P. clear Hk He Hm He' Hp Ea.
  split.
  - (* u * u * (a * (2u) * A) <= u * u * Y * T <= (u+1) * C * u * X <= (u+1)^2 * C * P * A *)
    assert (H1 : u * (Y * T) <= (u + 1) * (C * X)) by (unfold X; nia).
    assert (H2 : u * (u * (Y * T)) <= (u + 1) * ((u + 1) * (C * (P * A)))) by nia.
    assert (H3 : u * (u * (a * (2 * u * A))) <= (u + 1) * ((u + 1) * (C * (P * A)))) by nia.
    nia.
  - assert (H1 : (u - 1) * (C * X) <= u * (Y * T)) by (unfold X; nia).
    assert (G1 : C * ((u - 1) * (P * A)) <= C * (u * X))
      by (apply Z.mul_le_mono_nonneg_l; lia).
    assert (G2 : (u - 1) * (C * ((u - 1) * (P * A))) <= (u - 1) * (C * (u * X)))
      by (apply Z.mul_le_mono_nonneg_l; lia).
    assert (G3 : u * ((u - 1) * (C * X)) <= u * (u * (Y * T)))
      by (apply Z.mul_le_mono_nonneg_l; lia).
    assert (G4 : u * (u * (Y * T)) < u * (u * ((a + 1) * (2 * u * A)))).
    { apply Z.mul_lt_mono_pos_l; [lia |]. apply Z.mul_lt_mono_pos_l; [lia |]. lia. }
    assert (H3 : (u - 1) * ((u - 1) * (C * (P * A))) < u * (u * ((a + 1) * (2 * u * A))))
      by lia.
    assert (H4 : ((u - 1) * (u - 1) * (C * P)) * A < (u * u * (2 * u) * (a + 1)) * A) by lia.
    apply Z.mul_lt_mono_pos_r in H4; [exact H4 | exact HA].
Qed.

(** ** The share [int(float64(n) * c)] of a budget [n] *)

Section Share.

(** A constant [c * 2^-53] in [1/2, 1) standing for [pct] percent: within
    the two rounding errors it is at most [pct * (1 + 2^-50)] percent and
    at least [pct * (1 - 2^-50)] percent, and never more than the whole. *)
Variables (c : positive) (pct : Z).
Hypothesis c_mantissa : 2 ^ 52 <= Z.pos c < 2 ^ 53.
Hypothesis c_below_one : (2 ^ 52 + 1) * (2 ^ 52 + 1) * Z.pos c <= 2 ^ 157.
Hypothesis c_upper :
  100 * 2 ^ 50 * ((2 ^ 52 + 1) * (2 ^ 52 + 1) * Z.pos c) <= 2 ^ 157 * (pct * (2 ^ 50 + 1)).
Hypothesis c_lower :
  2 ^ 157 * (pct * (2 ^ 50 - 1)) <= 100 * 2 ^ 50 * ((2 ^ 52 - 1) * (2 ^ 52 - 1) * Z.pos c).

Lemma share_of_pos (s : bool) (p : positive) :
  Z.pos p <= 2 ^ 64 ->
  exists a : Z,
    Float64.trunc
      (Float64.mul (binary_round Float64.prec Float64.emax s p 0) (S754_finite false c (-53)))
    = (if s then - a else a)
    /\ 0 <= a <= Z.pos p
    /\ 100 * 2 ^ 50 * a <= pct * (2 ^ 50 + 1) * Z.pos p
    /\ pct * (2 ^ 50 - 1) * Z.pos p < 100 * 2 ^ 50 * (a + 1).
Proof.
  intros Hp.
  destruct (scale_accurate s p c Hp c_mantissa) as (a & Ea & Ha & Hub & Hlb).
  exists a. split; [exact Ea |].
  rewrite Z.mul_assoc in Hub, Hlb.
  pose proof c_below_one as Hone. pose proof c_upper as Hupper. pose proof c_lower as Hlower.
  assert (HP : 0 < Z.pos p) by lia.
  assert (Hw : 0 < 2 ^ 157) by lia.
  assert (Hh : 0 < 100 * 2 ^ 50) by lia.
  set (hi := (2 ^ 52 + 1) * (2 ^ 52 + 1) * Z.pos c) in Hone, Hupper, Hub.
  set (lo := (2 ^ 52 - 1) * (2 ^ 52 - 1) * Z.pos c) in Hlower, Hlb.
  set (P := Z.pos p) in Hub, Hlb, HP |- *.
  set (w := 2 ^ 157) in Hone, Hupper, Hlower, Hub, Hlb, Hw.
  set (h := 100 * 2 ^ 50) in Hupper, Hlower, Hh |- *.
  set (up := pct * (2 ^ 50 + 1)) in Hupper |- *.
  set (dn := pct * (2 ^ 50 - 1)) in Hlower |- *.
  clearbody hi lo P w h up dn. clear Hp Ea.
  assert (H1 : hi * P <= w * P) by (apply Z.mul_le_mono_nonneg_r; lia).
  assert (H2 : h * (w * a) <= h * (hi * P)) by (apply Z.mul_le_mono_nonneg_l; lia).
  assert (H3 : h * hi * P <= w * up * P) by (apply Z.mul_le_mono_nonneg_r; lia).
  assert (H4 : w * dn * P <= h * lo * P) by (apply Z.mul_le_mono_nonneg_r; lia).
  assert (H5 : h * (lo * P) < h * (w * (a + 1))) by (apply Z.mul_lt_mono_pos_l; lia).
  split; [split; [exact Ha |] |]; [| split].
  - apply (Z.mul_le_mono_pos_l _ _ w Hw). lia.
  - apply (Z.mul_le_mono_pos_l _ _ w Hw). lia.
  - apply (Z.mul_lt_mono_pos_l w); [exact Hw |]. lia.
Qed.

(** The share of a budget [n] of either sign, [|n| <= 2^64]: it has the
    sign of [n] and at most its magnitude, and its magnitude is [pct]
    percent of [|n|] within one unit and one part in [2 ^ 50]. *)
Lemma share_of_Z (n : Z) :
  Z.abs n <= 2 ^ 64 ->
  exists a : Z,
    Float64.trunc (Float64.mul (Float64.of_Z n) (S754_finite false c (-53))) = Z.sgn n * a
    /\ 0 <= a <= Z.abs n
    /\ 100 * 2 ^ 50 * a <= pct * (2 ^ 50 + 1) * Z.abs n
    /\ pct * (2 ^ 50 - 1) * Z.abs n < 100 * 2 ^ 50 * (a + 1).
Proof.
  intros Hn. destruct n as [| p | p].
  - exists 0. split; [reflexivity |]. cbn [Z.abs]. lia.
  - destruct (share_of_pos false p) as (a & Ea & Ha & Hub & Hlb); [exact Hn |].
    exists a. cbn [Z.abs Z.sgn]. rewrite Z.mul_1_l. repeat split; try assumption; lia.
  - destruct (share_of_pos true p) as (a & Ea & Ha & Hub & Hlb); [exact Hn |].
    exists a. cbn [Z.abs Z.sgn].
    replace (-1 * a) with (- a) by lia. repeat split; try assumption; lia.
Qed.

End Share.

(** ** The split between the two hosts *)

Lemma c0_85_nearest : Float64.of_ratio 85 100 = Float64.c0_85.
Proof. vm_compute. reflexivity. Qed.

Lemma c0_75_nearest : Float64.of_ratio 75 100 = Float64.c0_75.
Proof. vm_compute. reflexivity. Qed.

Lemma percentShare_intro (pct total a : Z) :
  0 <= a <= Z.abs total ->
  100 * 2 ^ 50 * a <= pct * (2 ^ 50 + 1) * Z.abs total ->
  pct * (2 ^ 50 - 1) * Z.abs total < 100 * 2 ^ 50 * (a + 1) ->
  percentShare pct total (Z.sgn total * a).
Proof.
  intros Ha Hub Hlb. unfold percentShare.
  assert (E : Z.abs (Z.sgn total * a) = a).
  { destruct total; cbn [Z.sgn Z.abs] in *; lia. }
  rewrite E. repeat split; try assumption; lia.
Qed.

Lemma bitswapHostMem_share (maxMemory : Z) :
  Go.is_uint64 maxMemory ->
  exists a : Z,
    Float64.trunc (Float64.mul (Float64.of_Z maxMemory) Float64.c0_85) = a
    /\ 0 <= a <= maxMemory /\ percentShare 85 maxMemory a.
Proof.
  unfold Go.is_uint64, Go.MaxUint64. intros H.
  destruct (share_of_Z 7656119366529843 85 ltac:(lia) ltac:(lia) ltac:(lia) ltac:(lia) maxMemory)
    as (a & Ea & Ha & Hub & Hlb); [lia |].
  assert (Habs : Z.abs maxMemory = maxMemory) by lia.
  exists (Z.sgn maxMemory * a). split; [exact Ea |].
  split; [| now apply percentShare_intro].
  rewrite Habs in Ha. destruct maxMemory; cbn [Z.sgn]; lia.
Qed.

Lemma bitswapHostFDs_share (maxFD : Z) :
  Go.is_int maxFD ->
  exists a : Z,
    Float64.trunc (Float64.mul (Float64.of_Z maxFD) Float64.c0_75) = a
    /\ Go.is_int a /\ Go.is_int (maxFD - a) /\ percentShare 75 maxFD a.
Proof.
  unfold Go.is_int, Go.MinInt, Go.MaxInt. intros H.
  destruct (share_of_Z 6755399441055744 75 ltac:(lia) ltac:(lia) ltac:(lia) ltac:(lia) maxFD)
    as (a & Ea & Ha & Hub & Hlb); [lia |].
  exists (Z.sgn maxFD * a). split; [exact Ea |].
  split; [| split; [| now apply percentShare_intro]];
    destruct maxFD; cbn [Z.sgn Z.abs] in *; lia.
Qed.


(** ** The worked examples of the specification *)

(** 4 GiB, 4096 descriptors, high-water mark 400, one host: one inbound
    connection per megabyte is 4096, above both floors, so it is kept. *)
Example plan_4GiB :
  system (makeResourceManagerConfig Sample.TotalMemory Sample.GetNumFDs Sample.Scale
            4294967296 4096 400)
  = {| BaseLimit.Streams := Go.MaxInt; BaseLimit.StreamsInbound := Go.MaxInt;
       BaseLimit.StreamsOutbound := Go.MaxInt; BaseLimit.Conns := Go.MaxInt;
       BaseLimit.ConnsInbound := 4096; BaseLimit.ConnsOutbound := Go.MaxInt;
       BaseLimit.FD := 4096; BaseLimit.Memory := 4294967296 |}
  /\ BaseLimit.Memory
       (transient (makeResourceManagerConfig Sample.TotalMemory Sample.GetNumFDs Sample.Scale
                     4294967296 4096 400)) = 1073741824
  /\ BaseLimit.FD
       (transient (makeResourceManagerConfig Sample.TotalMemory Sample.GetNumFDs Sample.Scale
                     4294967296 4096 400)) = 1024.
Proof. vm_compute. repeat split. Qed.

(** 64 MiB, 256 descriptors, high-water mark 600: 64 inbound connections
    before the check, 1200 after it. *)
Example plan_64MiB :
  preOverrideInboundConns Sample.TotalMemory Sample.GetNumFDs Sample.Scale 67108864 256 = 64
  /\ finalInboundConns Sample.TotalMemory Sample.GetNumFDs Sample.Scale 67108864 256 600 = 1200.
Proof. vm_compute. split; reflexivity. Qed.

(** 1000 MiB and 1000 descriptors for two hosts: 850 MiB and 750
    descriptors for the primary, 150 MiB and 250 for the secondary. *)
Example split_1000MiB :
  splitBudget 1048576000 1000
  = {| bitswapHostMem := 891289600; bitswapHostFDs := 750;
       dhtHostMem := 157286400; dhtHostFDs := 250 |}.
Proof. vm_compute. reflexivity. Qed.

(** A budget below one megabyte: the literal asks for the default, the
    sample autoscaler answers 64, and the check raises that to 1200. *)
Example plan_1000B :
  inboundConns (makeResourceManagerConfig_partialLimits 1000 2) = DefaultLimit
  /\ preOverrideInboundConns Sample.TotalMemory Sample.GetNumFDs Sample.Scale 1000 2 = 64
  /\ finalInboundConns Sample.TotalMemory Sample.GetNumFDs Sample.Scale 1000 2 600 = 1200.
Proof. vm_compute. repeat split. Qed.

(** The configurations built for the sample are fully resolved, by
    evaluation. *)
Example plan_4GiB_resolved :
  fullyResolved
    (makeResourceManagerConfig_resolved Sample.TotalMemory Sample.GetNumFDs Sample.Scale
       4294967296 4096 400).
Proof. apply (bool_decide_unpack _). vm_compute. exact I. Qed.

(** Beyond the range of [int] the products wrap around, as they do in Go: a
    high-water mark of [2 ^ 62] doubles to [- 2 ^ 63] and leaves only the
    floor of 800, and a product of connections and streams of [2 ^ 67]
    rescales the streams to 0. *)
Example high_water_mark_wraps :
  Go.int_mul (2 ^ 62) 2 = - 2 ^ 63
  /\ finalInboundConns Sample.TotalMemory Sample.GetNumFDs Sample.Scale 67108864 256 (2 ^ 62)
     = 800.
Proof. vm_compute. split; reflexivity. Qed.

Example rescale_wraps :
  inboundConns (overrideInboundConns Sample.autoscaled1GiB (2 ^ 55)) = 2 ^ 56
  /\ inboundStreams Sample.autoscaled1GiB = 2 ^ 11
  /\ inboundStreams (overrideInboundConns Sample.autoscaled1GiB (2 ^ 55)) = 0.
Proof. vm_compute. repeat split. Qed.

(** ** The properties at concrete budgets *)

Lemma system_conns_inbound_per_megabyte_4GiB :
  0 < 4294967296 <= Go.MaxUint64
  /\ inboundConns
       (makeResourceManagerConfig_partialLimits
          (budgetMemory Sample.TotalMemory 4294967296) (budgetFD Sample.GetNumFDs 4096))
     = 4294967296 / 2 ^ 20
  /\ (2 ^ 20 <= 4294967296 ->
      preOverrideInboundConns Sample.TotalMemory Sample.GetNumFDs Sample.Scale 4294967296 4096
      = 4294967296 / 2 ^ 20).
Proof.
  split; [unfold Go.MaxUint64; lia |].
  apply (system_conns_inbound_per_megabyte Sample.TotalMemory Sample.GetNumFDs Sample.Scale
           4294967296 4096).
  unfold Go.MaxUint64. lia.
Defined.

Lemma override_raises_inbound_conns_64MiB :
  DefaultLimit
    < preOverrideInboundConns Sample.TotalMemory Sample.GetNumFDs Sample.Scale 67108864 256
  /\ Z.max (Go.int_mul 600 2) 800
       <= finalInboundConns Sample.TotalMemory Sample.GetNumFDs Sample.Scale 67108864 256 600
  /\ (Go.int_mul 600 2
        <= preOverrideInboundConns Sample.TotalMemory Sample.GetNumFDs Sample.Scale 67108864 256 ->
      800 <= preOverrideInboundConns Sample.TotalMemory Sample.GetNumFDs Sample.Scale 67108864 256 ->
      finalInboundConns Sample.TotalMemory Sample.GetNumFDs Sample.Scale 67108864 256 600
      = preOverrideInboundConns Sample.TotalMemory Sample.GetNumFDs Sample.Scale 67108864 256)
  /\ (- 2 ^ 62 <= 600 < 2 ^ 62 -> Go.int_mul 600 2 = 2 * 600).
Proof.
  split; [vm_compute; reflexivity |].
  apply (override_raises_inbound_conns Sample.TotalMemory Sample.GetNumFDs Sample.Scale
           67108864 256 600).
  vm_compute. reflexivity.
Defined.


Lemma transient_is_quarter_of_system_4GiB :
  Go.is_uint64 4294967296 /\ Go.is_int 4096
  /\ quarterTransient (makeResourceManagerConfig_partialLimits 4294967296 4096) 4294967296 4096
  /\ quarterTransient
       (makeSeparateDHTClientResourceManagerConfig_partialLimits 4294967296 4096)
       4294967296 4096.
Proof.
  assert (Hm : Go.is_uint64 4294967296) by (unfold Go.is_uint64, Go.MaxUint64; lia).
  assert (Hf : Go.is_int 4096) by (unfold Go.is_int, Go.MinInt, Go.MaxInt; lia).
  split; [exact Hm |]. split; [exact Hf |].
  exact (transient_is_quarter_of_system 4294967296 4096 Hm Hf).
Defined.

Lemma override_rescales_inbound_streams_1GiB :
  DefaultLimit < inboundConns Sample.autoscaled1GiB
  /\ DefaultLimit < inboundStreams Sample.autoscaled1GiB
  /\ Z.max (Z.max (inboundConns Sample.autoscaled1GiB) (Go.int_mul 600 2)) 800
       * inboundStreams Sample.autoscaled1GiB <= Go.MaxInt
  /\ inboundConns (overrideInboundConns Sample.autoscaled1GiB 600)
     = Z.max (Z.max (inboundConns Sample.autoscaled1GiB) (Go.int_mul 600 2)) 800
  /\ inboundStreams (overrideInboundConns Sample.autoscaled1GiB 600)
     = Z.max (Z.max (inboundConns Sample.autoscaled1GiB) (Go.int_mul 600 2)) 800
         * inboundStreams Sample.autoscaled1GiB / inboundConns Sample.autoscaled1GiB
  /\ BaseLimit.StreamsInbound
       (system (Build (overrideInboundConns Sample.autoscaled1GiB 600)
                  emptyConcreteLimitConfig))
     = inboundStreams (overrideInboundConns Sample.autoscaled1GiB 600).
Proof.
  assert (Hc : DefaultLimit < inboundConns Sample.autoscaled1GiB) by (vm_compute; reflexivity).
  assert (Hs : DefaultLimit < inboundStreams Sample.autoscaled1GiB) by (vm_compute; reflexivity).
  assert (Hfit : Z.max (Z.max (inboundConns Sample.autoscaled1GiB) (Go.int_mul 600 2)) 800
                   * inboundStreams Sample.autoscaled1GiB <= Go.MaxInt)
    by (vm_compute; discriminate).
  split; [exact Hc |]. split; [exact Hs |]. split; [exact Hfit |].
  destruct (override_rescales_inbound_streams Sample.autoscaled1GiB 600 Hc Hs)
    as (Hclamp & _ & _ & Hrest).
  destruct (Hrest Hfit) as (Hq & _ & _ & Hret).
  split; [exact Hclamp |]. split; [exact Hq | exact Hret].
Defined.

Lemma sub_megabyte_budget_inherits_default_1000B :
  0 < 1000 < 2 ^ 20
  /\ inboundConns
       (makeResourceManagerConfig_partialLimits
          (budgetMemory Sample.TotalMemory 1000) (budgetFD Sample.GetNumFDs 2)) = DefaultLimit
  /\ BaseLimit.ConnsInbound
       (system (Build (makeResourceManagerConfig_partialLimits
                         (budgetMemory Sample.TotalMemory 1000) (budgetFD Sample.GetNumFDs 2))
                  (Sample.Scale (Go.to_int 1000) (budgetFD Sample.GetNumFDs 2))))
     = BaseLimit.ConnsInbound
         (system (Sample.Scale (Go.to_int 1000) (budgetFD Sample.GetNumFDs 2)))
  /\ preOverrideInboundConns Sample.TotalMemory Sample.GetNumFDs Sample.Scale 1000 2
     = valueOrBlockAll
         (BaseLimit.ConnsInbound
            (system (Sample.Scale (Go.to_int 1000) (budgetFD Sample.GetNumFDs 2))))
  /\ preOverrideInboundConns Sample.TotalMemory Sample.GetNumFDs Sample.Scale 1000 2
     <> DefaultLimit
  /\ (forall (partialLimits : PartialLimitConfig) (connMgrHighWater : Z),
        inboundConns partialLimits = DefaultLimit
        \/ inboundConns partialLimits = Unlimited ->
        overrideInboundConns partialLimits connMgrHighWater = partialLimits).
Proof.
  split; [lia |].
  apply (sub_megabyte_budget_inherits_default Sample.TotalMemory Sample.GetNumFDs Sample.Scale
           1000 2).
  lia.
Defined.

Lemma construction_error_returned_alone_sample :
  (Sample.newFail
     (makeResourceManagerConfig Sample.TotalMemory Sample.GetNumFDs Sample.Scale
        (budgetMemory Sample.TotalMemory 0) (budgetFD Sample.GetNumFDs 0) 400)
   = inr "limiter rejected"%string
   /\ makeResourceMgrs Sample.TotalMemory Sample.GetNumFDs Sample.Scale
        ConcreteLimitConfig string Sample.newFail 0 0 400 false
      = (None, None, Some "limiter rejected"%string))
  /\ makeResourceMgrs Sample.TotalMemory Sample.GetNumFDs Sample.Scale
       ConcreteLimitConfig string Sample.newFail 0 0 400 true
     = (None, None, Some "limiter rejected"%string)
  /\ makeResourceMgrs Sample.TotalMemory Sample.GetNumFDs Sample.Scale
       ConcreteLimitConfig string Sample.newFailSmall 4294967296 4096 400 true
     = (None, None, Some "too few inbound connections"%string).
Proof.
  split; [split; [reflexivity |] |]; [| split].
  - apply (proj1 (construction_error_returned_alone Sample.TotalMemory Sample.GetNumFDs
                    Sample.Scale ConcreteLimitConfig string Sample.newFail 0 0 400
                    "limiter rejected"%string)).
    reflexivity.
  - apply (proj1 (proj2 (construction_error_returned_alone Sample.TotalMemory
                           Sample.GetNumFDs Sample.Scale ConcreteLimitConfig string
                           Sample.newFail 0 0 400 "limiter rejected"%string))).
    reflexivity.
  - eapply (proj1 (proj2 (proj2 (construction_error_returned_alone Sample.TotalMemory
                                   Sample.GetNumFDs Sample.Scale ConcreteLimitConfig string
                                   Sample.newFailSmall 4294967296 4096 400
                                   "too few inbound connections"%string)))).
    + vm_compute. reflexivity.
    + vm_compute. reflexivity.
Defined.

(** ** From a limit in the literal to the limit returned

    Each builder writes a literal, merges it with the autoscaled limits,
    writes the result back in the partial form and freezes it against the
    empty fallback.  These lemmas follow one limit, and one scope, through
    those steps. *)

Lemma freeze_explicit (l d d' : Z) :
  l <> DefaultLimit ->
  LimitVal_Build (valueOrBlockAll (LimitVal_Build l d)) d' = LimitVal_Build l d'.
Proof.
  unfold LimitVal_Build, valueOrBlockAll, DefaultLimit, Unlimited, BlockAllLimit.
  intros H.
  destruct (Z.eqb_spec l 0); [contradiction |].
  destruct (Z.eqb_spec l (-1)); [reflexivity |].
  destruct (Z.eqb_spec l (-2)); [reflexivity |].
  destruct (Z.eqb_spec l 0); [contradiction |].
  destruct (Z.eqb_spec l Go.MaxInt) as [-> | ?]; [reflexivity |].
  destruct (Z.eqb_spec l 0); [contradiction |].
  destruct (Z.eqb_spec l (-1)); [contradiction |].
  destruct (Z.eqb_spec l (-2)); [contradiction | reflexivity].
Qed.

Lemma freeze_inherited (d d' : Z) :
  0 <= d -> LimitVal_Build (valueOrBlockAll (LimitVal_Build DefaultLimit d)) d' = d.
Proof.
  rewrite LimitVal_Build_Default.
  unfold LimitVal_Build, valueOrBlockAll, DefaultLimit, Unlimited, BlockAllLimit.
  intros H.
  destruct (Z.eqb_spec d 0) as [-> | ?]; [reflexivity |].
  destruct (Z.eqb_spec d Go.MaxInt) as [-> | ?]; [reflexivity |].
  destruct (Z.eqb_spec d 0); [contradiction |].
  destruct (Z.eqb_spec d (-1)); [lia |].
  destruct (Z.eqb_spec d (-2)); [lia | reflexivity].
Qed.

Lemma freeze_concrete (l d d' : Z) :
  0 < l <= Go.MaxInt -> LimitVal_Build (valueOrBlockAll (LimitVal_Build l d)) d' = l.
Proof.
  intros H. rewrite freeze_explicit by (unfold DefaultLimit; lia).
  apply LimitVal_Build_concrete. unfold DefaultLimit. lia.
Qed.

(** A scope written back in the partial form and frozen again. *)
Lemma ToResourceLimits_roundtrip (l d : BaseLimit.t) :
  nonNegative l -> ResourceLimits_Build (ToResourceLimits l) d = l.
Proof.
  destruct l as [a1 a2 a3 a4 a5 a6 a7 a8]. unfold nonNegative.
  cbn [BaseLimit.Streams BaseLimit.StreamsInbound BaseLimit.StreamsOutbound BaseLimit.Conns
       BaseLimit.ConnsInbound BaseLimit.ConnsOutbound BaseLimit.FD BaseLimit.Memory].
  intros (H1 & H2 & H3 & H4 & H5 & H6 & H7 & H8).
  unfold ResourceLimits_Build, ToResourceLimits.
  cbn [Streams StreamsInbound StreamsOutbound Conns ConnsInbound ConnsOutbound FD Memory
       BaseLimit.Streams BaseLimit.StreamsInbound BaseLimit.StreamsOutbound BaseLimit.Conns
       BaseLimit.ConnsInbound BaseLimit.ConnsOutbound BaseLimit.FD BaseLimit.Memory].
  pose proof (fun n d' H => freeze_inherited n d' H) as R.
  setoid_rewrite LimitVal_Build_Default in R.
  f_equal; apply R; assumption.
Qed.

(** The fully unlimited scope stays fully unlimited, whatever it is merged
    with. *)
Lemma infinite_scope_returned (d d' : BaseLimit.t) :
  ResourceLimits_Build (ToResourceLimits (ResourceLimits_Build infiniteResourceLimits d)) d'
  = infiniteBaseLimit.
Proof. reflexivity. Qed.

(** The check against the connection manager, seen from the configuration
    returned: when the inbound streams are not concrete it changes the
    System inbound-connections limit and nothing else. *)
Lemma Build_override (partialLimits : PartialLimitConfig) (connMgrHighWater : Z)
    (d : ConcreteLimitConfig) :
  inboundStreams partialLimits <= DefaultLimit ->
  Build (overrideInboundConns partialLimits connMgrHighWater) d
  = setSystemConnsInbound (Build partialLimits d)
      (LimitVal_Build (inboundConns (overrideInboundConns partialLimits connMgrHighWater))
         (BaseLimit.ConnsInbound (system d))).
Proof.
  unfold inboundStreams, inboundConns, overrideInboundConns. intros Hs.
  destruct (DefaultLimit <? ConnsInbound (System partialLimits)).
  - destruct (Z.ltb_spec DefaultLimit (StreamsInbound (System partialLimits))); [lia |].
    reflexivity.
  - reflexivity.
Qed.

Lemma setSystemConnsInbound_twice (c : ConcreteLimitConfig) (n n' : Z) :
  setSystemConnsInbound (setSystemConnsInbound c n') n = setSystemConnsInbound c n.
Proof. reflexivity. Qed.

Lemma setSystemConnsInbound_read (c : ConcreteLimitConfig) (n : Z) :
  BaseLimit.ConnsInbound (system (setSystemConnsInbound c n)) = n.
Proof. reflexivity. Qed.

Section Returned.

Variables (TotalMemory GetNumFDs : Z) (Scale : Z -> Z -> ConcreteLimitConfig).

(** The general-host configuration is the merged configuration, frozen,
    with the System inbound-connections limit the check decided on. *)
Lemma makeResourceManagerConfig_eq (maxMemory maxFD connMgrHighWater : Z) :
  makeResourceManagerConfig TotalMemory GetNumFDs Scale maxMemory maxFD connMgrHighWater
  = setSystemConnsInbound
      (Build (makeResourceManagerConfig_merged TotalMemory GetNumFDs Scale maxMemory maxFD)
         emptyConcreteLimitConfig)
      (finalInboundConns TotalMemory GetNumFDs Scale maxMemory maxFD connMgrHighWater).
Proof.
  unfold finalInboundConns, makeResourceManagerConfig, makeResourceManagerConfig_resolved.
  pose proof (merged_inboundStreams TotalMemory GetNumFDs Scale maxMemory maxFD) as Hs.
  revert Hs.
  generalize (makeResourceManagerConfig_merged TotalMemory GetNumFDs Scale maxMemory maxFD).
  intros merged Hs.
  rewrite Build_override by (rewrite Hs; unfold Unlimited, DefaultLimit; lia).
  now rewrite setSystemConnsInbound_read.
Qed.

End Returned.

Lemma budgetMemory_idem (TotalMemory maxMemory : Z) :
  budgetMemory TotalMemory (budgetMemory TotalMemory maxMemory)
  = budgetMemory TotalMemory maxMemory.
Proof.
  destruct (Z.eq_dec maxMemory 0) as [-> | Hm].
  - unfold budgetMemory. cbn [Z.eqb].
    destruct (defaultMaxMemory TotalMemory =? 0); reflexivity.
  - rewrite (budgetMemory_nonzero _ maxMemory Hm). now apply budgetMemory_nonzero.
Qed.

Lemma budgetFD_idem (GetNumFDs maxFD : Z) :
  budgetFD GetNumFDs (budgetFD GetNumFDs maxFD) = budgetFD GetNumFDs maxFD.
Proof.
  unfold budgetFD.
  destruct (Z.eqb_spec maxFD 0) as [-> | Hm].
  - destruct (defaultMaxFD GetNumFDs =? 0); reflexivity.
  - destruct (Z.eqb_spec maxFD 0); [contradiction | reflexivity].
Qed.

Lemma budgetFD_nonzero (GetNumFDs maxFD : Z) :
  maxFD <> 0 -> budgetFD GetNumFDs maxFD = maxFD.
Proof.
  intros H. unfold budgetFD. destruct (Z.eqb_spec maxFD 0); [contradiction | reflexivity].
Qed.

Section Frozen.

Variable Scale : Z -> Z -> ConcreteLimitConfig.

(** The three scopes a builder constrains, after the merge and the final
    [Build]. *)
Lemma frozen_system (partialLimits : PartialLimitConfig) (maxMemory maxFD : Z)
    (d : ConcreteLimitConfig) :
  system (Build (autoscaleMerge Scale partialLimits maxMemory maxFD) d)
  = ResourceLimits_Build
      (ToResourceLimits
         (ResourceLimits_Build (System partialLimits)
            (system (Scale (Go.to_int maxMemory) maxFD))))
      (system d).
Proof. reflexivity. Qed.

Lemma frozen_transient (partialLimits : PartialLimitConfig) (maxMemory maxFD : Z)
    (d : ConcreteLimitConfig) :
  transient (Build (autoscaleMerge Scale partialLimits maxMemory maxFD) d)
  = ResourceLimits_Build
      (ToResourceLimits
         (ResourceLimits_Build (Transient partialLimits)
            (transient (Scale (Go.to_int maxMemory) maxFD))))
      (transient d).
Proof. reflexivity. Qed.

Lemma frozen_peerDefault (partialLimits : PartialLimitConfig) (maxMemory maxFD : Z)
    (d : ConcreteLimitConfig) :
  peerDefault (Build (autoscaleMerge Scale partialLimits maxMemory maxFD) d)
  = ResourceLimits_Build
      (ToResourceLimits
         (ResourceLimits_Build (PeerDefault partialLimits)
            (peerDefault (Scale (Go.to_int maxMemory) maxFD))))
      (peerDefault d).
Proof. reflexivity. Qed.

End Frozen.

(** The field of a frozen scope, in terms of the literal's field. *)
Ltac frozen_fields :=
  unfold ResourceLimits_Build, ToResourceLimits;
  cbn [Streams StreamsInbound StreamsOutbound Conns ConnsInbound ConnsOutbound FD Memory
       BaseLimit.Streams BaseLimit.StreamsInbound BaseLimit.StreamsOutbound BaseLimit.Conns
       BaseLimit.ConnsInbound BaseLimit.ConnsOutbound BaseLimit.FD BaseLimit.Memory].

Section Budget.

Variables (TotalMemory GetNumFDs : Z) (Scale : Z -> Z -> ConcreteLimitConfig).

Lemma general_system_Memory (maxMemory maxFD connMgrHighWater : Z) :
  BaseLimit.Memory
    (system (makeResourceManagerConfig TotalMemory GetNumFDs Scale maxMemory maxFD
               connMgrHighWater))
  = LimitVal_Build
      (valueOrBlockAll
         (LimitVal_Build (Go.to_int (budgetMemory TotalMemory maxMemory))
            (BaseLimit.Memory
               (system (Scale (Go.to_int (budgetMemory TotalMemory maxMemory))
                          (budgetFD GetNumFDs maxFD))))))
      0.
Proof. rewrite makeResourceManagerConfig_eq. reflexivity. Qed.

Lemma general_system_FD (maxMemory maxFD connMgrHighWater : Z) :
  BaseLimit.FD
    (system (makeResourceManagerConfig TotalMemory GetNumFDs Scale maxMemory maxFD
               connMgrHighWater))
  = LimitVal_Build
      (valueOrBlockAll
         (LimitVal_Build (budgetFD GetNumFDs maxFD)
            (BaseLimit.FD
               (system (Scale (Go.to_int (budgetMemory TotalMemory maxMemory))
                          (budgetFD GetNumFDs maxFD))))))
      0.
Proof. rewrite makeResourceManagerConfig_eq. reflexivity. Qed.

Lemma dht_system_Memory (maxMemory maxFD : Z) :
  BaseLimit.Memory (system (makeSeparateDHTClientResourceManagerConfig Scale maxMemory maxFD))
  = LimitVal_Build
      (valueOrBlockAll
         (LimitVal_Build (Go.to_int maxMemory)
            (BaseLimit.Memory (system (Scale (Go.to_int maxMemory) maxFD)))))
      0.
Proof. reflexivity. Qed.

Lemma dht_system_FD (maxMemory maxFD : Z) :
  BaseLimit.FD (system (makeSeparateDHTClientResourceManagerConfig Scale maxMemory maxFD))
  = LimitVal_Build
      (valueOrBlockAll
         (LimitVal_Build maxFD (BaseLimit.FD (system (Scale (Go.to_int maxMemory) maxFD)))))
      0.
Proof. reflexivity. Qed.

(** X1: a budget of 1 up to math.MaxInt bytes and 1 up to math.MaxInt file
    descriptors is returned unchanged as the System memory and
    file-descriptor limit, by the general-host builder and by the
    DHT-client builder, whatever the autoscaler and the connection manager
    say. *)
Theorem system_budget_returned (maxMemory maxFD connMgrHighWater : Z) :
  0 < maxMemory <= Go.MaxInt -> 0 < maxFD <= Go.MaxInt ->
  BaseLimit.Memory
    (system (makeResourceManagerConfig TotalMemory GetNumFDs Scale maxMemory maxFD
               connMgrHighWater)) = maxMemory
  /\ BaseLimit.FD
       (system (makeResourceManagerConfig TotalMemory GetNumFDs Scale maxMemory maxFD
                  connMgrHighWater)) = maxFD
  /\ BaseLimit.Memory
       (system (makeSeparateDHTClientResourceManagerConfig Scale maxMemory maxFD)) = maxMemory
  /\ BaseLimit.FD
       (system (makeSeparateDHTClientResourceManagerConfig Scale maxMemory maxFD)) = maxFD.
Proof.
  intros Hm Hf.
  assert (Em : Go.to_int maxMemory = maxMemory).
  { apply to_int_id. unfold Go.is_int, Go.MinInt, Go.MaxInt in *. lia. }
  rewrite general_system_Memory, general_system_FD, dht_system_Memory, dht_system_FD.
  rewrite budgetMemory_nonzero, budgetFD_nonzero by lia. rewrite Em.
  rewrite !freeze_concrete by assumption. repeat split.
Qed.

(** X2: a memory budget of 2^63 bytes or more does not fit the int64 limit
    and is not returned: 2^64 - 1 comes back as unlimited, 2^64 - 2 as a
    limit of 0, and any other such budget as the negative number
    maxMemory - 2^64. *)
Theorem system_memory_beyond_int64 (maxMemory maxFD connMgrHighWater : Z) :
  2 ^ 63 <= maxMemory <= Go.MaxUint64 ->
  BaseLimit.Memory
    (system (makeResourceManagerConfig TotalMemory GetNumFDs Scale maxMemory maxFD
               connMgrHighWater))
  = (if maxMemory =? 2 ^ 64 - 1 then Go.MaxInt
     else if maxMemory =? 2 ^ 64 - 2 then 0
     else maxMemory - 2 ^ 64)
  /\ BaseLimit.Memory
       (system (makeResourceManagerConfig TotalMemory GetNumFDs Scale maxMemory maxFD
                  connMgrHighWater)) <> maxMemory.
Proof.
  intros Hm. unfold Go.MaxUint64 in Hm.
  assert (Em : Go.to_int maxMemory = maxMemory - 2 ^ 64).
  { unfold Go.to_int.
    replace (maxMemory + 2 ^ 63) with (maxMemory - 2 ^ 63 + 1 * 2 ^ 64) by lia.
    rewrite Z.mod_add by lia. rewrite Z.mod_small by lia. lia. }
  rewrite general_system_Memory, budgetMemory_nonzero, Em by lia.
  rewrite freeze_explicit by (unfold DefaultLimit; lia).
  unfold LimitVal_Build, DefaultLimit, Unlimited, BlockAllLimit, Go.MaxInt.
  destruct (Z.eqb_spec (maxMemory - 2 ^ 64) 0); [lia |].
  destruct (Z.eqb_spec (maxMemory - 2 ^ 64) (-1));
    destruct (Z.eqb_spec maxMemory (2 ^ 64 - 1)); try lia.
  destruct (Z.eqb_spec (maxMemory - 2 ^ 64) (-2));
    destruct (Z.eqb_spec maxMemory (2 ^ 64 - 2)); lia.
Qed.

(** X3: with a memory budget of 0 the general-host builder plans for 85% of
    the machine's memory, and returns that as the System memory limit; the
    DHT-client builder has no such substitution and returns the autoscaled
    System memory limit instead. *)
Theorem zero_memory_budget (maxFD connMgrHighWater : Z) :
  0 < defaultMaxMemory TotalMemory <= Go.MaxInt ->
  0 <= BaseLimit.Memory (system (Scale (Go.to_int 0) maxFD)) ->
  BaseLimit.Memory
    (system (makeResourceManagerConfig TotalMemory GetNumFDs Scale 0 maxFD connMgrHighWater))
  = defaultMaxMemory TotalMemory
  /\ BaseLimit.Memory (system (makeSeparateDHTClientResourceManagerConfig Scale 0 maxFD))
     = BaseLimit.Memory (system (Scale (Go.to_int 0) maxFD)).
Proof.
  intros Hd Hs. split.
  - rewrite general_system_Memory.
    change (budgetMemory TotalMemory 0) with (defaultMaxMemory TotalMemory).
    rewrite to_int_id by (unfold Go.is_int, Go.MinInt, Go.MaxInt in *; lia).
    now apply freeze_concrete.
  - rewrite dht_system_Memory.
    change (Go.to_int 0) with DefaultLimit at 1.
    now apply freeze_inherited.
Qed.

End Budget.

Section Scopes.

Variables (TotalMemory GetNumFDs : Z) (Scale : Z -> Z -> ConcreteLimitConfig).

Lemma general_transient (maxMemory maxFD connMgrHighWater : Z) :
  transient (makeResourceManagerConfig TotalMemory GetNumFDs Scale maxMemory maxFD
               connMgrHighWater)
  = ResourceLimits_Build
      (ToResourceLimits
         (ResourceLimits_Build
            (Transient (makeResourceManagerConfig_partialLimits
                          (budgetMemory TotalMemory maxMemory) (budgetFD GetNumFDs maxFD)))
            (transient (Scale (Go.to_int (budgetMemory TotalMemory maxMemory))
                          (budgetFD GetNumFDs maxFD)))))
      zeroBaseLimit.
Proof. rewrite makeResourceManagerConfig_eq. reflexivity. Qed.

Lemma general_peerDefault (maxMemory maxFD connMgrHighWater : Z) :
  peerDefault (makeResourceManagerConfig TotalMemory GetNumFDs Scale maxMemory maxFD
                 connMgrHighWater)
  = ResourceLimits_Build
      (ToResourceLimits
         (ResourceLimits_Build
            (PeerDefault (makeResourceManagerConfig_partialLimits
                            (budgetMemory TotalMemory maxMemory) (budgetFD GetNumFDs maxFD)))
            (peerDefault (Scale (Go.to_int (budgetMemory TotalMemory maxMemory))
                            (budgetFD GetNumFDs maxFD)))))
      zeroBaseLimit.
Proof. rewrite makeResourceManagerConfig_eq. reflexivity. Qed.

(** X4: in the configuration the general-host builder returns, the
    Transient scope holds a quarter of the memory budget from 4 bytes on, a
    quarter of the file descriptors from 4 on, and a quarter of the
    per-megabyte connection count from 4 MiB on; its other five limits are
    unlimited.  None of this depends on the connection manager's
    high-water mark, which raises the System limit only. *)
Theorem transient_returned (maxMemory maxFD connMgrHighWater : Z) :
  (4 <= maxMemory <= Go.MaxUint64 ->
   BaseLimit.Memory
     (transient (makeResourceManagerConfig TotalMemory GetNumFDs Scale maxMemory maxFD
                   connMgrHighWater)) = maxMemory / 4)
  /\ (4 <= maxFD <= Go.MaxInt ->
      BaseLimit.FD
        (transient (makeResourceManagerConfig TotalMemory GetNumFDs Scale maxMemory maxFD
                      connMgrHighWater)) = maxFD / 4)
  /\ (2 ^ 22 <= maxMemory <= Go.MaxUint64 ->
      BaseLimit.ConnsInbound
        (transient (makeResourceManagerConfig TotalMemory GetNumFDs Scale maxMemory maxFD
                      connMgrHighWater)) = maxMemory / 2 ^ 22)
  /\ BaseLimit.Conns
       (transient (makeResourceManagerConfig TotalMemory GetNumFDs Scale maxMemory maxFD
                     connMgrHighWater)) = Go.MaxInt
  /\ BaseLimit.ConnsOutbound
       (transient (makeResourceManagerConfig TotalMemory GetNumFDs Scale maxMemory maxFD
                     connMgrHighWater)) = Go.MaxInt
  /\ BaseLimit.Streams
       (transient (makeResourceManagerConfig TotalMemory GetNumFDs Scale maxMemory maxFD
                     connMgrHighWater)) = Go.MaxInt
  /\ BaseLimit.StreamsInbound
       (transient (makeResourceManagerConfig TotalMemory GetNumFDs Scale maxMemory maxFD
                     connMgrHighWater)) = Go.MaxInt
  /\ BaseLimit.StreamsOutbound
       (transient (makeResourceManagerConfig TotalMemory GetNumFDs Scale maxMemory maxFD
                     connMgrHighWater)) = Go.MaxInt.
Proof.
  rewrite general_transient. frozen_fields.
  cbn [makeResourceManagerConfig_partialLimits Transient Memory FD ConnsInbound Conns
       ConnsOutbound Streams StreamsInbound StreamsOutbound].
  repeat match goal with |- _ /\ _ => split end; try reflexivity.
  - intros Hm. unfold Go.MaxUint64 in Hm.
    rewrite budgetMemory_nonzero by lia.
    assert (Hq : 1 <= maxMemory / 4 < 2 ^ 62).
    { split; [apply Z.div_le_lower_bound; lia | apply Z.div_lt_upper_bound; lia]. }
    unfold Go.uint64_div.
    rewrite to_int_id by (unfold Go.is_int, Go.MinInt, Go.MaxInt; lia).
    apply freeze_concrete. unfold Go.MaxInt. lia.
  - intros Hf. unfold Go.MaxInt in Hf.
    rewrite budgetFD_nonzero by lia.
    rewrite int_div_pos by (unfold Go.is_int, Go.MinInt, Go.MaxInt; lia).
    rewrite Z.quot_div_nonneg by lia.
    assert (Hq : 1 <= maxFD / 4 < 2 ^ 62).
    { split; [apply Z.div_le_lower_bound; lia | apply Z.div_lt_upper_bound; lia]. }
    apply freeze_concrete. unfold Go.MaxInt. lia.
  - intros Hm. unfold Go.MaxUint64 in Hm.
    rewrite budgetMemory_nonzero by lia.
    rewrite systemConnsInbound_eq by (unfold Go.is_uint64, Go.MaxUint64; lia).
    assert (Hc : 4 <= maxMemory / 2 ^ 20 < 2 ^ 44).
    { split; [apply Z.div_le_lower_bound; lia | apply Z.div_lt_upper_bound; lia]. }
    rewrite int_div_pos by (unfold Go.is_int, Go.MinInt, Go.MaxInt; lia).
    rewrite Z.quot_div_nonneg by lia.
    rewrite Z.div_div by lia. change (2 ^ 20 * 4) with (2 ^ 22).
    assert (Hq : 1 <= maxMemory / 2 ^ 22 < 2 ^ 42).
    { split; [apply Z.div_le_lower_bound; lia | apply Z.div_lt_upper_bound; lia]. }
    apply freeze_concrete. unfold Go.MaxInt. lia.
Qed.

(** X5: below those thresholds the quarter is 0, which is the default
    marker, so the returned Transient limit is the autoscaler's: for a
    memory budget of 1 to 3 bytes its Transient memory limit, for 1 to 3
    file descriptors its Transient file-descriptor limit, and for a memory
    budget under 4 MiB its Transient inbound-connections limit. *)
Theorem transient_inherited_when_small (maxMemory maxFD connMgrHighWater : Z) :
  nonNegative (transient (Scale (Go.to_int (budgetMemory TotalMemory maxMemory))
                            (budgetFD GetNumFDs maxFD))) ->
  (0 < maxMemory < 4 ->
   BaseLimit.Memory
     (transient (makeResourceManagerConfig TotalMemory GetNumFDs Scale maxMemory maxFD
                   connMgrHighWater))
   = BaseLimit.Memory
       (transient (Scale (Go.to_int (budgetMemory TotalMemory maxMemory))
                     (budgetFD GetNumFDs maxFD))))
  /\ (0 < maxFD < 4 ->
      BaseLimit.FD
        (transient (makeResourceManagerConfig TotalMemory GetNumFDs Scale maxMemory maxFD
                      connMgrHighWater))
      = BaseLimit.FD
          (transient (Scale (Go.to_int (budgetMemory TotalMemory maxMemory))
                        (budgetFD GetNumFDs maxFD))))
  /\ (0 < maxMemory < 2 ^ 22 ->
      BaseLimit.ConnsInbound
        (transient (makeResourceManagerConfig TotalMemory GetNumFDs Scale maxMemory maxFD
                      connMgrHighWater))
      = BaseLimit.ConnsInbound
          (transient (Scale (Go.to_int (budgetMemory TotalMemory maxMemory))
                        (budgetFD GetNumFDs maxFD)))).
Proof.
  intros (_ & _ & _ & _ & Hc & _ & Hf & Hm).
  rewrite general_transient. frozen_fields.
  cbn [makeResourceManagerConfig_partialLimits Transient Memory FD ConnsInbound].
  repeat match goal with |- _ /\ _ => split end.
  - intros H. rewrite (budgetMemory_nonzero _ maxMemory) in * by lia.
    replace (Go.to_int (Go.uint64_div maxMemory 4)) with DefaultLimit.
    + now apply freeze_inherited.
    + unfold Go.uint64_div. rewrite Z.div_small by lia. reflexivity.
  - intros H. rewrite (budgetFD_nonzero _ maxFD) in * by lia.
    replace (Go.int_div maxFD 4) with DefaultLimit.
    + now apply freeze_inherited.
    + unfold Go.int_div. rewrite Z.quot_small by lia. reflexivity.
  - intros H. rewrite (budgetMemory_nonzero _ maxMemory) in * by lia.
    replace (Go.int_div (systemConnsInbound maxMemory) 4) with DefaultLimit.
    + now apply freeze_inherited.
    + rewrite systemConnsInbound_eq by (unfold Go.is_uint64, Go.MaxUint64; lia).
      assert (0 <= maxMemory / 2 ^ 20 < 4).
      { split; [apply Z.div_pos; lia | apply Z.div_lt_upper_bound; lia]. }
      unfold Go.int_div. rewrite Z.quot_small by lia. reflexivity.
Qed.

(** X6: the scopes the builders do not constrain come back fully unlimited:
    the two allow-listed scopes, the service, service-peer, protocol and
    protocol-peer defaults, and the connection and the stream scope, for
    either builder and whatever limits the autoscaler proposes for them. *)
Theorem unconstrained_scopes_unlimited (maxMemory maxFD connMgrHighWater : Z) :
  (allowlistedSystem (makeResourceManagerConfig TotalMemory GetNumFDs Scale maxMemory maxFD
                        connMgrHighWater) = infiniteBaseLimit
   /\ allowlistedTransient (makeResourceManagerConfig TotalMemory GetNumFDs Scale maxMemory
                              maxFD connMgrHighWater) = infiniteBaseLimit
   /\ serviceDefault (makeResourceManagerConfig TotalMemory GetNumFDs Scale maxMemory maxFD
                        connMgrHighWater) = infiniteBaseLimit
   /\ servicePeerDefault (makeResourceManagerConfig TotalMemory GetNumFDs Scale maxMemory
                            maxFD connMgrHighWater) = infiniteBaseLimit
   /\ protocolDefault (makeResourceManagerConfig TotalMemory GetNumFDs Scale maxMemory maxFD
                         connMgrHighWater) = infiniteBaseLimit
   /\ protocolPeerDefault (makeResourceManagerConfig TotalMemory GetNumFDs Scale maxMemory
                             maxFD connMgrHighWater) = infiniteBaseLimit
   /\ conn (makeResourceManagerConfig TotalMemory GetNumFDs Scale maxMemory maxFD
              connMgrHighWater) = infiniteBaseLimit
   /\ stream (makeResourceManagerConfig TotalMemory GetNumFDs Scale maxMemory maxFD
                connMgrHighWater) = infiniteBaseLimit)
  /\ (allowlistedSystem (makeSeparateDHTClientResourceManagerConfig Scale maxMemory maxFD)
      = infiniteBaseLimit
      /\ allowlistedTransient (makeSeparateDHTClientResourceManagerConfig Scale maxMemory maxFD)
         = infiniteBaseLimit
      /\ serviceDefault (makeSeparateDHTClientResourceManagerConfig Scale maxMemory maxFD)
         = infiniteBaseLimit
      /\ servicePeerDefault (makeSeparateDHTClientResourceManagerConfig Scale maxMemory maxFD)
         = infiniteBaseLimit
      /\ protocolDefault (makeSeparateDHTClientResourceManagerConfig Scale maxMemory maxFD)
         = infiniteBaseLimit
      /\ protocolPeerDefault (makeSeparateDHTClientResourceManagerConfig Scale maxMemory maxFD)
         = infiniteBaseLimit
      /\ conn (makeSeparateDHTClientResourceManagerConfig Scale maxMemory maxFD)
         = infiniteBaseLimit
      /\ stream (makeSeparateDHTClientResourceManagerConfig Scale maxMemory maxFD)
         = infiniteBaseLimit).
Proof.
  rewrite makeResourceManagerConfig_eq.
  repeat match goal with |- _ /\ _ => split end; apply infinite_scope_returned.
Qed.

(** X7: the per-peer default scope comes back with the autoscaler's inbound
    connection limit and, from the general-host builder, the autoscaler's
    inbound stream limit (10 from the DHT-client builder); every other
    per-peer limit is unlimited. *)
Theorem peer_default_returned (maxMemory maxFD connMgrHighWater : Z) :
  nonNegative (peerDefault (Scale (Go.to_int (budgetMemory TotalMemory maxMemory))
                              (budgetFD GetNumFDs maxFD))) ->
  nonNegative (peerDefault (Scale (Go.to_int maxMemory) maxFD)) ->
  peerDefault (makeResourceManagerConfig TotalMemory GetNumFDs Scale maxMemory maxFD
                 connMgrHighWater)
  = {| BaseLimit.Streams := Go.MaxInt;
       BaseLimit.StreamsInbound :=
         BaseLimit.StreamsInbound
           (peerDefault (Scale (Go.to_int (budgetMemory TotalMemory maxMemory))
                           (budgetFD GetNumFDs maxFD)));
       BaseLimit.StreamsOutbound := Go.MaxInt;
       BaseLimit.Conns := Go.MaxInt;
       BaseLimit.ConnsInbound :=
         BaseLimit.ConnsInbound
           (peerDefault (Scale (Go.to_int (budgetMemory TotalMemory maxMemory))
                           (budgetFD GetNumFDs maxFD)));
       BaseLimit.ConnsOutbound := Go.MaxInt;
       BaseLimit.FD := Go.MaxInt;
       BaseLimit.Memory := Go.MaxInt |}
  /\ peerDefault (makeSeparateDHTClientResourceManagerConfig Scale maxMemory maxFD)
     = {| BaseLimit.Streams := Go.MaxInt;
          BaseLimit.StreamsInbound := 10;
          BaseLimit.StreamsOutbound := Go.MaxInt;
          BaseLimit.Conns := Go.MaxInt;
          BaseLimit.ConnsInbound :=
            BaseLimit.ConnsInbound (peerDefault (Scale (Go.to_int maxMemory) maxFD));
          BaseLimit.ConnsOutbound := Go.MaxInt;
          BaseLimit.FD := Go.MaxInt;
          BaseLimit.Memory := Go.MaxInt |}.
Proof.
  intros (_ & Hs & _ & _ & Hc & _) (_ & _ & _ & _ & Hc' & _).
  split.
  - rewrite general_peerDefault. frozen_fields.
    cbn [makeResourceManagerConfig_partialLimits PeerDefault Memory FD ConnsInbound Conns
         ConnsOutbound Streams StreamsInbound StreamsOutbound].
    rewrite (freeze_inherited _ _ Hs), (freeze_inherited _ _ Hc). reflexivity.
  - unfold makeSeparateDHTClientResourceManagerConfig,
      makeSeparateDHTClientResourceManagerConfig_resolved.
    rewrite frozen_peerDefault. frozen_fields.
    cbn [makeSeparateDHTClientResourceManagerConfig_partialLimits PeerDefault Memory FD
         ConnsInbound Conns ConnsOutbound Streams StreamsInbound StreamsOutbound].
    rewrite (freeze_inherited _ _ Hc'). reflexivity.
Qed.

End Scopes.

Section HighWater.

Variables (TotalMemory GetNumFDs : Z) (Scale : Z -> Z -> ConcreteLimitConfig).

(** The System inbound-connections limit returned, in terms of the merged
    one. *)
Lemma finalInboundConns_eq (maxMemory maxFD connMgrHighWater : Z) :
  finalInboundConns TotalMemory GetNumFDs Scale maxMemory maxFD connMgrHighWater
  = if DefaultLimit <? preOverrideInboundConns TotalMemory GetNumFDs Scale maxMemory maxFD
    then Z.max (Z.max (preOverrideInboundConns TotalMemory GetNumFDs Scale maxMemory maxFD)
                  (Go.int_mul connMgrHighWater 2)) 800
    else LimitVal_Build
           (preOverrideInboundConns TotalMemory GetNumFDs Scale maxMemory maxFD) 0.
Proof.
  unfold finalInboundConns, preOverrideInboundConns, makeResourceManagerConfig,
    makeResourceManagerConfig_resolved.
  generalize (makeResourceManagerConfig_merged TotalMemory GetNumFDs Scale maxMemory maxFD).
  intros merged.
  destruct (Z.ltb_spec DefaultLimit (inboundConns merged)) as [Hc | Hc].
  - now apply Build_override_ConnsInbound.
  - rewrite override_skipped by exact Hc. reflexivity.
Qed.

(** X8: the connection manager's high-water mark reaches the returned
    configuration through the System inbound-connections limit alone: two
    runs of the general-host builder that differ only in the high-water
    mark return configurations that differ at most in that one limit. *)
Theorem high_water_mark_changes_one_limit
    (maxMemory maxFD connMgrHighWater connMgrHighWater' : Z) :
  makeResourceManagerConfig TotalMemory GetNumFDs Scale maxMemory maxFD connMgrHighWater
  = setSystemConnsInbound
      (makeResourceManagerConfig TotalMemory GetNumFDs Scale maxMemory maxFD connMgrHighWater')
      (finalInboundConns TotalMemory GetNumFDs Scale maxMemory maxFD connMgrHighWater).
Proof.
  rewrite (makeResourceManagerConfig_eq _ _ _ _ _ connMgrHighWater').
  rewrite setSystemConnsInbound_twice. apply makeResourceManagerConfig_eq.
Qed.

(** X9: from one megabyte of memory on, the System inbound-connections
    limit returned is the largest of three numbers: one connection per
    megabyte, twice the high-water mark (as Go computes the product), and
    800. *)
Theorem inbound_conns_closed_form (maxMemory maxFD connMgrHighWater : Z) :
  2 ^ 20 <= maxMemory <= Go.MaxUint64 ->
  finalInboundConns TotalMemory GetNumFDs Scale maxMemory maxFD connMgrHighWater
  = Z.max (Z.max (maxMemory / 2 ^ 20) (Go.int_mul connMgrHighWater 2)) 800.
Proof.
  intros Hm. unfold Go.MaxUint64 in Hm.
  assert (Hpre : preOverrideInboundConns TotalMemory GetNumFDs Scale maxMemory maxFD
                 = maxMemory / 2 ^ 20).
  { rewrite merged_inboundConns, budgetMemory_nonzero by lia.
    rewrite systemConnsInbound_eq by (unfold Go.is_uint64, Go.MaxUint64; lia).
    apply merge_keeps_concrete. unfold Go.MaxInt.
    split; [apply Z.div_str_pos; lia | apply Z.div_lt_upper_bound; lia]. }
  rewrite finalInboundConns_eq, Hpre.
  assert (0 < maxMemory / 2 ^ 20) by (apply Z.div_str_pos; lia).
  destruct (Z.ltb_spec DefaultLimit (maxMemory / 2 ^ 20)) as [_ | Hc];
    [reflexivity | unfold DefaultLimit in Hc; lia].
Qed.

(** X10: under one megabyte of memory the System inbound-connections limit
    returned is decided by the autoscaler's limit [a]: the largest of [a],
    twice the high-water mark and 800 when [a] is a positive number, 0 when
    [a] is 0 (the check does not apply, and nothing may connect), and
    unlimited when [a] is unlimited. *)
Theorem inbound_conns_under_one_megabyte (maxMemory maxFD connMgrHighWater : Z) :
  0 < maxMemory < 2 ^ 20 ->
  (0 < BaseLimit.ConnsInbound
         (system (Scale (Go.to_int maxMemory) (budgetFD GetNumFDs maxFD))) < Go.MaxInt ->
   finalInboundConns TotalMemory GetNumFDs Scale maxMemory maxFD connMgrHighWater
   = Z.max (Z.max (BaseLimit.ConnsInbound
                     (system (Scale (Go.to_int maxMemory) (budgetFD GetNumFDs maxFD))))
              (Go.int_mul connMgrHighWater 2)) 800)
  /\ (BaseLimit.ConnsInbound
        (system (Scale (Go.to_int maxMemory) (budgetFD GetNumFDs maxFD))) = 0 ->
      finalInboundConns TotalMemory GetNumFDs Scale maxMemory maxFD connMgrHighWater = 0)
  /\ (BaseLimit.ConnsInbound
        (system (Scale (Go.to_int maxMemory) (budgetFD GetNumFDs maxFD))) = Go.MaxInt ->
      finalInboundConns TotalMemory GetNumFDs Scale maxMemory maxFD connMgrHighWater
      = Go.MaxInt).
Proof.
  intros Hm.
  assert (Hpre : preOverrideInboundConns TotalMemory GetNumFDs Scale maxMemory maxFD
                 = valueOrBlockAll
                     (BaseLimit.ConnsInbound
                        (system (Scale (Go.to_int maxMemory) (budgetFD GetNumFDs maxFD))))).
  { rewrite merged_inboundConns, budgetMemory_nonzero by lia.
    rewrite systemConnsInbound_eq by (unfold Go.is_uint64, Go.MaxUint64; lia).
    rewrite Z.div_small by lia. reflexivity. }
  rewrite finalInboundConns_eq, Hpre.
  generalize (BaseLimit.ConnsInbound
                (system (Scale (Go.to_int maxMemory) (budgetFD GetNumFDs maxFD)))).
  intros a. repeat match goal with |- _ /\ _ => split end.
  - intros Ha. rewrite valueOrBlockAll_concrete by exact Ha.
    destruct (Z.ltb_spec DefaultLimit a) as [_ | Hc];
      [reflexivity | unfold DefaultLimit in Hc; lia].
  - intros ->. reflexivity.
  - intros ->. reflexivity.
Qed.

(** X11: within the range where doubling does not overflow, a higher
    high-water mark never yields a lower System inbound-connections
    limit. *)
Theorem inbound_conns_monotone (maxMemory maxFD connMgrHighWater connMgrHighWater' : Z) :
  - 2 ^ 62 <= connMgrHighWater -> connMgrHighWater <= connMgrHighWater' ->
  connMgrHighWater' < 2 ^ 62 ->
  finalInboundConns TotalMemory GetNumFDs Scale maxMemory maxFD connMgrHighWater
  <= finalInboundConns TotalMemory GetNumFDs Scale maxMemory maxFD connMgrHighWater'.
Proof.
  intros H1 H2 H3. rewrite !finalInboundConns_eq, !int_mul_two by lia.
  destruct (DefaultLimit <? preOverrideInboundConns TotalMemory GetNumFDs Scale maxMemory maxFD);
    lia.
Qed.

End HighWater.

(** X12: the check against the connection manager never lowers the System
    inbound-connections limit, and when the inbound-streams limit is not
    concrete (as on the general-host path) applying it a second time with
    the same high-water mark changes nothing. *)
Theorem override_never_lowers_and_idempotent
    (partialLimits : PartialLimitConfig) (connMgrHighWater : Z) :
  inboundConns partialLimits
    <= inboundConns (overrideInboundConns partialLimits connMgrHighWater)
  /\ (inboundStreams partialLimits <= DefaultLimit ->
      overrideInboundConns (overrideInboundConns partialLimits connMgrHighWater)
        connMgrHighWater
      = overrideInboundConns partialLimits connMgrHighWater).
Proof.
  destruct (Z.le_gt_cases (inboundConns partialLimits) DefaultLimit) as [Hc | Hc].
  - rewrite !override_skipped by exact Hc. split; [lia | reflexivity].
  - split; [rewrite override_inboundConns by exact Hc; lia |].
    intros Hs. unfold inboundConns, inboundStreams in *.
    unfold overrideInboundConns.
    destruct (Z.ltb_spec DefaultLimit (ConnsInbound (System partialLimits))); [| lia].
    destruct (Z.ltb_spec DefaultLimit (StreamsInbound (System partialLimits))); [lia |].
    cbn [System ConnsInbound StreamsInbound Streams StreamsOutbound Conns ConnsOutbound FD
         Memory Transient AllowlistedSystem AllowlistedTransient ServiceDefault Service
         ServicePeerDefault ServicePeer ProtocolDefault Protocol ProtocolPeerDefault
         ProtocolPeer PeerDefault Peer Conn Stream].
    set (hw2 := Go.int_mul connMgrHighWater 2).
    set (c := ConnsInbound (System partialLimits)) in *.
    set (c1 := if c <? hw2 then hw2 else c).
    set (c2 := if c1 <? 800 then 800 else c1).
    assert (Hc2 : 800 <= c2 /\ hw2 <= c2).
    { unfold c2, c1. destruct (Z.ltb_spec c hw2);
        match goal with |- context [?a <? 800] => destruct (Z.ltb_spec a 800) end; lia. }
    destruct (Z.ltb_spec DefaultLimit c2); [| unfold DefaultLimit in *; lia].
    destruct (Z.ltb_spec DefaultLimit (StreamsInbound (System partialLimits))); [lia |].
    destruct (Z.ltb_spec c2 hw2); [lia |].
    destruct (Z.ltb_spec c2 800); [lia |].
    reflexivity.
Qed.

(** X13: when the product of connections and streams fits in an int64, the
    rescaling never lowers the System inbound-streams limit. *)
Theorem rescale_never_lowers_streams
    (partialLimits : PartialLimitConfig) (connMgrHighWater : Z) :
  DefaultLimit < inboundConns partialLimits ->
  DefaultLimit < inboundStreams partialLimits ->
  inboundConns (overrideInboundConns partialLimits connMgrHighWater)
    * inboundStreams partialLimits <= Go.MaxInt ->
  inboundStreams partialLimits
    <= inboundStreams (overrideInboundConns partialLimits connMgrHighWater).
Proof.
  intros Hc Hs Hfit.
  rewrite (override_inboundStreams _ _ Hc).
  destruct (Z.ltb_spec DefaultLimit (inboundStreams partialLimits)) as [_ | ?]; [| lia].
  pose proof (override_inboundConns partialLimits connMgrHighWater Hc) as Hclamp.
  set (clamped := inboundConns (overrideInboundConns partialLimits connMgrHighWater)) in *.
  set (oldConns := inboundConns partialLimits) in *.
  set (oldStreams := inboundStreams partialLimits) in *.
  unfold DefaultLimit in *.
  assert (Hge : oldConns <= clamped) by lia.
  assert (Hprod : 0 <= clamped * oldStreams) by nia.
  assert (Hmul : Go.int_mul clamped oldStreams = clamped * oldStreams).
  { apply to_int_id. unfold Go.is_int, Go.MinInt, Go.MaxInt in *. lia. }
  rewrite Hmul, int_div_pos by (unfold Go.is_int, Go.MinInt, Go.MaxInt in *; lia).
  rewrite Z.quot_div_nonneg by lia.
  apply Z.div_le_lower_bound; [lia |]. nia.
Qed.

(** ** Named services, protocols and peers *)

(** A map of resolved limits, pushed through the merge with a literal that
    names nothing, written back in the partial form and frozen again. *)
Lemma named_limits_roundtrip (m : gmap string BaseLimit.t) (fb fb' : BaseLimit.t) :
  map_Forall (fun _ => nonNegative) m ->
  buildMapWithDefault (ToResourceLimits <$> buildMapWithDefault ∅ m fb) ∅ fb' = m.
Proof.
  intros Hm. apply map_eq. intros k. unfold buildMapWithDefault.
  rewrite lookup_merge, lookup_fmap, lookup_merge, !lookup_empty.
  destruct (m !! k) as [l |] eqn:E; cbn; [| reflexivity].
  f_equal. apply ToResourceLimits_roundtrip. exact (Hm k l E).
Qed.

Section Named.

Variables (TotalMemory GetNumFDs : Z) (Scale : Z -> Z -> ConcreteLimitConfig).

(** X14: the builders name no service, protocol or peer, so the limits the
    autoscaler carries for named services (libp2p's default service limits
    among them), service peers, protocols, protocol peers and peers are
    added to the returned configuration as they are. *)
Theorem named_limits_added (maxMemory maxFD connMgrHighWater : Z) :
  map_Forall (fun _ => nonNegative)
    (service (Scale (Go.to_int (budgetMemory TotalMemory maxMemory))
                (budgetFD GetNumFDs maxFD))) ->
  map_Forall (fun _ => nonNegative)
    (servicePeer (Scale (Go.to_int (budgetMemory TotalMemory maxMemory))
                    (budgetFD GetNumFDs maxFD))) ->
  map_Forall (fun _ => nonNegative)
    (protocol (Scale (Go.to_int (budgetMemory TotalMemory maxMemory))
                 (budgetFD GetNumFDs maxFD))) ->
  map_Forall (fun _ => nonNegative)
    (protocolPeer (Scale (Go.to_int (budgetMemory TotalMemory maxMemory))
                     (budgetFD GetNumFDs maxFD))) ->
  map_Forall (fun _ => nonNegative)
    (peer (Scale (Go.to_int (budgetMemory TotalMemory maxMemory))
             (budgetFD GetNumFDs maxFD))) ->
  service (makeResourceManagerConfig TotalMemory GetNumFDs Scale maxMemory maxFD
             connMgrHighWater)
  = service (Scale (Go.to_int (budgetMemory TotalMemory maxMemory)) (budgetFD GetNumFDs maxFD))
  /\ servicePeer (makeResourceManagerConfig TotalMemory GetNumFDs Scale maxMemory maxFD
                    connMgrHighWater)
     = servicePeer (Scale (Go.to_int (budgetMemory TotalMemory maxMemory))
                      (budgetFD GetNumFDs maxFD))
  /\ protocol (makeResourceManagerConfig TotalMemory GetNumFDs Scale maxMemory maxFD
                 connMgrHighWater)
     = protocol (Scale (Go.to_int (budgetMemory TotalMemory maxMemory))
                   (budgetFD GetNumFDs maxFD))
  /\ protocolPeer (makeResourceManagerConfig TotalMemory GetNumFDs Scale maxMemory maxFD
                     connMgrHighWater)
     = protocolPeer (Scale (Go.to_int (budgetMemory TotalMemory maxMemory))
                       (budgetFD GetNumFDs maxFD))
  /\ peer (makeResourceManagerConfig TotalMemory GetNumFDs Scale maxMemory maxFD
             connMgrHighWater)
     = peer (Scale (Go.to_int (budgetMemory TotalMemory maxMemory)) (budgetFD GetNumFDs maxFD)).
Proof.
  intros H1 H2 H3 H4 H5. rewrite makeResourceManagerConfig_eq.
  repeat match goal with |- _ /\ _ => split end.
  - exact (named_limits_roundtrip _ _ _ H1).
  - exact (named_limits_roundtrip _ _ _ H2).
  - exact (named_limits_roundtrip _ _ _ H3).
  - exact (named_limits_roundtrip _ _ _ H4).
  - exact (named_limits_roundtrip _ _ _ H5).
Qed.

End Named.

(** ** The planner's result *)

Section Result.

Variables (TotalMemory GetNumFDs : Z) (Scale : Z -> Z -> ConcreteLimitConfig).
Variables (ResourceManager error : Type).
Variable NewResourceManager : ConcreteLimitConfig -> ResourceManager + error.

(** X15: the planner returns either an error and no host, or no error and
    the hosts asked for: it never returns an error together with a host,
    never a DHT host for a single-host plan, and for a dual-host plan never
    one host without the other. *)
Theorem result_shape (maxMemory maxFD connMgrHighWater : Z) (separateDHT : bool) :
  exists (bitswapHost dhtHost : option ResourceManager) (err : option error),
    makeResourceMgrs TotalMemory GetNumFDs Scale ResourceManager error NewResourceManager
      maxMemory maxFD connMgrHighWater separateDHT = (bitswapHost, dhtHost, err)
    /\ (err = None <-> bitswapHost <> None)
    /\ (separateDHT = false -> dhtHost = None)
    /\ (separateDHT = true -> (dhtHost = None <-> bitswapHost = None)).
Proof.
  unfold makeResourceMgrs.
  destruct separateDHT; cbn [negb];
    repeat match goal with
           | |- context [NewResourceManager ?c] => destruct (NewResourceManager c)
           end;
    do 3 eexists; (split; [reflexivity |]);
    repeat split; intros; try discriminate; try congruence.
Qed.

(** X16: the zero substitution at the head of the planner and the one at
    the head of the general-host builder do not add up: the single-host
    plan is the resource manager of
    [makeResourceManagerConfig(maxMemory, maxFD, connMgrHighWater)] for the
    caller's own arguments. *)
Theorem single_host_plan (maxMemory maxFD connMgrHighWater : Z) :
  makeResourceManagerConfig TotalMemory GetNumFDs Scale
    (budgetMemory TotalMemory maxMemory) (budgetFD GetNumFDs maxFD) connMgrHighWater
  = makeResourceManagerConfig TotalMemory GetNumFDs Scale maxMemory maxFD connMgrHighWater
  /\ makeResourceMgrs TotalMemory GetNumFDs Scale ResourceManager error NewResourceManager
       maxMemory maxFD connMgrHighWater false
     = match NewResourceManager
               (makeResourceManagerConfig TotalMemory GetNumFDs Scale maxMemory maxFD
                  connMgrHighWater) with
       | inr err => (None, None, Some err)
       | inl mgr => (Some mgr, None, None)
       end.
Proof.
  assert (E : makeResourceManagerConfig TotalMemory GetNumFDs Scale
                (budgetMemory TotalMemory maxMemory) (budgetFD GetNumFDs maxFD)
                connMgrHighWater
              = makeResourceManagerConfig TotalMemory GetNumFDs Scale maxMemory maxFD
                  connMgrHighWater).
  { unfold makeResourceManagerConfig, makeResourceManagerConfig_resolved,
      makeResourceManagerConfig_merged.
    now rewrite budgetMemory_idem, budgetFD_idem. }
  split; [exact E |].
  unfold makeResourceMgrs. cbn [negb]. now rewrite E.
Qed.

End Result.

(** ** Default budgets and shares *)

(** The shares of a dual-host plan, without the conversions. *)
Lemma splitBudget_shares (maxMemory maxFD : Z) :
  Go.is_uint64 maxMemory -> Go.is_int maxFD ->
  exists a b : Z,
    splitBudget maxMemory maxFD
    = {| bitswapHostMem := a; bitswapHostFDs := b;
         dhtHostMem := maxMemory - a; dhtHostFDs := maxFD - b |}
    /\ 0 <= a <= maxMemory /\ percentShare 85 maxMemory a
    /\ percentShare 75 maxFD b.
Proof.
  intros Hm Hf.
  destruct (bitswapHostMem_share maxMemory Hm) as (a & Ea & Ha & Hpa).
  destruct (bitswapHostFDs_share maxFD Hf) as (b & Eb & Hb & Hb' & Hpb).
  exists a, b. split; [| auto].
  unfold splitBudget, Float64.to_uint64, Float64.to_int, Go.uint64_sub, Go.int_sub.
  rewrite Ea, Eb.
  rewrite (to_uint64_id a) by (unfold Go.is_uint64 in *; lia).
  rewrite (to_int_id b Hb), (to_int_id (maxFD - b) Hb').
  rewrite (to_uint64_id (maxMemory - a)) by (unfold Go.is_uint64 in *; lia).
  reflexivity.
Qed.

(** A share of 85 or 75 percent is 0 exactly when the total is at most 1 in
    magnitude, and is never the whole of a total other than 0. *)
Lemma percentShare_zero (pct total share : Z) :
  pct = 85 \/ pct = 75 ->
  percentShare pct total share ->
  (share = 0 <-> Z.abs total <= 1) /\ (total <> 0 -> total - share <> 0).
Proof.
  unfold percentShare. intros Hp (Hsgn & Hle & Hub & Hlb).
  assert (Hs : share = 0 <-> Z.abs share = 0) by lia.
  split.
  - rewrite Hs. split; intros H.
    + rewrite H in Hlb. destruct Hp; subst pct; lia.
    + destruct Hp; subst pct; lia.
  - intros Ht. assert (Z.abs share < Z.abs total) by (destruct Hp; subst pct; lia).
    destruct total; cbn [Z.sgn Z.abs] in *; lia.
Qed.

Section Defaults.

Variables (TotalMemory GetNumFDs : Z).

(** X17: a memory budget of 0 stands for 85% of the machine's memory, as
    exactly as float64 allows and never more than the machine has; a
    file-descriptor budget of 0 stands for half of the process's file
    descriptors, rounded toward zero. *)
Theorem default_budget :
  Go.is_uint64 TotalMemory -> Go.is_int GetNumFDs ->
  percentShare 85 TotalMemory (budgetMemory TotalMemory 0)
  /\ 0 <= budgetMemory TotalMemory 0 <= TotalMemory
  /\ budgetFD GetNumFDs 0 = Z.quot GetNumFDs 2.
Proof.
  intros Hm Hf.
  destruct (bitswapHostMem_share TotalMemory Hm) as (a & Ea & Ha & Hpa).
  change (budgetMemory TotalMemory 0) with (defaultMaxMemory TotalMemory).
  change (budgetFD GetNumFDs 0) with (defaultMaxFD GetNumFDs).
  unfold defaultMaxMemory, defaultMaxFD, Float64.to_uint64. rewrite Ea.
  rewrite (to_uint64_id a) by (unfold Go.is_uint64 in *; lia).
  split; [exact Hpa |]. split; [exact Ha |].
  apply int_div_pos; [exact Hf | lia].
Qed.

End Defaults.

(** X18: in a dual-host plan the secondary host always gets a part of a
    budget that is not 0, and the primary host gets a part of every budget
    of 2 or more; of a budget of 1 (a byte, a file descriptor) the primary
    share is 0. *)
Theorem shares_nonzero (maxMemory maxFD : Z) :
  Go.is_uint64 maxMemory -> Go.is_int maxFD ->
  (bitswapHostMem (splitBudget maxMemory maxFD) = 0 <-> maxMemory <= 1)
  /\ (maxMemory <> 0 -> dhtHostMem (splitBudget maxMemory maxFD) <> 0)
  /\ (bitswapHostFDs (splitBudget maxMemory maxFD) = 0 <-> Z.abs maxFD <= 1)
  /\ (maxFD <> 0 -> dhtHostFDs (splitBudget maxMemory maxFD) <> 0).
Proof.
  intros Hm Hf.
  destruct (splitBudget_shares maxMemory maxFD Hm Hf) as (a & b & -> & Ha & Hpa & Hpb).
  cbn [bitswapHostMem bitswapHostFDs dhtHostMem dhtHostFDs].
  destruct (percentShare_zero 85 maxMemory a (or_introl eq_refl) Hpa) as [Z1 N1].
  destruct (percentShare_zero 75 maxFD b (or_intror eq_refl) Hpb) as [Z2 N2].
  unfold Go.is_uint64 in Hm.
  repeat match goal with |- _ /\ _ => split end; try assumption.
  rewrite Z1. lia.
Qed.

Section PrimaryBudget.

Variables (TotalMemory GetNumFDs : Z) (Scale : Z -> Z -> ConcreteLimitConfig).

(** X19: so in a dual-host plan over at least 2 bytes and 2 file
    descriptors the primary host is planned for its own share; but a
    primary share of 0, which a total of 1 produces, is taken by the
    general-host builder for "no budget given" and replaced by the
    machine's default. *)
Theorem primary_budget (maxMemory maxFD : Z) :
  Go.is_uint64 maxMemory -> 0 <= maxFD <= Go.MaxInt ->
  (2 <= maxMemory ->
   budgetMemory TotalMemory (bitswapHostMem (splitBudget maxMemory maxFD))
   = bitswapHostMem (splitBudget maxMemory maxFD))
  /\ (2 <= maxFD ->
      budgetFD GetNumFDs (bitswapHostFDs (splitBudget maxMemory maxFD))
      = bitswapHostFDs (splitBudget maxMemory maxFD))
  /\ (maxMemory <= 1 ->
      budgetMemory TotalMemory (bitswapHostMem (splitBudget maxMemory maxFD))
      = defaultMaxMemory TotalMemory)
  /\ (maxFD <= 1 ->
      budgetFD GetNumFDs (bitswapHostFDs (splitBudget maxMemory maxFD))
      = defaultMaxFD GetNumFDs).
Proof.
  intros Hm Hf.
  assert (Hf' : Go.is_int maxFD) by (unfold Go.is_int, Go.MinInt, Go.MaxInt in *; lia).
  destruct (splitBudget_shares maxMemory maxFD Hm Hf') as (a & b & -> & Ha & Hpa & Hpb).
  cbn [bitswapHostMem bitswapHostFDs].
  destruct (percentShare_zero 85 maxMemory a (or_introl eq_refl) Hpa) as [Z1 _].
  destruct (percentShare_zero 75 maxFD b (or_intror eq_refl) Hpb) as [Z2 _].
  unfold Go.is_uint64 in Hm.
  repeat match goal with |- _ /\ _ => split end; intros H.
  - apply budgetMemory_nonzero. rewrite Z1. lia.
  - apply budgetFD_nonzero. rewrite Z2. lia.
  - assert (a = 0) as -> by (apply Z1; lia). reflexivity.
  - assert (b = 0) as -> by (apply Z2; lia). reflexivity.
Qed.

End PrimaryBudget.

Section MoreScopes.

Variables (TotalMemory GetNumFDs : Z) (Scale : Z -> Z -> ConcreteLimitConfig).

(** X20: the DHT-client builder returns a Transient scope of 7 inbound
    connections (a quarter of its fixed 30) for every budget, a quarter of
    its memory share from 4 bytes on and a quarter of its file descriptors
    from 4 on. *)
Theorem dht_transient_returned (maxMemory maxFD : Z) :
  BaseLimit.ConnsInbound
    (transient (makeSeparateDHTClientResourceManagerConfig Scale maxMemory maxFD)) = 7
  /\ (4 <= maxMemory <= Go.MaxUint64 ->
      BaseLimit.Memory
        (transient (makeSeparateDHTClientResourceManagerConfig Scale maxMemory maxFD))
      = maxMemory / 4)
  /\ (4 <= maxFD <= Go.MaxInt ->
      BaseLimit.FD
        (transient (makeSeparateDHTClientResourceManagerConfig Scale maxMemory maxFD))
      = maxFD / 4).
Proof.
  unfold makeSeparateDHTClientResourceManagerConfig,
    makeSeparateDHTClientResourceManagerConfig_resolved.
  rewrite frozen_transient. frozen_fields.
  cbn [makeSeparateDHTClientResourceManagerConfig_partialLimits Transient Memory FD
       ConnsInbound].
  repeat match goal with |- _ /\ _ => split end.
  - change (Go.int_div 30 4) with 7. apply freeze_concrete. unfold Go.MaxInt. lia.
  - intros Hm. unfold Go.MaxUint64 in Hm.
    assert (Hq : 1 <= maxMemory / 4 < 2 ^ 62).
    { split; [apply Z.div_le_lower_bound; lia | apply Z.div_lt_upper_bound; lia]. }
    unfold Go.uint64_div.
    rewrite to_int_id by (unfold Go.is_int, Go.MinInt, Go.MaxInt; lia).
    apply freeze_concrete. unfold Go.MaxInt. lia.
  - intros Hf. unfold Go.MaxInt in Hf.
    rewrite int_div_pos by (unfold Go.is_int, Go.MinInt, Go.MaxInt; lia).
    rewrite Z.quot_div_nonneg by lia.
    assert (Hq : 1 <= maxFD / 4 < 2 ^ 62).
    { split; [apply Z.div_le_lower_bound; lia | apply Z.div_lt_upper_bound; lia]. }
    apply freeze_concrete. unfold Go.MaxInt. lia.
Qed.

(** X21: neither builder ever limits the total or the outbound connections
    or streams of the System scope: whatever the budget, the autoscaler and
    the high-water mark, these come back unlimited (and so do the inbound
    streams of the DHT-client host). *)
Theorem system_outbound_unlimited (maxMemory maxFD connMgrHighWater : Z) :
  (BaseLimit.Conns
     (system (makeResourceManagerConfig TotalMemory GetNumFDs Scale maxMemory maxFD
                connMgrHighWater)) = Go.MaxInt
   /\ BaseLimit.ConnsOutbound
        (system (makeResourceManagerConfig TotalMemory GetNumFDs Scale maxMemory maxFD
                   connMgrHighWater)) = Go.MaxInt
   /\ BaseLimit.Streams
        (system (makeResourceManagerConfig TotalMemory GetNumFDs Scale maxMemory maxFD
                   connMgrHighWater)) = Go.MaxInt
   /\ BaseLimit.StreamsOutbound
        (system (makeResourceManagerConfig TotalMemory GetNumFDs Scale maxMemory maxFD
                   connMgrHighWater)) = Go.MaxInt)
  /\ (BaseLimit.Conns
        (system (makeSeparateDHTClientResourceManagerConfig Scale maxMemory maxFD))
      = Go.MaxInt
      /\ BaseLimit.ConnsOutbound
           (system (makeSeparateDHTClientResourceManagerConfig Scale maxMemory maxFD))
         = Go.MaxInt
      /\ BaseLimit.Streams
           (system (makeSeparateDHTClientResourceManagerConfig Scale maxMemory maxFD))
         = Go.MaxInt
      /\ BaseLimit.StreamsInbound
           (system (makeSeparateDHTClientResourceManagerConfig Scale maxMemory maxFD))
         = Go.MaxInt
      /\ BaseLimit.StreamsOutbound
           (system (makeSeparateDHTClientResourceManagerConfig Scale maxMemory maxFD))
         = Go.MaxInt).
Proof.
  rewrite makeResourceManagerConfig_eq.
  repeat match goal with |- _ /\ _ => split end; reflexivity.
Qed.

End MoreScopes.

(** ** These properties at concrete budgets *)

Lemma system_budget_returned_4GiB :
  (0 < 4294967296 <= Go.MaxInt /\ 0 < 4096 <= Go.MaxInt)
  /\ BaseLimit.Memory
       (system (makeResourceManagerConfig Sample.TotalMemory Sample.GetNumFDs Sample.Scale
                  4294967296 4096 400)) = 4294967296
  /\ BaseLimit.FD
       (system (makeResourceManagerConfig Sample.TotalMemory Sample.GetNumFDs Sample.Scale
                  4294967296 4096 400)) = 4096
  /\ BaseLimit.Memory
       (system (makeSeparateDHTClientResourceManagerConfig Sample.Scale 4294967296 4096))
     = 4294967296
  /\ BaseLimit.FD
       (system (makeSeparateDHTClientResourceManagerConfig Sample.Scale 4294967296 4096))
     = 4096.
Proof.
  assert (Hm : 0 < 4294967296 <= Go.MaxInt) by (unfold Go.MaxInt; lia).
  assert (Hf : 0 < 4096 <= Go.MaxInt) by (unfold Go.MaxInt; lia).
  split; [split; assumption |].
  exact (system_budget_returned Sample.TotalMemory Sample.GetNumFDs Sample.Scale
           4294967296 4096 400 Hm Hf).
Defined.

Lemma system_memory_beyond_int64_16EiB :
  2 ^ 63 <= 2 ^ 64 - 2 <= Go.MaxUint64
  /\ BaseLimit.Memory
       (system (makeResourceManagerConfig Sample.TotalMemory Sample.GetNumFDs Sample.Scale
                  (2 ^ 64 - 2) 4096 400)) = 0.
Proof.
  assert (Hm : 2 ^ 63 <= 2 ^ 64 - 2 <= Go.MaxUint64) by (unfold Go.MaxUint64; lia).
  split; [exact Hm |].
  exact (proj1 (system_memory_beyond_int64 Sample.TotalMemory Sample.GetNumFDs Sample.Scale
                  (2 ^ 64 - 2) 4096 400 Hm)).
Defined.

Lemma zero_memory_budget_16GiB :
  (0 < defaultMaxMemory Sample.TotalMemory <= Go.MaxInt
   /\ 0 <= BaseLimit.Memory (system (Sample.Scale (Go.to_int 0) 4096)))
  /\ BaseLimit.Memory
       (system (makeResourceManagerConfig Sample.TotalMemory Sample.GetNumFDs Sample.Scale
                  0 4096 400)) = defaultMaxMemory Sample.TotalMemory
  /\ BaseLimit.Memory (system (makeSeparateDHTClientResourceManagerConfig Sample.Scale 0 4096))
     = BaseLimit.Memory (system (Sample.Scale (Go.to_int 0) 4096)).
Proof.
  assert (Hd : 0 < defaultMaxMemory Sample.TotalMemory <= Go.MaxInt)
    by (vm_compute; split; [reflexivity | discriminate]).
  assert (Hs : 0 <= BaseLimit.Memory (system (Sample.Scale (Go.to_int 0) 4096)))
    by (vm_compute; discriminate).
  split; [split; assumption |].
  exact (zero_memory_budget Sample.TotalMemory Sample.GetNumFDs Sample.Scale 4096 400 Hd Hs).
Defined.

Lemma transient_returned_4GiB :
  4 <= 4294967296 <= Go.MaxUint64
  /\ BaseLimit.Memory
       (transient (makeResourceManagerConfig Sample.TotalMemory Sample.GetNumFDs Sample.Scale
                     4294967296 4096 400)) = 4294967296 / 4.
Proof.
  assert (Hm : 4 <= 4294967296 <= Go.MaxUint64) by (unfold Go.MaxUint64; lia).
  split; [exact Hm |].
  exact (proj1 (transient_returned Sample.TotalMemory Sample.GetNumFDs Sample.Scale
                  4294967296 4096 400) Hm).
Defined.

Lemma transient_inherited_when_small_3B :
  (nonNegative (transient (Sample.Scale (Go.to_int (budgetMemory Sample.TotalMemory 3))
                             (budgetFD Sample.GetNumFDs 3)))
   /\ 0 < 3 < 4)
  /\ BaseLimit.Memory
       (transient (makeResourceManagerConfig Sample.TotalMemory Sample.GetNumFDs Sample.Scale
                     3 3 400))
     = BaseLimit.Memory
         (transient (Sample.Scale (Go.to_int (budgetMemory Sample.TotalMemory 3))
                       (budgetFD Sample.GetNumFDs 3))).
Proof.
  assert (Hn : nonNegative
                 (transient (Sample.Scale (Go.to_int (budgetMemory Sample.TotalMemory 3))
                               (budgetFD Sample.GetNumFDs 3))))
    by (apply (bool_decide_unpack _); vm_compute; exact I).
  assert (H3 : 0 < 3 < 4) by lia.
  split; [split; assumption |].
  exact (proj1 (transient_inherited_when_small Sample.TotalMemory Sample.GetNumFDs
                  Sample.Scale 3 3 400 Hn) H3).
Defined.

Lemma peer_default_returned_4GiB :
  (nonNegative (peerDefault (Sample.Scale (Go.to_int (budgetMemory Sample.TotalMemory 4294967296))
                               (budgetFD Sample.GetNumFDs 4096)))
   /\ nonNegative (peerDefault (Sample.Scale (Go.to_int 4294967296) 4096)))
  /\ BaseLimit.ConnsInbound
       (peerDefault (makeResourceManagerConfig Sample.TotalMemory Sample.GetNumFDs Sample.Scale
                       4294967296 4096 400)) = 320.
Proof.
  assert (Hn : nonNegative
                 (peerDefault
                    (Sample.Scale (Go.to_int (budgetMemory Sample.TotalMemory 4294967296))
                       (budgetFD Sample.GetNumFDs 4096))))
    by (apply (bool_decide_unpack _); vm_compute; exact I).
  assert (Hn' : nonNegative (peerDefault (Sample.Scale (Go.to_int 4294967296) 4096)))
    by (apply (bool_decide_unpack _); vm_compute; exact I).
  split; [split; assumption |].
  rewrite (proj1 (peer_default_returned Sample.TotalMemory Sample.GetNumFDs Sample.Scale
                    4294967296 4096 400 Hn Hn')).
  vm_compute. reflexivity.
Defined.

Lemma inbound_conns_closed_form_64MiB :
  2 ^ 20 <= 67108864 <= Go.MaxUint64
  /\ finalInboundConns Sample.TotalMemory Sample.GetNumFDs Sample.Scale 67108864 256 600
     = Z.max (Z.max (67108864 / 2 ^ 20) (Go.int_mul 600 2)) 800.
Proof.
  assert (Hm : 2 ^ 20 <= 67108864 <= Go.MaxUint64) by (unfold Go.MaxUint64; lia).
  split; [exact Hm |].
  exact (inbound_conns_closed_form Sample.TotalMemory Sample.GetNumFDs Sample.Scale
           67108864 256 600 Hm).
Defined.

Lemma inbound_conns_under_one_megabyte_1000B :
  (0 < 1000 < 2 ^ 20
   /\ 0 < BaseLimit.ConnsInbound
            (system (Sample.Scale (Go.to_int 1000) (budgetFD Sample.GetNumFDs 2))) < Go.MaxInt)
  /\ finalInboundConns Sample.TotalMemory Sample.GetNumFDs Sample.Scale 1000 2 600
     = Z.max (Z.max (BaseLimit.ConnsInbound
                       (system (Sample.Scale (Go.to_int 1000) (budgetFD Sample.GetNumFDs 2))))
                (Go.int_mul 600 2)) 800.
Proof.
  assert (Hm : 0 < 1000 < 2 ^ 20) by lia.
  assert (Ha : 0 < BaseLimit.ConnsInbound
                     (system (Sample.Scale (Go.to_int 1000) (budgetFD Sample.GetNumFDs 2)))
               < Go.MaxInt) by (vm_compute; split; reflexivity).
  split; [split; assumption |].
  exact (proj1 (inbound_conns_under_one_megabyte Sample.TotalMemory Sample.GetNumFDs
                  Sample.Scale 1000 2 600 Hm) Ha).
Defined.

Lemma inbound_conns_monotone_400_600 :
  (- 2 ^ 62 <= 400 /\ 400 <= 600 /\ 600 < 2 ^ 62)
  /\ finalInboundConns Sample.TotalMemory Sample.GetNumFDs Sample.Scale 67108864 256 400
     <= finalInboundConns Sample.TotalMemory Sample.GetNumFDs Sample.Scale 67108864 256 600.
Proof.
  assert (H1 : - 2 ^ 62 <= 400) by lia.
  assert (H2 : 400 <= 600) by lia.
  assert (H3 : 600 < 2 ^ 62) by lia.
  split; [repeat split; assumption |].
  exact (inbound_conns_monotone Sample.TotalMemory Sample.GetNumFDs Sample.Scale
           67108864 256 400 600 H1 H2 H3).
Defined.

Lemma override_idempotent_64MiB :
  inboundStreams
    (makeResourceManagerConfig_merged Sample.TotalMemory Sample.GetNumFDs Sample.Scale
       67108864 256) <= DefaultLimit
  /\ overrideInboundConns
       (overrideInboundConns
          (makeResourceManagerConfig_merged Sample.TotalMemory Sample.GetNumFDs Sample.Scale
             67108864 256) 600) 600
     = overrideInboundConns
         (makeResourceManagerConfig_merged Sample.TotalMemory Sample.GetNumFDs Sample.Scale
            67108864 256) 600.
Proof.
  assert (Hs : inboundStreams
                 (makeResourceManagerConfig_merged Sample.TotalMemory Sample.GetNumFDs
                    Sample.Scale 67108864 256) <= DefaultLimit)
    by (vm_compute; discriminate).
  split; [exact Hs |].
  exact (proj2 (override_never_lowers_and_idempotent
                  (makeResourceManagerConfig_merged Sample.TotalMemory Sample.GetNumFDs
                     Sample.Scale 67108864 256) 600) Hs).
Defined.

Lemma rescale_never_lowers_streams_1GiB :
  (DefaultLimit < inboundConns Sample.autoscaled1GiB
   /\ DefaultLimit < inboundStreams Sample.autoscaled1GiB
   /\ inboundConns (overrideInboundConns Sample.autoscaled1GiB 600)
        * inboundStreams Sample.autoscaled1GiB <= Go.MaxInt)
  /\ inboundStreams Sample.autoscaled1GiB
     <= inboundStreams (overrideInboundConns Sample.autoscaled1GiB 600).
Proof.
  assert (Hc : DefaultLimit < inboundConns Sample.autoscaled1GiB) by (vm_compute; reflexivity).
  assert (Hs : DefaultLimit < inboundStreams Sample.autoscaled1GiB) by (vm_compute; reflexivity).
  assert (Hfit : inboundConns (overrideInboundConns Sample.autoscaled1GiB 600)
                   * inboundStreams Sample.autoscaled1GiB <= Go.MaxInt)
    by (vm_compute; discriminate).
  split; [repeat split; assumption |].
  exact (rescale_never_lowers_streams Sample.autoscaled1GiB 600 Hc Hs Hfit).
Defined.

Lemma named_limits_added_4GiB :
  service (makeResourceManagerConfig Sample.TotalMemory Sample.GetNumFDs Sample.Scale
             4294967296 4096 400)
  = service (Sample.Scale (Go.to_int (budgetMemory Sample.TotalMemory 4294967296))
               (budgetFD Sample.GetNumFDs 4096)).
Proof.
  apply (named_limits_added Sample.TotalMemory Sample.GetNumFDs Sample.Scale
           4294967296 4096 400);
    apply (bool_decide_unpack _); vm_compute; exact I.
Defined.

Lemma default_budget_16GiB :
  (Go.is_uint64 Sample.TotalMemory /\ Go.is_int Sample.GetNumFDs)
  /\ percentShare 85 Sample.TotalMemory (budgetMemory Sample.TotalMemory 0)
  /\ 0 <= budgetMemory Sample.TotalMemory 0 <= Sample.TotalMemory
  /\ budgetFD Sample.GetNumFDs 0 = Z.quot Sample.GetNumFDs 2.
Proof.
  assert (Hm : Go.is_uint64 Sample.TotalMemory)
    by (unfold Go.is_uint64, Go.MaxUint64, Sample.TotalMemory; lia).
  assert (Hf : Go.is_int Sample.GetNumFDs)
    by (unfold Go.is_int, Go.MinInt, Go.MaxInt, Sample.GetNumFDs; lia).
  split; [split; assumption |].
  exact (default_budget Sample.TotalMemory Sample.GetNumFDs Hm Hf).
Defined.

Lemma shares_nonzero_1000MiB :
  (Go.is_uint64 1048576000 /\ Go.is_int 1000)
  /\ (bitswapHostMem (splitBudget 1048576000 1000) = 0 <-> 1048576000 <= 1)
  /\ (1048576000 <> 0 -> dhtHostMem (splitBudget 1048576000 1000) <> 0)
  /\ (bitswapHostFDs (splitBudget 1048576000 1000) = 0 <-> Z.abs 1000 <= 1)
  /\ (1000 <> 0 -> dhtHostFDs (splitBudget 1048576000 1000) <> 0).
Proof.
  assert (Hm : Go.is_uint64 1048576000) by (unfold Go.is_uint64, Go.MaxUint64; lia).
  assert (Hf : Go.is_int 1000) by (unfold Go.is_int, Go.MinInt, Go.MaxInt; lia).
  split; [split; assumption |].
  exact (shares_nonzero 1048576000 1000 Hm Hf).
Defined.

Lemma primary_budget_1B :
  (Go.is_uint64 1 /\ 0 <= 1 <= Go.MaxInt)
  /\ budgetMemory Sample.TotalMemory (bitswapHostMem (splitBudget 1 1))
     = defaultMaxMemory Sample.TotalMemory
  /\ budgetFD Sample.GetNumFDs (bitswapHostFDs (splitBudget 1 1))
     = defaultMaxFD Sample.GetNumFDs.
Proof.
  assert (Hm : Go.is_uint64 1) by (unfold Go.is_uint64, Go.MaxUint64; lia).
  assert (Hf : 0 <= 1 <= Go.MaxInt) by (unfold Go.MaxInt; lia).
  split; [split; assumption |].
  pose proof (primary_budget Sample.TotalMemory Sample.GetNumFDs 1 1 Hm Hf)
    as (_ & _ & H3 & H4).
  split; [apply H3 | apply H4]; lia.
Defined.

Lemma dht_transient_returned_150MiB :
  4 <= 157286400 <= Go.MaxUint64
  /\ BaseLimit.Memory
       (transient (makeSeparateDHTClientResourceManagerConfig Sample.Scale 157286400 250))
     = 157286400 / 4.
Proof.
  assert (Hm : 4 <= 157286400 <= Go.MaxUint64) by (unfold Go.MaxUint64; lia).
  split; [exact Hm |].
  exact (proj1 (proj2 (dht_transient_returned Sample.Scale 157286400 250)) Hm).
Defined.

(** ** The dual-host plan *)

Lemma budgetMemory_is_uint64 (TotalMemory maxMemory : Z) :
  Go.is_uint64 maxMemory -> Go.is_uint64 (budgetMemory TotalMemory maxMemory).
Proof.
  intros H. unfold budgetMemory. destruct (maxMemory =? 0); [| exact H].
  unfold defaultMaxMemory, Float64.to_uint64, Go.to_uint64, Go.is_uint64, Go.MaxUint64.
  match goal with |- 0 <= ?z mod _ <= _ => pose proof (Z.mod_pos_bound z (2 ^ 64)) end. lia.
Qed.

Lemma budgetFD_is_int (GetNumFDs maxFD : Z) :
  Go.is_int maxFD -> Go.is_int (budgetFD GetNumFDs maxFD).
Proof.
  intros H. unfold budgetFD. destruct (maxFD =? 0); [| exact H].
  apply to_int_is_int.
Qed.

Section Split.

Variables (TotalMemory GetNumFDs : Z) (Scale : Z -> Z -> ConcreteLimitConfig).
Variables (ResourceManager error : Type).
Variable NewResourceManager : ConcreteLimitConfig -> ResourceManager + error.

(** The two hosts of a dual-host plan are the resource managers of the two
    builders' configurations for the two shares of the budget. *)
Lemma makeResourceMgrs_dual (maxMemory maxFD connMgrHighWater : Z)
    (bitswapHost dhtHost : ResourceManager) :
  makeResourceMgrs TotalMemory GetNumFDs Scale ResourceManager error NewResourceManager
    maxMemory maxFD connMgrHighWater true
  = (Some bitswapHost, Some dhtHost, None)
  <-> NewResourceManager
        (makeResourceManagerConfig TotalMemory GetNumFDs Scale
           (bitswapHostMem
              (splitBudget (budgetMemory TotalMemory maxMemory) (budgetFD GetNumFDs maxFD)))
           (bitswapHostFDs
              (splitBudget (budgetMemory TotalMemory maxMemory) (budgetFD GetNumFDs maxFD)))
           connMgrHighWater) = inl bitswapHost
      /\ NewResourceManager
           (makeSeparateDHTClientResourceManagerConfig Scale
              (dhtHostMem
                 (splitBudget (budgetMemory TotalMemory maxMemory) (budgetFD GetNumFDs maxFD)))
              (dhtHostFDs
                 (splitBudget (budgetMemory TotalMemory maxMemory) (budgetFD GetNumFDs maxFD))))
         = inl dhtHost.
Proof.
  unfold makeResourceMgrs. cbn [negb].
  destruct (NewResourceManager (makeResourceManagerConfig _ _ _ _ _ _)) as [b | e];
    [destruct (NewResourceManager (makeSeparateDHTClientResourceManagerConfig _ _ _))
       as [d | e] |];
    split; try (intros [H1 H2]); try intros H; try discriminate;
    try (injection H as -> ->; split; reflexivity);
    try (injection H1 as ->; injection H2 as ->; reflexivity).
Qed.

(** The general-host builder reads its budget through the zero
    substitution alone. *)
Lemma makeResourceManagerConfig_budget (maxMemory maxFD connMgrHighWater : Z) :
  makeResourceManagerConfig TotalMemory GetNumFDs Scale maxMemory maxFD connMgrHighWater
  = makeResourceManagerConfig TotalMemory GetNumFDs Scale
      (budgetMemory TotalMemory maxMemory) (budgetFD GetNumFDs maxFD) connMgrHighWater.
Proof.
  unfold makeResourceManagerConfig, makeResourceManagerConfig_resolved,
    makeResourceManagerConfig_merged.
  now rewrite budgetMemory_idem, budgetFD_idem.
Qed.

(** C3: with a separate DHT host the planner builds the primary host for 85%
    of the memory and 75% of the file descriptors, as exactly as float64
    allows, and the secondary host for the remainder; the two shares add up
    to the total, in the integers and in Go's wrapping arithmetic alike, and
    for totals from 2 up to math.MaxInt so do the System limits of the two
    returned configurations.  The total is the budget after the planner's
    zero substitution.  A primary share of 0, which only a total of at most
    1 produces, is passed on as 0 all the same, which the general-host
    builder reads as no budget given. *)
Theorem split_conserves_budget (maxMemory maxFD connMgrHighWater : Z) :
  Go.is_uint64 maxMemory -> Go.is_int maxFD ->
  let totalMemory := budgetMemory TotalMemory maxMemory in
  let totalFD := budgetFD GetNumFDs maxFD in
  let shares := splitBudget totalMemory totalFD in
  let primary :=
    makeResourceManagerConfig TotalMemory GetNumFDs Scale
      (bitswapHostMem shares) (bitswapHostFDs shares) connMgrHighWater in
  let secondary :=
    makeSeparateDHTClientResourceManagerConfig Scale (dhtHostMem shares) (dhtHostFDs shares) in
  (forall bitswapHost dhtHost : ResourceManager,
     makeResourceMgrs TotalMemory GetNumFDs Scale ResourceManager error NewResourceManager
       maxMemory maxFD connMgrHighWater true
     = (Some bitswapHost, Some dhtHost, None)
     <-> NewResourceManager primary = inl bitswapHost
         /\ NewResourceManager secondary = inl dhtHost)
  /\ (percentShare 85 totalMemory (bitswapHostMem shares)
      /\ dhtHostMem shares = totalMemory - bitswapHostMem shares
      /\ bitswapHostMem shares + dhtHostMem shares = totalMemory
      /\ Go.uint64_add (bitswapHostMem shares) (dhtHostMem shares) = totalMemory)
  /\ (percentShare 75 totalFD (bitswapHostFDs shares)
      /\ dhtHostFDs shares = totalFD - bitswapHostFDs shares
      /\ bitswapHostFDs shares + dhtHostFDs shares = totalFD
      /\ Go.int_add (bitswapHostFDs shares) (dhtHostFDs shares) = totalFD)
  /\ (2 <= totalMemory <= Go.MaxInt ->
      BaseLimit.Memory (system primary) = bitswapHostMem shares
      /\ BaseLimit.Memory (system secondary) = dhtHostMem shares
      /\ BaseLimit.Memory (system primary) + BaseLimit.Memory (system secondary)
         = totalMemory)
  /\ (2 <= totalFD <= Go.MaxInt ->
      BaseLimit.FD (system primary) = bitswapHostFDs shares
      /\ BaseLimit.FD (system secondary) = dhtHostFDs shares
      /\ BaseLimit.FD (system primary) + BaseLimit.FD (system secondary) = totalFD)
  /\ (bitswapHostMem shares = 0 <-> totalMemory <= 1)
  /\ (bitswapHostFDs shares = 0 <-> Z.abs totalFD <= 1)
  /\ (totalMemory <= 1 ->
      primary
      = makeResourceManagerConfig TotalMemory GetNumFDs Scale
          (defaultMaxMemory TotalMemory) (bitswapHostFDs shares) connMgrHighWater)
  /\ (Z.abs totalFD <= 1 ->
      primary
      = makeResourceManagerConfig TotalMemory GetNumFDs Scale
          (bitswapHostMem shares) (defaultMaxFD GetNumFDs) connMgrHighWater).
Proof.
  intros Hm0 Hf0 totalMemory totalFD shares primary secondary.
  assert (Hm : Go.is_uint64 totalMemory) by now apply budgetMemory_is_uint64.
  assert (Hf : Go.is_int totalFD) by now apply budgetFD_is_int.
  split; [intros b d; apply makeResourceMgrs_dual |].
  destruct (splitBudget_shares totalMemory totalFD Hm Hf) as (a & b & E & Ha & Hpa & Hpb).
  destruct (percentShare_zero 85 totalMemory a (or_introl eq_refl) Hpa) as [Z1 _].
  destruct (percentShare_zero 75 totalFD b (or_intror eq_refl) Hpb) as [Z2 _].
  assert (Ea : bitswapHostMem shares = a) by (unfold shares; now rewrite E).
  assert (Eb : bitswapHostFDs shares = b) by (unfold shares; now rewrite E).
  assert (Ea' : dhtHostMem shares = totalMemory - a) by (unfold shares; now rewrite E).
  assert (Eb' : dhtHostFDs shares = totalFD - b) by (unfold shares; now rewrite E).
  assert (Hpb' : Z.abs b <= Z.abs totalFD /\ b = Z.sgn totalFD * Z.abs b)
    by (unfold percentShare in Hpb; tauto).
  unfold primary, secondary.
  rewrite Ea, Eb, Ea', Eb'.
  clear Ea Eb Ea' Eb' E primary secondary shares. clearbody totalMemory totalFD.
  unfold Go.is_uint64, Go.MaxUint64 in Hm. unfold Go.is_int, Go.MinInt, Go.MaxInt in Hf.
  repeat match goal with |- _ /\ _ => split end; try assumption; try lia.
  - unfold Go.uint64_add. replace (a + (totalMemory - a)) with totalMemory by lia.
    apply to_uint64_id. unfold Go.is_uint64, Go.MaxUint64. lia.
  - unfold Go.int_add. replace (b + (totalFD - b)) with totalFD by lia.
    apply to_int_id. unfold Go.is_int, Go.MinInt, Go.MaxInt. lia.
  - intros H. unfold Go.MaxInt in H.
    assert (Hpos : 0 < a) by (destruct (Z.eq_dec a 0) as [Ez | ?]; [apply Z1 in Ez |]; lia).
    assert (Hrem : 0 < totalMemory - a).
    { destruct Hpa as (_ & _ & Hub & _). lia. }
    rewrite general_system_Memory, dht_system_Memory.
    rewrite budgetMemory_nonzero by lia.
    rewrite !to_int_id by (unfold Go.is_int, Go.MinInt, Go.MaxInt; lia).
    rewrite !freeze_concrete by (unfold Go.MaxInt; lia).
    repeat split; lia.
  - intros H. unfold Go.MaxInt in H.
    assert (Hpos : 0 < b).
    { destruct (Z.eq_dec b 0) as [Ez | ?]; [apply Z2 in Ez; lia |].
      destruct Hpb' as [_ Hs]. rewrite Z.sgn_pos in Hs by lia. lia. }
    assert (Hrem : 0 < totalFD - b).
    { destruct Hpb as (_ & _ & Hub & _). lia. }
    rewrite general_system_FD, dht_system_FD.
    rewrite budgetFD_nonzero by lia.
    rewrite !freeze_concrete by (unfold Go.MaxInt; lia).
    repeat split; lia.
  - intros H. assert (a = 0) as -> by (apply Z1; lia).
    rewrite (makeResourceManagerConfig_budget (defaultMaxMemory TotalMemory) b).
    change (defaultMaxMemory TotalMemory) with (budgetMemory TotalMemory 0).
    rewrite budgetMemory_idem. apply makeResourceManagerConfig_budget.
  - intros H. assert (b = 0) as -> by (apply Z2; lia).
    rewrite (makeResourceManagerConfig_budget a (defaultMaxFD GetNumFDs)).
    change (defaultMaxFD GetNumFDs) with (budgetFD GetNumFDs 0).
    rewrite budgetFD_idem. apply makeResourceManagerConfig_budget.
Qed.

End Split.

Lemma split_conserves_budget_1000MiB :
  Go.is_uint64 1048576000 /\ Go.is_int 1000
  /\ makeResourceMgrs Sample.TotalMemory Sample.GetNumFDs Sample.Scale
       ConcreteLimitConfig Empty_set inl 1048576000 1000 600 true
     = (Some (makeResourceManagerConfig Sample.TotalMemory Sample.GetNumFDs Sample.Scale
                891289600 750 600),
        Some (makeSeparateDHTClientResourceManagerConfig Sample.Scale 157286400 250),
        None)
  /\ percentShare 85 1048576000 891289600
  /\ percentShare 75 1000 750
  /\ BaseLimit.Memory
       (system (makeResourceManagerConfig Sample.TotalMemory Sample.GetNumFDs Sample.Scale
                  891289600 750 600))
     + BaseLimit.Memory
         (system (makeSeparateDHTClientResourceManagerConfig Sample.Scale 157286400 250))
     = 1048576000
  /\ BaseLimit.FD
       (system (makeResourceManagerConfig Sample.TotalMemory Sample.GetNumFDs Sample.Scale
                  891289600 750 600))
     + BaseLimit.FD
         (system (makeSeparateDHTClientResourceManagerConfig Sample.Scale 157286400 250))
     = 1000.
Proof.
  assert (Hm : Go.is_uint64 1048576000) by (unfold Go.is_uint64, Go.MaxUint64; lia).
  assert (Hf : Go.is_int 1000) by (unfold Go.is_int, Go.MinInt, Go.MaxInt; lia).
  split; [exact Hm |]. split; [exact Hf |].
  pose proof (split_conserves_budget Sample.TotalMemory Sample.GetNumFDs Sample.Scale
                ConcreteLimitConfig Empty_set inl 1048576000 1000 600 Hm Hf) as H.
  cbv zeta in H.
  change (budgetMemory Sample.TotalMemory 1048576000) with 1048576000 in H.
  change (budgetFD Sample.GetNumFDs 1000) with 1000 in H.
  assert (E1 : bitswapHostMem (splitBudget 1048576000 1000) = 891289600)
    by (vm_compute; reflexivity).
  assert (E2 : bitswapHostFDs (splitBudget 1048576000 1000) = 750)
    by (vm_compute; reflexivity).
  assert (E3 : dhtHostMem (splitBudget 1048576000 1000) = 157286400)
    by (vm_compute; reflexivity).
  assert (E4 : dhtHostFDs (splitBudget 1048576000 1000) = 250)
    by (vm_compute; reflexivity).
  rewrite E1, E2, E3, E4 in H.
  destruct H as (Hplan & (Hp85 & _) & (Hp75 & _) & Hmem & Hfd & _).
  split; [apply Hplan; split; reflexivity |].
  split; [exact Hp85 |]. split; [exact Hp75 |].
  split; [apply Hmem | apply Hfd]; unfold Go.MaxInt; lia.
Defined.

(** One byte and one descriptor for two hosts: both primary shares are 0,
    so the primary host is built for the machine's default (85% of 16 GiB
    and half of 1024 descriptors) and the secondary host for the byte and
    the descriptor. *)
Example dual_plan_1B :
  splitBudget 1 1
  = {| bitswapHostMem := 0; bitswapHostFDs := 0; dhtHostMem := 1; dhtHostFDs := 1 |}
  /\ BaseLimit.Memory
       (system (makeResourceManagerConfig Sample.TotalMemory Sample.GetNumFDs Sample.Scale
                  0 0 600)) = 14602888806
  /\ BaseLimit.FD
       (system (makeResourceManagerConfig Sample.TotalMemory Sample.GetNumFDs Sample.Scale
                  0 0 600)) = 512
  /\ BaseLimit.Memory (system (makeSeparateDHTClientResourceManagerConfig Sample.Scale 1 1))
     = 1
  /\ BaseLimit.FD (system (makeSeparateDHTClientResourceManagerConfig Sample.Scale 1 1)) = 1.
Proof. vm_compute. repeat split. Qed.
